(** * Weather proxy: a shallow embedding of [app/__init__.py]

    The service is a Flask application with two routes, [weather_daily] and
    [weather_weekly], both built on [fetch_weather] and [build_api_call].
    The embedding follows the Python source function by function.  Python
    values that flow through the handlers are modelled as the interpreter has
    them: [int] as [Z], [float] as an IEEE binary64 ([spec_float] at precision
    53), JSON documents as a tree of dictionaries and lists, exceptions as an
    error monad.

    The library functions the handlers call are modelled by what CPython
    computes: [float], [int], [round], [/], [statistics.mean], [max], [min],
    [collections.Counter].  Float results are correctly rounded, which
    [SFdiv] of the standard library provides for a quotient of two integers.
    Three things are left to the environment or outside the model: the date
    parser [date.fromisoformat], whose accepted syntax grew with Python 3.11,
    is a parameter of the handlers (the parser of Python 3.10 and the
    calendar forms of the parser of Python 3.11 instantiate it); path segments are ASCII; and the
    aggregates of the weekly summary are defined on arrays of finite numbers
    (anything else is [Unmodelled]). *)

From Stdlib Require Import ZArith QArith Bool List String Ascii Lia.
From Stdlib Require Import Floats.SpecFloat.
Import ListNotations.

Local Open Scope Z_scope.

(** ** Exceptions and the error monad *)

(** The exception classes the handlers can meet.  [ValueError] keeps its
    message because the routes echo [str(e)] in the 400 response.
    [HTTPException] is what [flask.abort] raises.  [Unmodelled] marks inputs
    outside the fragment of Python this development gives a meaning to
    (non-ASCII path segments, aggregates over arrays that are not arrays of
    finite numbers); it is never confused with a response of the service. *)
Inductive exn : Type :=
| ValueError (msg : string)
| OverflowError (msg : string)
| TypeError (msg : string)
| AttributeError (msg : string)
| KeyError (msg : string)
| IndexError (msg : string)
| RequestException (msg : string)
| HTTPException (code : Z) (description : string)
| Unmodelled (what : string).

Inductive pyres (A : Type) : Type :=
| Ok (a : A)
| Raise (e : exn).

Arguments Ok {A} a.
Arguments Raise {A} e.

Definition bind {A B : Type} (m : pyres A) (k : A -> pyres B) : pyres B :=
  match m with
  | Ok a => k a
  | Raise e => Raise e
  end.

Notation "x <- m ;; k" := (bind m (fun x => k))
  (at level 61, m at next level, right associativity).

(** ** Python numbers *)

Module Float64.

Definition prec : Z := 53.
Definition emax : Z := 1024.

(** Correctly rounded quotient of two integers, as CPython computes
    [int / int] and [float(Fraction(n, d))]: one rounding, to nearest
    even; too large a quotient gives an infinity. *)
Definition of_ratio (n : Z) (d : positive) : spec_float :=
  match n with
  | Z0 => S754_zero false
  | Zpos p => SFdiv prec emax (S754_finite false p 0) (S754_finite false d 0)
  | Zneg p => SFdiv prec emax (S754_finite true p 0) (S754_finite false d 0)
  end.

(** [sign * m * 10^e], correctly rounded: what [strtod] returns for a
    decimal literal with digits [m] and decimal exponent [e]. *)
Definition of_decimal (sign : bool) (m : Z) (e : Z) : spec_float :=
  match m with
  | Zpos p =>
      match e with
      | Zneg k => SFdiv prec emax (S754_finite sign p 0)
                    (S754_finite false (Pos.pow 10 k) 0)
      | _ => SFdiv prec emax (S754_finite sign (p * Z.to_pos (10 ^ e)) 0)
               (S754_finite false 1 0)
      end
  | _ => S754_zero sign
  end.

Definition is_finite (x : spec_float) : bool :=
  match x with
  | S754_zero _ | S754_finite _ _ _ => true
  | S754_infinity _ | S754_nan => false
  end.

(** The exact value of a finite float ([float.as_integer_ratio]). *)
Definition to_Q (x : spec_float) : Q :=
  match x with
  | S754_finite s m e =>
      match e with
      | Zneg k => Qmake (cond_Zopp s (Zpos m)) (Pos.pow 2 k)
      | _ => Qmake (cond_Zopp s (Zpos m * 2 ^ e)) 1
      end
  | _ => 0%Q
  end.

Definition is_zero (x : spec_float) : bool :=
  match x with
  | S754_zero _ => true
  | _ => false
  end.

End Float64.

(** A Python number: an [int] of any size or a [float]. *)
Inductive pynum : Type :=
| PInt (z : Z)
| PFloat (x : spec_float).

Definition num_finite (n : pynum) : bool :=
  match n with
  | PInt _ => true
  | PFloat x => Float64.is_finite x
  end.

(** Exact value of a finite number. *)
Definition num_val (n : pynum) : Q :=
  match n with
  | PInt z => inject_Z z
  | PFloat x => Float64.to_Q x
  end.

(** [int(x)]: truncation toward zero; [int(nan)] is a [ValueError],
    [int(inf)] an [OverflowError]. *)
Definition py_int (n : pynum) : pyres Z :=
  match n with
  | PInt z => Ok z
  | PFloat (S754_zero _) => Ok 0
  | PFloat (S754_finite s m e) => Ok (cond_Zopp s (Z.shiftl (Zpos m) e))
  | PFloat S754_nan => Raise (ValueError "cannot convert float NaN to integer")
  | PFloat (S754_infinity _) =>
      Raise (OverflowError "cannot convert float infinity to integer")
  end.

(** Round a non-negative rational [a/b] to the nearest integer, ties to
    even. *)
Definition round_half_even (a : Z) (b : positive) : Z :=
  let q := a / Zpos b in
  let r := a mod Zpos b in
  match (2 * r ?= Zpos b) with
  | Lt => q
  | Gt => q + 1
  | Eq => if Z.even q then q else q + 1
  end.

(** [round(x, ndigits)] for [ndigits >= 0].  An [int] is returned
    unchanged.  A float goes through its exact binary value: the decimal
    with [ndigits] places nearest to it (ties to even), then the float
    nearest to that decimal; the sign of a zero result is the sign of [x];
    infinities and NaN round to themselves. *)
Definition py_round (n : pynum) (ndigits : nat) : pynum :=
  match n with
  | PInt z => PInt z
  | PFloat (S754_finite s m e) =>
      let scale := Z.to_pos (10 ^ Z.of_nat ndigits) in
      let k :=
        match e with
        | Zneg j => round_half_even (Zpos (m * scale)) (Pos.pow 2 j)
        | _ => Zpos m * 2 ^ e * Zpos scale
        end in
      PFloat (match k with
              | Zpos p => SFdiv Float64.prec Float64.emax
                            (S754_finite s p 0) (S754_finite false scale 0)
              | _ => S754_zero s
              end)
  | PFloat x => PFloat x
  end.

(** [x / y] with [y] a non-zero [int]: true division.  [int / int] is the
    correctly rounded quotient and raises [OverflowError] when it does not
    fit a float; [float / int] converts the divisor and divides in binary64. *)
Definition py_truediv_int (x : pynum) (y : positive) : pyres pynum :=
  match x with
  | PInt z =>
      let r := Float64.of_ratio z y in
      if Float64.is_finite r then Ok (PFloat r)
      else Raise (OverflowError "integer division result too large for a float")
  | PFloat f =>
      let d := Float64.of_ratio (Zpos y) 1 in
      if Float64.is_finite d
      then Ok (PFloat (SFdiv Float64.prec Float64.emax f d))
      else Raise (OverflowError "int too large to convert to float")
  end.

(** Comparison of two finite numbers by exact value, as Python compares an
    [int] with a [float]. *)
Definition num_eqb (a b : pynum) : bool := Qeq_bool (num_val a) (num_val b).

Definition num_ltb (a b : pynum) : bool :=
  match (num_val a ?= num_val b)%Q with
  | Lt => true
  | _ => false
  end.

Definition is_int (n : pynum) : bool :=
  match n with
  | PInt _ => true
  | PFloat _ => false
  end.

(** ** [statistics.mean], [max], [min] over a list of finite numbers *)

(** The exact sum [statistics._sum] accumulates as a [Fraction]. *)
Definition exact_sum (l : list pynum) : Q :=
  fold_left (fun acc n => Qred (acc + num_val n)) l 0%Q.

(** [statistics.mean]: the exact sum divided by the count, converted back
    to the type of the data: an [int] when every element is an [int] and the
    quotient is integral, the nearest float otherwise. *)
Definition py_mean (l : list pynum) : pyres pynum :=
  match l with
  | [] => Raise (ValueError "mean requires at least one data point")
  | _ :: _ =>
      if negb (forallb num_finite l)
      then Raise (Unmodelled "mean of a non-finite float")
      else
        let m := Qred (exact_sum l / inject_Z (Z.of_nat (List.length l))) in
        if forallb is_int l && Pos.eqb (Qden m) 1
        then Ok (PInt (Qnum m))
        else
          let r := Float64.of_ratio (Qnum m) (Qden m) in
          if Float64.is_finite r then Ok (PFloat r)
          else Raise (OverflowError "integer division result too large for a float")
  end.

(** [max(l)] and [min(l)]: the running extremum is replaced only by a
    strictly greater (smaller) item, so the first extremal item is returned. *)
Definition py_max_from (first : pynum) (rest : list pynum) : pynum :=
  fold_left (fun best item => if num_ltb best item then item else best) rest first.

Definition py_min_from (first : pynum) (rest : list pynum) : pynum :=
  fold_left (fun best item => if num_ltb item best then item else best) rest first.

Definition py_max (l : list pynum) : pyres pynum :=
  match l with
  | [] => Raise (ValueError "max() arg is an empty sequence")
  | x :: t =>
      if forallb num_finite l then Ok (py_max_from x t)
      else Raise (Unmodelled "max over a non-finite float")
  end.

Definition py_min (l : list pynum) : pyres pynum :=
  match l with
  | [] => Raise (ValueError "min() arg is an empty sequence")
  | x :: t =>
      if forallb num_finite l then Ok (py_min_from x t)
      else Raise (Unmodelled "min over a non-finite float")
  end.

(** ** [collections.Counter] *)

Section Counter.

Variable A : Type.
Variable eqb : A -> A -> bool.

(** [mapping[elem] = mapping.get(elem, 0) + 1]: an existing key keeps its
    position and its first spelling; a new key is appended. *)
Fixpoint count_element (c : list (A * nat)) (elem : A) : list (A * nat) :=
  match c with
  | [] => [(elem, 1%nat)]
  | (k, n) :: t =>
      if eqb k elem then (k, S n) :: t else (k, n) :: count_element t elem
  end.

Definition Counter (l : list A) : list (A * nat) :=
  fold_left count_element l [].

(** [most_common(1)] is [max(items, key=itemgetter(1))]: the first item
    with the highest count. *)
Definition max_by_count (first : A * nat) (rest : list (A * nat)) : A * nat :=
  fold_left (fun best item => if (snd best <? snd item)%nat then item else best)
    rest first.

Definition most_common_1 (c : list (A * nat)) : list (A * nat) :=
  match c with
  | [] => []
  | x :: t => [max_by_count x t]
  end.

End Counter.

Arguments count_element {A} eqb c elem.
Arguments Counter {A} eqb l.
Arguments max_by_count {A} first rest.
Arguments most_common_1 {A} c.

(** ** [float(s)] on a path segment *)

Module FloatParse.

Local Open Scope char_scope.

Definition is_space (c : ascii) : bool :=
  let n := nat_of_ascii c in
  (n =? 32)%nat || ((9 <=? n)%nat && (n <=? 13)%nat).

Definition is_digit (c : ascii) : bool :=
  let n := nat_of_ascii c in
  (48 <=? n)%nat && (n <=? 57)%nat.

Definition is_ascii (c : ascii) : bool := (nat_of_ascii c <? 128)%nat.

Definition lower (c : ascii) : ascii :=
  let n := nat_of_ascii c in
  if (65 <=? n)%nat && (n <=? 90)%nat then ascii_of_nat (n + 32) else c.

Fixpoint lstrip (s : list ascii) : list ascii :=
  match s with
  | c :: t => if is_space c then lstrip t else s
  | [] => []
  end.

Definition strip (s : list ascii) : list ascii :=
  rev (lstrip (rev (lstrip s))).

(** Underscores are dropped when each one stands between two digits;
    [None] when one does not. *)
Fixpoint drop_underscores (prev : ascii) (s : list ascii) : option (list ascii) :=
  match s with
  | [] => if Ascii.eqb prev "_" then None else Some []
  | c :: t =>
      if Ascii.eqb c "_"
      then if is_digit prev then drop_underscores c t else None
      else if Ascii.eqb prev "_" && negb (is_digit c) then None
           else option_map (cons c) (drop_underscores c t)
  end.

Fixpoint span_digits (s : list ascii) : list ascii * list ascii :=
  match s with
  | c :: t =>
      if is_digit c
      then let (d, r) := span_digits t in (c :: d, r)
      else ([], s)
  | [] => ([], [])
  end.

Definition digits_value (d : list ascii) : Z :=
  fold_left (fun acc c => 10 * acc + (Z.of_nat (nat_of_ascii c) - 48)) d 0.

Definition take_sign (s : list ascii) : bool * list ascii :=
  match s with
  | "-" :: t => (true, t)
  | "+" :: t => (false, t)
  | _ => (false, s)
  end.

(** [inf], [infinity] and [nan], in any case, after the sign. *)
Definition parse_inf_or_nan (sign : bool) (s : list ascii) : option spec_float :=
  match map lower s with
  | ["i"; "n"; "f"] => Some (S754_infinity sign)
  | ["i"; "n"; "f"; "i"; "n"; "i"; "t"; "y"] => Some (S754_infinity sign)
  | ["n"; "a"; "n"] => Some S754_nan
  | _ => None
  end.

(** A decimal literal: digits with an optional point and an optional
    exponent; at least one digit in the mantissa, at least one in the
    exponent when [e] is written. *)
Definition parse_decimal (sign : bool) (s : list ascii) : option spec_float :=
  let (ip, r1) := span_digits s in
  let (fp, r2) :=
    match r1 with
    | "." :: t => span_digits t
    | _ => ([], r1)
    end in
  let mant := digits_value (ip ++ fp) in
  let frac := Z.of_nat (List.length fp) in
  match ip ++ fp with
  | [] => None
  | _ :: _ =>
      match r2 with
      | [] => Some (Float64.of_decimal sign mant (- frac))
      | c :: t =>
          if Ascii.eqb (lower c) "e"
          then
            let (esign, t') := take_sign t in
            match span_digits t' with
            | ((_ :: _) as ed, []) =>
                let e := digits_value ed in
                Some (Float64.of_decimal sign mant
                        ((if esign then - e else e) - frac))
            | _ => None
            end
          else None
      end
  end.

Definition could_not_convert : exn :=
  ValueError "could not convert string to float".

(** [float(s)] for an ASCII string: surrounding white space is ignored,
    then the text is a signed [inf]/[nan] or a decimal literal.  Python
    also reads non-ASCII digits and spaces; such segments are outside the
    model. *)
Definition py_float (s : string) : pyres spec_float :=
  let cs := list_ascii_of_string s in
  if negb (forallb is_ascii cs) then Raise (Unmodelled "non-ASCII float literal")
  else
    match strip cs with
    | [] => Raise could_not_convert
    | body =>
        match (if existsb (Ascii.eqb "_") body
               then drop_underscores "000" body else Some body) with
        | None => Raise could_not_convert
        | Some body' =>
            let (sign, rest) := take_sign body' in
            match parse_inf_or_nan sign rest with
            | Some x => Ok x
            | None =>
                match parse_decimal sign rest with
                | Some x => Ok x
                | None => Raise could_not_convert
                end
            end
        end
    end.

End FloatParse.

(** ** JSON documents as Python values *)

(** What [r.json()] returns and what [jsonify] serialises: [None], [bool],
    numbers, [str], [list] and [dict] (members in insertion order, looked up
    by key). *)
#[warnings="-register-all"]
Inductive json : Type :=
| JNull
| JBool (b : bool)
| JNum (n : pynum)
| JStr (s : string)
| JArr (items : list json)
| JObj (members : list (string * json)).

Fixpoint dict_get (key : string) (members : list (string * json)) : option json :=
  match members with
  | [] => None
  | (k, v) :: t => if String.eqb k key then Some v else dict_get key t
  end.

Definition dict_keys (members : list (string * json)) : list string :=
  map fst members.

(** Truth value of a Python object, as [if x] and [not x] test it. *)
Definition py_truthy (v : json) : bool :=
  match v with
  | JNull => false
  | JBool b => b
  | JNum (PInt z) => negb (Z.eqb z 0)
  | JNum (PFloat x) => negb (Float64.is_zero x)
  | JStr s => negb (String.eqb s "")
  | JArr items => match items with [] => false | _ :: _ => true end
  | JObj members => match members with [] => false | _ :: _ => true end
  end.

Fixpoint is_substring (needle hay : string) : bool :=
  String.prefix needle hay ||
  match hay with
  | EmptyString => false
  | String _ rest => is_substring needle rest
  end.

Definition is_str (s : string) (v : json) : bool :=
  match v with
  | JStr s' => String.eqb s' s
  | _ => false
  end.

(** [key in obj] for a string key: membership among the keys of a dict, the
    items of a list, the substrings of a string. *)
Definition py_contains (key : string) (obj : json) : pyres bool :=
  match obj with
  | JObj members => Ok (existsb (String.eqb key) (dict_keys members))
  | JArr items => Ok (existsb (is_str key) items)
  | JStr s => Ok (is_substring key s)
  | _ => Raise (TypeError "argument is not iterable")
  end.

(** [obj[key]] for a string key. *)
Definition py_getitem (obj : json) (key : string) : pyres json :=
  match obj with
  | JObj members =>
      match dict_get key members with
      | Some v => Ok v
      | None => Raise (KeyError key)
      end
  | JNull | JBool _ | JNum _ => Raise (TypeError "object is not subscriptable")
  | JStr _ | JArr _ => Raise (TypeError "indices must be integers")
  end.

(** [obj.get(key, default)]: only a dict has the method. *)
Definition py_get (obj : json) (key : string) (default : json) : pyres json :=
  match obj with
  | JObj members =>
      match dict_get key members with
      | Some v => Ok v
      | None => Ok default
      end
  | _ => Raise (AttributeError "object has no attribute 'get'")
  end.

(** [seq[0]] and [seq[-1]] on a value already known to be truthy. *)
Definition py_first (seq : json) : pyres json :=
  match seq with
  | JArr (x :: _) => Ok x
  | JArr [] => Raise (IndexError "list index out of range")
  | JObj _ => Raise (KeyError "0")
  | JStr _ => Raise (Unmodelled "indexing a string")
  | _ => Raise (TypeError "object is not subscriptable")
  end.

Definition py_last (seq : json) : pyres json :=
  match seq with
  | JArr (x :: t) => Ok (last t x)
  | JArr [] => Raise (IndexError "list index out of range")
  | JObj _ => Raise (KeyError "-1")
  | JStr _ => Raise (Unmodelled "indexing a string")
  | _ => Raise (TypeError "object is not subscriptable")
  end.

(** The view of a JSON value as the array of finite numbers the aggregates
    are defined on.  Anything else (a scalar, a string, an array holding
    [null], strings, booleans, nested containers or non-finite floats) is
    outside the model. *)
Fixpoint numbers_of_items (items : list json) : pyres (list pynum) :=
  match items with
  | [] => Ok []
  | JNum n :: t =>
      if num_finite n
      then ns <- numbers_of_items t ;; Ok (n :: ns)
      else Raise (Unmodelled "non-finite number in an array")
  | _ :: _ => Raise (Unmodelled "array item that is not a number")
  end.

Definition numbers_of (v : json) : pyres (list pynum) :=
  match v with
  | JArr items => numbers_of_items items
  | _ => Raise (Unmodelled "aggregate over a value that is not an array")
  end.

Definition opt_str (s : option string) : json :=
  match s with
  | Some x => JStr x
  | None => JNull
  end.

(** ** Calendar dates ([datetime.date]) *)

Record date : Type := { year : Z; month : Z; day : Z }.

Definition is_leap (y : Z) : bool :=
  (y mod 4 =? 0) && (negb (y mod 100 =? 0) || (y mod 400 =? 0)).

Definition days_in_month (y m : Z) : Z :=
  if m =? 2 then (if is_leap y then 29 else 28)
  else if (m =? 4) || (m =? 6) || (m =? 9) || (m =? 11) then 30
  else 31.

Definition valid_date (d : date) : bool :=
  (1 <=? year d) && (year d <=? 9999) &&
  (1 <=? month d) && (month d <=? 12) &&
  (1 <=? day d) && (day d <=? days_in_month (year d) (month d)).

(** [a > b] on dates. *)
Definition date_gtb (a b : date) : bool :=
  (year b <? year a) ||
  ((year b =? year a) &&
   ((month b <? month a) ||
    ((month b =? month a) && (day b <? day a)))).

Definition next_day (d : date) : pyres date :=
  if day d <? days_in_month (year d) (month d)
  then Ok {| year := year d; month := month d; day := day d + 1 |}
  else if month d <? 12
  then Ok {| year := year d; month := month d + 1; day := 1 |}
  else if year d <? 9999
  then Ok {| year := year d + 1; month := 1; day := 1 |}
  else Raise (OverflowError "date value out of range").

(** [d + timedelta(days=n)]. *)
Fixpoint add_days (n : nat) (d : date) : pyres date :=
  match n with
  | O => Ok d
  | S k => d' <- next_day d ;; add_days k d'
  end.

Definition digit_char (d : Z) : ascii := ascii_of_nat (48 + Z.to_nat (d mod 10)).

Fixpoint decimal_digits (fuel : nat) (n : Z) (acc : string) : string :=
  match fuel with
  | O => acc
  | S f =>
      let acc' := String (digit_char n) acc in
      if n <? 10 then acc' else decimal_digits f (n / 10) acc'
  end.

Definition pad2 (n : Z) : string :=
  String (digit_char (n / 10)) (String (digit_char n) EmptyString).

(** [d.strftime('%Y-%m-%d')]; the year is printed in full, which is four
    digits for every year from 1000 on. *)
Definition strftime_ymd (d : date) : string :=
  (decimal_digits 4 (year d) "" ++ "-" ++ pad2 (month d) ++ "-" ++ pad2 (day d))%string.

(** [date.fromisoformat] restricted to the [YYYY-MM-DD] form, the only one
    Python 3.10 accepts (later versions also read the basic and week forms of
    ISO 8601).  The handlers below take the parser of the running
    interpreter as a parameter; this one instantiates it. *)
Definition fromisoformat_ymd (s : string) : pyres date :=
  let cs := list_ascii_of_string s in
  let y := firstn 4 cs in
  let m := firstn 2 (skipn 5 cs) in
  let d := firstn 2 (skipn 8 cs) in
  if (List.length cs =? 10)%nat
     && Ascii.eqb (nth 4 cs "0"%char) "-"%char
     && Ascii.eqb (nth 7 cs "0"%char) "-"%char
     && forallb FloatParse.is_digit (y ++ m ++ d)
  then
    let parsed := {| year := FloatParse.digits_value y;
                     month := FloatParse.digits_value m;
                     day := FloatParse.digits_value d |} in
    if valid_date parsed then Ok parsed
    else Raise (ValueError "date field out of range")
  else Raise (ValueError "Invalid isoformat string").

(** [n] decimal digits at the head of [cs], with their value and what
    follows them. *)
Definition parse_digits (n : nat) (cs : list ascii) : option (Z * list ascii) :=
  let d := firstn n cs in
  if (List.length d =? n)%nat && forallb FloatParse.is_digit d
  then Some (FloatParse.digits_value d, skipn n cs)
  else None.

(** [date.fromisoformat] as Python 3.11 reads the calendar forms: the
    string has 7, 8 or 10 characters; four digits of year; a dash or none,
    and the day is then separated from the month the same way; two digits of
    month and two of day; what follows the day is not looked at.  So
    [2025-06-01] and [20250601] are both read.  The week forms (a [W] after
    the year) and non-ASCII strings are outside the model. *)
Definition fromisoformat_311 (s : string) : pyres date :=
  let cs := list_ascii_of_string s in
  let invalid := Raise (ValueError "Invalid isoformat string") in
  let n := List.length cs in
  if negb (forallb FloatParse.is_ascii cs)
  then Raise (Unmodelled "non-ASCII date string")
  else if negb ((n =? 7)%nat || (n =? 8)%nat || (n =? 10)%nat) then invalid
  else
    match parse_digits 4 cs with
    | None => invalid
    | Some (y, after_year) =>
        let (dashed, rest) :=
          match after_year with
          | "-"%char :: t => (true, t)
          | _ => (false, after_year)
          end in
        match rest with
        | "W"%char :: _ => Raise (Unmodelled "ISO week date")
        | _ =>
            match parse_digits 2 rest with
            | None => invalid
            | Some (m, after_month) =>
                match (if dashed : bool
                       then match after_month with
                            | "-"%char :: t => Some t
                            | _ => None
                            end
                       else Some after_month) with
                | None => invalid
                | Some before_day =>
                    match parse_digits 2 before_day with
                    | None => invalid
                    | Some (d, _) =>
                        let parsed := {| year := y; month := m; day := d |} in
                        if valid_date parsed then Ok parsed
                        else Raise (ValueError "date field out of range")
                    end
                end
            end
        end
    end.

(** ** The service *)

Local Open Scope string_scope.

Definition REQUEST_TIMEOUT : Z := 8.

(** The query [build_api_call] formats into the URL of the forecast
    provider, one field per query parameter. *)
Record api_call : Type := {
  q_latitude : pynum;
  q_longitude : pynum;
  q_daily : string;
  q_timezone : string;
  q_start_date : string;
  q_end_date : string
}.

(** What the handlers read of a [requests.Response]: [r.ok],
    [r.status_code] and the outcome of [r.json()]. *)
Record upstream_response : Type := {
  ok : bool;
  status_code : Z;
  payload : pyres json
}.

(** What the client of the service receives. *)
Inductive http_response : Type :=
| JsonResponse (status : Z) (body : json)
| ErrorResponse (status : Z) (description : string)
| Crash (e : exn).

(** [flask.abort].  The handlers call it with 400, 404 and the error
    status of the upstream; a status werkzeug has no exception class for is
    not distinguished here. *)
Definition abort {A : Type} (code : Z) (description : string) : pyres A :=
  Raise (HTTPException code description).

(** [try: m except ValueError as e: handler(str(e))]. *)
Definition except_ValueError {A : Type} (m : pyres A) (handler : string -> pyres A)
  : pyres A :=
  match m with
  | Raise (ValueError msg) => handler msg
  | _ => m
  end.

(** How Flask turns the outcome of a view function into a response:
    [jsonify] gives 200, an [HTTPException] its own status, any other
    exception is unhandled (status 500). *)
Definition respond (r : pyres json) : http_response :=
  match r with
  | Ok body => JsonResponse 200 body
  | Raise (HTTPException code description) => ErrorResponse code description
  | Raise e => Crash e
  end.

Definition status_of (r : http_response) : option Z :=
  match r with
  | JsonResponse status _ => Some status
  | ErrorResponse status _ => Some status
  | Crash (Unmodelled _) => None
  | Crash _ => Some 500
  end.

Definition not_numeric : string :=
  "Latitude and longitude must be numeric (e.g. 37.77 -122.42).".

Definition out_of_range : string :=
  "Latitude must be −90…90 and longitude −180…180.".

Definition no_data : string :=
  "No weather data found for the given location and date range.".

Definition empty_data_set : string :=
  "Weather service returned empty data set.".

Section Service.

(** The environment of a request: the clock ([dt.date.today()]), the date
    parser of the interpreter ([dt.date.fromisoformat]) and the network
    ([requests.get] on the built query, with its timeout). *)
Variable today : date.
Variable fromisoformat : string -> pyres date.
Variable requests_get : api_call -> Z -> pyres upstream_response.

(** The coordinate test of [build_api_call]:
    [not (-90 <= int(lat) <= 90) or not (-180 <= int(lon) <= 180)];
    [int(lon)] is evaluated only when the latitude is in range. *)
Definition coordinates_rejected (lat lon : pynum) : pyres bool :=
  ilat <- py_int lat ;;
  if negb ((-90 <=? ilat)%Z && (ilat <=? 90)%Z) then Ok true
  else
    ilon <- py_int lon ;;
    Ok (negb ((-180 <=? ilon)%Z && (ilon <=? 180)%Z)).

Definition build_api_call (lat lon : pynum) (daily : bool)
    (start end_ : option string) : pyres api_call :=
  start <- match start with
           | Some s => Ok s
           | None => Ok (strftime_ymd today)
           end ;;
  end_ <- match end_ with
          | Some s => Ok s
          | None => d <- add_days 7 today ;; Ok (strftime_ymd d)
          end ;;
  (* isinstance(lat, (int, float)) and isinstance(lon, (int, float)) hold
     of every [pynum] *)
  rejected <- coordinates_rejected lat lon ;;
  if rejected then Raise (ValueError out_of_range)
  else
    dates <- except_ValueError
               (start_d <- fromisoformat start ;;
                end_d <- fromisoformat end_ ;;
                Ok (start_d, end_d))
               (fun _ => Raise (ValueError "Dates must be YYYY-MM-DD.")) ;;
    if date_gtb (fst dates) (snd dates)
    then Raise (ValueError "start_date cannot be after end_date.")
    else
      let pressure := if daily then "" else ",pressure_msl_mean" in
      Ok {| q_latitude := py_round lat 2;
            q_longitude := py_round lon 2;
            q_daily := "sunshine_duration,temperature_2m_max,temperature_2m_min,"
                       ++ "weather_code" ++ pressure;
            q_timezone := "auto";
            q_start_date := start;
            q_end_date := end_ |}.

(** [fetch_weather], with the list of outbound calls it made. *)
Definition fetch_weather (lat lon : pynum) (daily : bool)
    (start end_ : option string) : pyres json * list api_call :=
  match build_api_call lat lon daily start end_ with
  | Raise e => (Raise e, [])
  | Ok url =>
      (r <- requests_get url REQUEST_TIMEOUT ;;
       if ok r then payload r
       else abort (status_code r) "Open-Meteo error",
       [url])
  end.

(** [not raw or "daily" not in raw]. *)
Definition lacks_daily (raw : json) : pyres bool :=
  if negb (py_truthy raw) then Ok true
  else has <- py_contains "daily" raw ;; Ok (negb has).

(** Step 3 of [weather_daily]: the fields the front end needs. *)
Definition filter_daily (raw : json) : pyres json :=
  missing <- lacks_daily raw ;;
  if missing then abort 404 no_data
  else
    daily <- py_getitem raw "daily" ;;
    daily_units <- py_get raw "daily_units" (JObj []) ;;
    time <- py_get daily "time" (JArr []) ;;
    sunshine <- py_get daily "sunshine_duration" (JArr []) ;;
    t_max <- py_get daily "temperature_2m_max" (JArr []) ;;
    t_min <- py_get daily "temperature_2m_min" (JArr []) ;;
    codes <- py_get daily "weather_code" (JArr []) ;;
    u_sunshine <- py_get daily_units "sunshine_duration" (JStr "") ;;
    u_t_max <- py_get daily_units "temperature_2m_max" (JStr "") ;;
    u_t_min <- py_get daily_units "temperature_2m_min" (JStr "") ;;
    Ok (JObj [
      ("daily", JObj [
         ("time", time);
         ("sunshine_duration", sunshine);
         ("temperature_2m_max", t_max);
         ("temperature_2m_min", t_min);
         ("weather_code", codes)]);
      ("daily_units", JObj [
         ("sunshine_duration", u_sunshine);
         ("temperature_2m_max", u_t_max);
         ("temperature_2m_min", u_t_min)])]).

(** [float(lat)], [float(lon)] under one [try]. *)
Definition cast_coordinates (lat lon : string) : pyres (pynum * pynum) :=
  except_ValueError
    (lat' <- FloatParse.py_float lat ;;
     lon' <- FloatParse.py_float lon ;;
     Ok (PFloat lat', PFloat lon'))
    (fun _ => abort 400 not_numeric).

Definition weather_daily (lat lon : string) (start end_ : option string)
  : http_response * list api_call :=
  match cast_coordinates lat lon with
  | Raise e => (respond (Raise e), [])
  | Ok (lat, lon) =>
      let (fetched, calls) := fetch_weather lat lon true start end_ in
      (respond
         (raw <- except_ValueError fetched (fun msg => abort 400 msg) ;;
          filter_daily raw),
       calls)
  end.

(** [value if seq else None] for the weekly statistics. *)
Definition if_nonempty (seq : json) (value : list pynum -> pyres json)
  : pyres json :=
  if py_truthy seq then ns <- numbers_of seq ;; value ns else Ok JNull.

(** [Counter(codes).most_common(1)[0][0]]. *)
Definition most_frequent (codes : list pynum) : pyres json :=
  match most_common_1 (Counter num_eqb codes) with
  | (code, _) :: _ => Ok (JNum code)
  | [] => Raise (IndexError "list index out of range")
  end.

(** Steps 3 and 4 of [weather_weekly]. *)
Definition summarise_weekly (data : json) (start end_ : option string)
  : pyres json :=
  missing <- lacks_daily data ;;
  if missing then abort 404 no_data
  else
    daily <- py_getitem data "daily" ;;
    pressures <- py_get daily "pressure_msl_mean" (JArr []) ;;
    t_max <- py_get daily "temperature_2m_max" (JArr []) ;;
    t_min <- py_get daily "temperature_2m_min" (JArr []) ;;
    sunshine <- py_get daily "sunshine_duration" (JArr []) ;;
    codes <- py_get daily "weather_code" (JArr []) ;;
    if negb (existsb py_truthy [pressures; t_max; t_min; sunshine; codes])
    then abort 404 empty_data_set
    else
      avg_pressure <- if_nonempty pressures
        (fun ns => m <- py_mean ns ;; Ok (JNum (py_round m 1))) ;;
      weekly_max <- if_nonempty t_max
        (fun ns => m <- py_max ns ;; Ok (JNum m)) ;;
      weekly_min <- if_nonempty t_min
        (fun ns => m <- py_min ns ;; Ok (JNum m)) ;;
      avg_sunshine <- if_nonempty sunshine
        (fun ns => m <- py_mean ns ;;
                   h <- py_truediv_int m 3600 ;;
                   Ok (JNum (py_round h 2))) ;;
      frequent <- if_nonempty codes most_frequent ;;
      latitude <- py_get data "latitude" JNull ;;
      longitude <- py_get data "longitude" JNull ;;
      time <- py_get daily "time" JNull ;;
      start_date <- (if py_truthy time then py_first time
                     else Ok (opt_str start)) ;;
      end_date <- (if py_truthy time then py_last time
                   else Ok (opt_str end_)) ;;
      Ok (JObj [
        ("avg_pressure_hPa", avg_pressure);
        ("weekly_max_temp", weekly_max);
        ("weekly_min_temp", weekly_min);
        ("avg_sunshine_hours", avg_sunshine);
        ("most_frequent_weather_code", frequent);
        ("latitude", latitude);
        ("longitude", longitude);
        ("start_date", start_date);
        ("end_date", end_date)]).

Definition weather_weekly (lat lon : string) (start end_ : option string)
  : http_response * list api_call :=
  match cast_coordinates lat lon with
  | Raise e => (respond (Raise e), [])
  | Ok (lat, lon) =>
      let (fetched, calls) := fetch_weather lat lon false start end_ in
      (respond
         (data <- except_ValueError fetched (fun msg => abort 400 msg) ;;
          summarise_weekly data start end_),
       calls)
  end.

End Service.

(** ** The fixtures of the test suite of the repository

    [tests/test_weather.py] patches [requests.get] with a fixed response;
    here the same responses are the [requests_get] of the environment.  The
    tests themselves are replayed among the lemmas below. *)

Module Tests.

Definition num (z : Z) : json := JNum (PInt z).

Definition make_response (is_ok : bool) (status : Z) (body : json)
  : api_call -> Z -> pyres upstream_response :=
  fun _ _ => Ok {| ok := is_ok; status_code := status; payload := Ok body |}.

Definition a_day : date := {| year := 2025; month := 6; day := 1 |}.

Definition daily_raw : json :=
  JObj [
    ("daily", JObj [
       ("time", JArr [JStr "2025-06-01"; JStr "2025-06-02"]);
       ("sunshine_duration", JArr [num 3600; num 7200]);
       ("temperature_2m_max", JArr [num 25; num 26]);
       ("temperature_2m_min", JArr [num 15; num 16]);
       ("weather_code", JArr [num 0; num 1])]);
    ("daily_units", JObj [
       ("sunshine_duration", JStr "s");
       ("temperature_2m_max", JStr "°C");
       ("temperature_2m_min", JStr "°C")])].

Definition weekly_raw : json :=
  JObj [
    ("daily", JObj [
       ("time", JArr [JStr "2025-06-01"; JStr "2025-06-02"]);
       ("pressure_msl_mean", JArr [num 1000; num 1020]);
       ("temperature_2m_max", JArr [num 5; num 10]);
       ("temperature_2m_min", JArr [num 2; num 0]);
       ("sunshine_duration", JArr [num 3600; num 3600]);
       ("weather_code", JArr [num 3; num 3; num 2])])].

Definition one : pynum := PFloat (S754_finite false 4503599627370496 (-52)).

End Tests.

(** ** Specification-side definitions

    The notions the properties below are stated with, next to the code they
    are compared with. *)

Local Open Scope list_scope.
Local Open Scope Z_scope.

(** *** Path segments *)

(** A segment [float] rejects. *)
Definition not_a_number (s : string) : Prop :=
  exists msg, FloatParse.py_float s = Raise (ValueError msg).

(** The segments the model of [float] covers. *)
Definition ascii_segment (s : string) : Prop :=
  forallb FloatParse.is_ascii (list_ascii_of_string s) = true.

(** *** Coordinates *)

(** The exact value of a number truncated toward zero. *)
Definition truncate (n : pynum) : Z :=
  Z.quot (Qnum (num_val n)) (Zpos (Qden (num_val n))).

(** The truncated degrees are outside [-90, 90] or [-180, 180]. *)
Definition outside_bounds (lat lon : Z) : Prop :=
  (lat < -90 \/ 90 < lat) \/ (lon < -180 \/ 180 < lon).

(** [build_api_call] raised a [ValueError], whatever its message. *)
Definition fails_validation (r : pyres api_call) : Prop :=
  exists msg, r = Raise (ValueError msg).

(** [int(x)] has a value, and it is outside [lo, hi]. *)
Definition truncated_outside (x : pynum) (lo hi : Z) : Prop :=
  exists z, py_int x = Ok z /\ (z < lo \/ hi < z).

(** The bounds rule read over every coordinate, NaN and infinities
    included, for a request whose dates are valid. *)
Definition truncation_rule_for_every_input
    (today : date) (fromisoformat : string -> pyres date) : Prop :=
  forall lat lon daily start end_ start_d end_d,
    fromisoformat start = Ok start_d ->
    fromisoformat end_ = Ok end_d ->
    date_gtb start_d end_d = false ->
    (fails_validation
       (build_api_call today fromisoformat lat lon daily (Some start) (Some end_))
     <-> truncated_outside lat (-90) 90 \/ truncated_outside lon (-180) 180).

(** A NaN. *)
Definition is_nan (n : pynum) : bool :=
  match n with
  | PFloat S754_nan => true
  | _ => false
  end.

(** The message of the [ValueError] a NaN coordinate ends in: the one
    [int] raises on a NaN, unless the latitude is a number whose truncation
    is out of range, for then the longitude is not looked at. *)
Definition nan_error (lat : pynum) : string :=
  if is_nan lat || ((-90 <=? truncate lat) && (truncate lat <=? 90))
  then "cannot convert float NaN to integer"
  else out_of_range.

(** *** Dates *)

Definition is_date (fromisoformat : string -> pyres date) (s : string) : Prop :=
  exists d, fromisoformat s = Ok d.

Definition not_date (fromisoformat : string -> pyres date) (s : string) : Prop :=
  exists msg, fromisoformat s = Raise (ValueError msg).

(** [ValueError] is the only exception [date.fromisoformat] raises on a
    string. *)
Definition parser_raises_ValueError (fromisoformat : string -> pyres date) : Prop :=
  forall s, is_date fromisoformat s \/ not_date fromisoformat s.

Definition start_after_end (fromisoformat : string -> pyres date)
    (start end_ : string) : Prop :=
  exists start_d end_d,
    fromisoformat start = Ok start_d /\ fromisoformat end_ = Ok end_d /\
    date_gtb start_d end_d = true.

(** The message of the [ValueError] a bad pair of dates gets. *)
Definition date_error (fromisoformat : string -> pyres date)
    (start end_ : string) : string :=
  match fromisoformat start, fromisoformat end_ with
  | Ok _, Ok _ => "start_date cannot be after end_date."
  | _, _ => "Dates must be YYYY-MM-DD."
  end.

(** A valid date written [YYYY-MM-DD]. *)
Definition valid_ymd (s : string) : Prop :=
  exists d, fromisoformat_ymd s = Ok d.

(** The date rule with "a valid YYYY-MM-DD date" read to the letter: with
    coordinates that pass the range check, a start or an end that is not such
    a date gets a 400 from both endpoints, whatever parser the interpreter
    has. *)
Definition ymd_dates_required (today : date) (fromisoformat : string -> pyres date)
    (requests_get : api_call -> Z -> pyres upstream_response) : Prop :=
  forall lat_s lon_s lat lon start end_,
    cast_coordinates lat_s lon_s = Ok (lat, lon) ->
    coordinates_rejected lat lon = Ok false ->
    ~ valid_ymd start \/ ~ valid_ymd end_ ->
    exists msg,
      weather_daily today fromisoformat requests_get lat_s lon_s (Some start) (Some end_)
        = (ErrorResponse 400 msg, []) /\
      weather_weekly today fromisoformat requests_get lat_s lon_s (Some start) (Some end_)
        = (ErrorResponse 400 msg, []).

(** *** Requests that reach the transformation *)

(** The request passed validation, [url] is the query that was built, and
    the upstream answered it with a success status and the JSON document
    [data]. *)
Definition answered (today : date) (fromisoformat : string -> pyres date)
    (requests_get : api_call -> Z -> pyres upstream_response) (daily : bool)
    (lat lon : string) (start end_ : option string)
    (url : api_call) (data : json) : Prop :=
  exists lat' lon' r,
    cast_coordinates lat lon = Ok (lat', lon') /\
    build_api_call today fromisoformat lat' lon' daily start end_ = Ok url /\
    requests_get url REQUEST_TIMEOUT = Ok r /\
    ok r = true /\
    payload r = Ok data.

(** [members.get(key, default)] on the members of a dict. *)
Definition get_or (members : list (string * json)) (key : string) (default : json)
  : json :=
  match dict_get key members with
  | Some v => v
  | None => default
  end.

(** *** The daily view and the weekly summary *)

Definition weekly_fields : list string :=
  ["pressure_msl_mean"; "temperature_2m_max"; "temperature_2m_min";
   "sunshine_duration"; "weather_code"].

(** The field is missing, or holds an empty array (or another false
    value). *)
Definition field_empty (daily : list (string * json)) (key : string) : Prop :=
  py_truthy (get_or daily key (JArr [])) = false.

(** The keys of a response: those of the top-level object and those of
    each of its sections. *)
Definition response_keys (body : json) : list string :=
  match body with
  | JObj top =>
      dict_keys top ++
      flat_map (fun kv => match snd kv with
                          | JObj inner => dict_keys inner
                          | _ => []
                          end) top
  | _ => []
  end.

(** The body of the daily view for a [daily] object and a [daily_units]
    object. *)
Definition filtered (daily units : list (string * json)) : json :=
  JObj [
    ("daily", JObj [
       ("time", get_or daily "time" (JArr []));
       ("sunshine_duration", get_or daily "sunshine_duration" (JArr []));
       ("temperature_2m_max", get_or daily "temperature_2m_max" (JArr []));
       ("temperature_2m_min", get_or daily "temperature_2m_min" (JArr []));
       ("weather_code", get_or daily "weather_code" (JArr []))]);
    ("daily_units", JObj [
       ("sunshine_duration", get_or units "sunshine_duration" (JStr ""));
       ("temperature_2m_max", get_or units "temperature_2m_max" (JStr ""));
       ("temperature_2m_min", get_or units "temperature_2m_min" (JStr ""))])].

(** Step 4 of [weather_weekly] for a [daily] object that passed the
    emptiness test. *)
Definition weekly_statistics (members daily : list (string * json))
    (start end_ : option string) : pyres json :=
  avg_pressure <- if_nonempty (get_or daily "pressure_msl_mean" (JArr []))
    (fun ns => m <- py_mean ns ;; Ok (JNum (py_round m 1))) ;;
  weekly_max <- if_nonempty (get_or daily "temperature_2m_max" (JArr []))
    (fun ns => m <- py_max ns ;; Ok (JNum m)) ;;
  weekly_min <- if_nonempty (get_or daily "temperature_2m_min" (JArr []))
    (fun ns => m <- py_min ns ;; Ok (JNum m)) ;;
  avg_sunshine <- if_nonempty (get_or daily "sunshine_duration" (JArr []))
    (fun ns => m <- py_mean ns ;;
               h <- py_truediv_int m 3600 ;;
               Ok (JNum (py_round h 2))) ;;
  frequent <- if_nonempty (get_or daily "weather_code" (JArr [])) most_frequent ;;
  start_date <- (if py_truthy (get_or daily "time" JNull)
                 then py_first (get_or daily "time" JNull)
                 else Ok (opt_str start)) ;;
  end_date <- (if py_truthy (get_or daily "time" JNull)
               then py_last (get_or daily "time" JNull)
               else Ok (opt_str end_)) ;;
  Ok (JObj [
    ("avg_pressure_hPa", avg_pressure);
    ("weekly_max_temp", weekly_max);
    ("weekly_min_temp", weekly_min);
    ("avg_sunshine_hours", avg_sunshine);
    ("most_frequent_weather_code", frequent);
    ("latitude", get_or members "latitude" JNull);
    ("longitude", get_or members "longitude" JNull);
    ("start_date", start_date);
    ("end_date", end_date)]).

(** The test [not any([pressures, t_max, t_min, sunshine, codes])]. *)
Definition all_empty (daily : list (string * json)) : bool :=
  negb (existsb py_truthy (map (fun key => get_or daily key (JArr [])) weekly_fields)).

(** The computation ended in [abort]. *)
Definition aborts {A : Type} (m : pyres A) : bool :=
  match m with
  | Raise (HTTPException _ _) => true
  | _ => false
  end.

(** The dates of the summary: the ends of the [time] array, or what the
    caller passed. *)
Definition echoed_dates (daily : list (string * json)) (start end_ : option string)
  : json * json :=
  match dict_get "time" daily with
  | Some (JArr (x :: t)) => (x, last t x)
  | _ => (opt_str start, opt_str end_)
  end.

(** The dates of the summary as the specification words them: the ends of
    the [time] array, or what the caller passed, or the defaults. *)
Definition default_end (today : date) : string :=
  match add_days 7 today with
  | Ok d => strftime_ymd d
  | Raise _ => ""
  end.

Definition claimed_dates (today : date) (daily : list (string * json))
    (start end_ : option string) : json * json :=
  match dict_get "time" daily with
  | Some (JArr (x :: t)) => (x, last t x)
  | _ => (JStr (match start with Some s => s | None => strftime_ymd today end),
          JStr (match end_ with Some s => s | None => default_end today end))
  end.

(** In every JSON answer of the weekly endpoint, the two dates are those
    [dates] gives. *)
Definition weekly_dates_are (dates : list (string * json) -> option string ->
                                     option string -> json * json)
    (today : date) (fromisoformat : string -> pyres date)
    (requests_get : api_call -> Z -> pyres upstream_response) : Prop :=
  forall lat lon start end_ url members daily status body calls,
    answered today fromisoformat requests_get false lat lon start end_ url
      (JObj members) ->
    dict_get "daily" members = Some (JObj daily) ->
    weather_weekly today fromisoformat requests_get lat lon start end_
      = (JsonResponse status body, calls) ->
    exists fields,
      body = JObj fields /\
      dict_get "start_date" fields = Some (fst (dates daily start end_)) /\
      dict_get "end_date" fields = Some (snd (dates daily start end_)).

(** Bodies for the examples. *)
Definition only_codes : json :=
  JObj [("daily", JObj [("weather_code", JArr [Tests.num 3])])].

Definition empty_daily : json := JObj [("daily", JObj [])].

(** A body where the provider names a unit for every array. *)
Definition units_for_every_array : json :=
  JObj [
    ("daily", JObj [
       ("time", JArr [JStr "2025-06-01"]);
       ("weather_code", JArr [Tests.num 0])]);
    ("daily_units", JObj [
       ("time", JStr "iso8601");
       ("sunshine_duration", JStr "s");
       ("weather_code", JStr "wmo code")])].

(** *** Aggregates *)

Definition arithmetic_mean (l : list pynum) : Q :=
  (fold_right Qplus 0 (map num_val l) / inject_Z (Z.of_nat (List.length l)))%Q.

(** The float nearest to a rational. *)
Definition nearest_float (q : Q) : spec_float :=
  Float64.of_ratio (Qnum (Qred q)) (Qden (Qred q)).

(** [m] is the mean as [statistics.mean] returns it: exact when it is an
    [int], the nearest float otherwise. *)
Definition is_mean_of (m : pynum) (l : list pynum) : Prop :=
  match m with
  | PInt z => (inject_Z z == arithmetic_mean l)%Q
  | PFloat x => x = nearest_float (arithmetic_mean l)
  end.

Definition is_maximum (m : pynum) (l : list pynum) : Prop :=
  In m l /\ Forall (fun x => (num_val x <= num_val m)%Q) l.

Definition is_minimum (m : pynum) (l : list pynum) : Prop :=
  In m l /\ Forall (fun x => (num_val m <= num_val x)%Q) l.

(** The JSON value of an aggregate: [null] for an empty array. *)
Definition mean_rounded (places : nat) (l : list pynum) (v : json) : Prop :=
  match l with
  | [] => v = JNull
  | _ :: _ =>
      exists m, py_mean l = Ok m /\ is_mean_of m l /\ v = JNum (py_round m places)
  end.

Definition mean_hours_rounded (places : nat) (l : list pynum) (v : json) : Prop :=
  match l with
  | [] => v = JNull
  | _ :: _ =>
      exists m h, py_mean l = Ok m /\ is_mean_of m l /\
                  py_truediv_int m 3600 = Ok h /\
                  v = JNum (py_round h places)
  end.

Definition extremum (is_extremum : pynum -> list pynum -> Prop)
    (l : list pynum) (v : json) : Prop :=
  match l with
  | [] => v = JNull
  | _ :: _ => exists m, v = JNum m /\ is_extremum m l
  end.

(** The field is missing ([l] empty) or an array of the finite numbers [l]. *)
Definition numeric_field (daily : list (string * json)) (key : string)
    (l : list pynum) : Prop :=
  match dict_get key daily with
  | None => l = []
  | Some v => numbers_of v = Ok l
  end.

(** The [time] field is missing, false, or a non-empty array. *)
Definition time_field_usable (daily : list (string * json)) : Prop :=
  match dict_get "time" daily with
  | None => True
  | Some v => py_truthy v = false \/ exists x t, v = JArr (x :: t)
  end.

(** The mean, and the mean in hours, fit a float. *)
Definition mean_fits (l : list pynum) : Prop :=
  l = [] \/ exists m, py_mean l = Ok m.

Definition mean_hours_fit (l : list pynum) : Prop :=
  l = [] \/ exists m h, py_mean l = Ok m /\ py_truediv_int m 3600 = Ok h.

Definition well_formed_weekly (daily : list (string * json))
    (pressures t_max t_min sunshine codes : list pynum) : Prop :=
  numeric_field daily "pressure_msl_mean" pressures /\
  numeric_field daily "temperature_2m_max" t_max /\
  numeric_field daily "temperature_2m_min" t_min /\
  numeric_field daily "sunshine_duration" sunshine /\
  numeric_field daily "weather_code" codes /\
  time_field_usable daily /\
  mean_fits pressures /\
  mean_hours_fit sunshine.

(** The weekly endpoint answered 200 with the four aggregates of the given
    arrays. *)
Definition weekly_aggregates_returned (today : date)
    (fromisoformat : string -> pyres date)
    (requests_get : api_call -> Z -> pyres upstream_response)
    (lat lon : string) (start end_ : option string) (url : api_call)
    (pressures t_max t_min sunshine : list pynum) : Prop :=
  exists avg_pressure weekly_max weekly_min avg_sunshine rest,
    weather_weekly today fromisoformat requests_get lat lon start end_
      = (JsonResponse 200
           (JObj (("avg_pressure_hPa", avg_pressure)
                  :: ("weekly_max_temp", weekly_max)
                  :: ("weekly_min_temp", weekly_min)
                  :: ("avg_sunshine_hours", avg_sunshine)
                  :: rest)),
         [url]) /\
    mean_rounded 1 pressures avg_pressure /\
    extremum is_maximum t_max weekly_max /\
    extremum is_minimum t_min weekly_min /\
    mean_hours_rounded 2 sunshine avg_sunshine.

(** The aggregates are returned for every body with a well-formed [daily]
    object, the one with five empty arrays included. *)
Definition aggregates_for_every_daily_object (today : date)
    (fromisoformat : string -> pyres date)
    (requests_get : api_call -> Z -> pyres upstream_response) : Prop :=
  forall lat lon start end_ url members daily pressures t_max t_min sunshine codes,
    answered today fromisoformat requests_get false lat lon start end_ url
      (JObj members) ->
    dict_get "daily" members = Some (JObj daily) ->
    well_formed_weekly daily pressures t_max t_min sunshine codes ->
    weekly_aggregates_returned today fromisoformat requests_get lat lon start end_ url
      pressures t_max t_min sunshine.

(** *** The mode *)

Definition occurrences {A : Type} (eqb : A -> A -> bool) (v : A) (l : list A)
  : nat :=
  List.length (filter (eqb v) l).

(** [c] is a most frequent value of [l], and every value met before the first
    occurrence of [c] is strictly less frequent. *)
Definition first_mode {A : Type} (eqb : A -> A -> bool) (c : A) (l : list A)
  : Prop :=
  (forall v, In v l -> (occurrences eqb v l <= occurrences eqb c l)%nat) /\
  exists p s,
    l = p ++ c :: s /\
    (forall y, In y p -> eqb c y = false) /\
    (forall y, In y p -> (occurrences eqb y l < occurrences eqb c l)%nat).

(** What the counter [c] of the list [l] records: its keys are pairwise
    different values, each with its number of occurrences; every item of
    [l] has its key; and the keys stand in the order of their first
    occurrence in [l]. *)
Record counts {A : Type} (eqb : A -> A -> bool) (l : list A) (c : list (A * nat))
  : Prop := {
  counts_distinct :
    forall ks1 k ks2, map fst c = ks1 ++ k :: ks2 ->
      forall k', In k' ks1 -> eqb k' k = false;
  counts_exact :
    forall k n, In (k, n) c -> n = occurrences eqb k l;
  counts_cover :
    forall x, In x l -> exists k, In k (map fst c) /\ eqb k x = true;
  counts_first :
    forall ks1 k ks2, map fst c = ks1 ++ k :: ks2 ->
      exists p s, l = p ++ k :: s /\
        forall y, In y p -> exists k', In k' ks1 /\ eqb k' y = true
}.

(** *** Queries, calls and answers *)

(** The endpoint of a view: [weather_daily] for the daily view,
    [weather_weekly] for the weekly summary.  The flag is the [daily]
    argument the view passes to [fetch_weather]. *)
Definition endpoint (today : date) (fromisoformat : string -> pyres date)
    (requests_get : api_call -> Z -> pyres upstream_response) (daily : bool)
    (lat lon : string) (start end_ : option string)
  : http_response * list api_call :=
  if daily
  then weather_daily today fromisoformat requests_get lat lon start end_
  else weather_weekly today fromisoformat requests_get lat lon start end_.

(** The request passed validation, and [url] is the query built for it. *)
Definition sent (today : date) (fromisoformat : string -> pyres date)
    (daily : bool) (lat lon : string) (start end_ : option string)
    (url : api_call) : Prop :=
  exists lat' lon',
    cast_coordinates lat lon = Ok (lat', lon') /\
    build_api_call today fromisoformat lat' lon' daily start end_ = Ok url.

(** The daily variables the daily view asks for; the weekly view adds the
    pressure. *)
Definition daily_variables : string :=
  "sunshine_duration,temperature_2m_max,temperature_2m_min,weather_code".

(** The query [build_api_call] returns for coordinates and dates that pass
    its checks: the coordinates rounded to two places, the dates as given. *)
Definition query (lat lon : pynum) (daily : bool) (start end_ : string) : api_call :=
  {| q_latitude := py_round lat 2;
     q_longitude := py_round lon 2;
     q_daily := if daily then daily_variables
                else daily_variables ++ ",pressure_msl_mean";
     q_timezone := "auto";
     q_start_date := start;
     q_end_date := end_ |}.

(** [v] is [k] hundredths as a float: the float nearest to [k/100], or the
    negative zero. *)
Definition hundredths (k : Z) (v : pynum) : Prop :=
  v = PFloat (Float64.of_ratio k 100) \/ (k = 0 /\ v = PFloat (S754_zero true)).

(** The descriptions of the 400 answers given before any call: the two
    messages of the coordinate checks, the message of [int] on a NaN, and the
    two of the date checks. *)
Definition validation_messages : list string :=
  [not_numeric; out_of_range; "cannot convert float NaN to integer";
   "Dates must be YYYY-MM-DD."; "start_date cannot be after end_date."].

(** Error statuses [flask.abort] has an exception class for (Werkzeug's
    [default_exceptions]); called with another code it raises [LookupError]
    instead of an HTTP error. *)
Definition abort_statuses : list Z :=
  [400; 401; 403; 404; 405; 406; 408; 409; 410; 411; 412; 413; 414; 415; 416;
   417; 418; 422; 423; 424; 428; 429; 431; 451; 500; 501; 502; 503; 504; 505].

(** A provider that is down: every call ends in the given exception. *)
Definition unreachable (e : exn) : api_call -> Z -> pyres upstream_response :=
  fun _ _ => Raise e.

(** A provider whose answer has a success status and a body that is not
    JSON: [r.json()] raises the decoder's [ValueError]. *)
Definition not_json (msg : string) : api_call -> Z -> pyres upstream_response :=
  fun _ _ => Ok {| ok := true; status_code := 200; payload := Raise (ValueError msg) |}.

(** [raw] is false, or ["daily" in raw] is: no such key in a dict, no such
    item in a list, no such substring in a string. *)
Definition without_daily (raw : json) : Prop :=
  py_truthy raw = false \/
  match raw with
  | JObj members => dict_get "daily" members = None
  | JArr items => ~ In (JStr "daily") items
  | JStr s => is_substring "daily" s = false
  | _ => False
  end.

(** The keys of the dict [weather_weekly] hands to [jsonify]. *)
Definition summary_keys : list string :=
  ["avg_pressure_hPa"; "weekly_max_temp"; "weekly_min_temp"; "avg_sunshine_hours";
   "most_frequent_weather_code"; "latitude"; "longitude"; "start_date"; "end_date"].

(** A body with the position the provider resolved the request to. *)
Definition located : json :=
  JObj [("latitude", JNum (PFloat (Float64.of_decimal false 5252 (-2))));
        ("longitude", JNum (PFloat (Float64.of_decimal false 13419998 (-6))));
        ("daily", JObj [("weather_code", JArr [Tests.num 3])])].

(** ** The test suite, replayed *)

Example test_weather_daily_success :
  fst (weather_daily Tests.a_day fromisoformat_ymd (Tests.make_response true 200 Tests.daily_raw)
         "10" "20" (Some "2025-06-01") (Some "2025-06-02"))
  = JsonResponse 200 Tests.daily_raw.
Proof. vm_compute. reflexivity. Qed.

Example test_weather_daily_invalid_latlon :
  weather_daily Tests.a_day fromisoformat_ymd (Tests.make_response true 200 Tests.daily_raw)
    "foo" "bar" None None
  = (ErrorResponse 400 not_numeric, []).
Proof. vm_compute. reflexivity. Qed.

Example test_weather_daily_no_data :
  fst (weather_daily Tests.a_day fromisoformat_ymd (Tests.make_response true 200 (JObj []))
         "10" "20" None None)
  = ErrorResponse 404 no_data.
Proof. vm_compute. reflexivity. Qed.

Example test_weather_daily_bad_date_order :
  weather_daily Tests.a_day fromisoformat_ymd (Tests.make_response true 200 Tests.daily_raw)
    "10" "20" (Some "2025-06-10") (Some "2025-06-05")
  = (ErrorResponse 400 "start_date cannot be after end_date.", []).
Proof. vm_compute. reflexivity. Qed.

Example test_weather_weekly_success :
  fst (weather_weekly Tests.a_day fromisoformat_ymd (Tests.make_response true 200 Tests.weekly_raw)
         "10" "20" (Some "2025-06-01") (Some "2025-06-02"))
  = JsonResponse 200 (JObj [
      ("avg_pressure_hPa", Tests.num 1010);
      ("weekly_max_temp", Tests.num 10);
      ("weekly_min_temp", Tests.num 0);
      ("avg_sunshine_hours", JNum Tests.one);
      ("most_frequent_weather_code", Tests.num 3);
      ("latitude", JNull);
      ("longitude", JNull);
      ("start_date", JStr "2025-06-01");
      ("end_date", JStr "2025-06-02")]).
Proof. vm_compute. reflexivity. Qed.

Example test_weather_weekly_invalid_latlon :
  weather_weekly Tests.a_day fromisoformat_ymd (Tests.make_response true 200 Tests.weekly_raw)
    "foo" "bar" None None
  = (ErrorResponse 400 not_numeric, []).
Proof. vm_compute. reflexivity. Qed.

Example test_weather_weekly_empty_data :
  fst (weather_weekly Tests.a_day fromisoformat_ymd
         (Tests.make_response true 200 (JObj [("daily", JObj [])]))
         "10" "20" None None)
  = ErrorResponse 404 empty_data_set.
Proof. vm_compute. reflexivity. Qed.

Example test_weather_weekly_no_daily :
  fst (weather_weekly Tests.a_day fromisoformat_ymd (Tests.make_response true 200 (JObj []))
         "10" "20" None None)
  = ErrorResponse 404 no_data.
Proof. vm_compute. reflexivity. Qed.

(** ** Numbers *)

Lemma py_int_truncate (n : pynum) :
  num_finite n = true -> py_int n = Ok (truncate n).
Proof.
  destruct n as [z|[s|s| |s m e]]; cbn; try discriminate; intros _.
  - unfold truncate. cbn. now rewrite Z.quot_1_r.
  - reflexivity.
  - unfold truncate. destruct e as [|k|k]; cbn [num_val Float64.to_Q Qnum Qden].
    + rewrite Z.quot_1_r. cbn. destruct s; cbn; rewrite ?Pos.mul_1_r; reflexivity.
    + rewrite Z.quot_1_r. rewrite Z.shiftl_mul_pow2 by lia. reflexivity.
    + change (Z.neg k) with (- Z.pos k). rewrite Z.shiftl_opp_r, Z.shiftr_div_pow2 by lia.
      rewrite Pos2Z.inj_pow.
      destruct s; cbn [cond_Zopp].
      * rewrite Z.quot_opp_l by lia.
        rewrite Z.quot_div_nonneg by lia. reflexivity.
      * rewrite Z.quot_div_nonneg by lia. reflexivity.
Qed.

(** [round_half_even] returns a nearest integer: the error is at most one
    half. *)
Lemma round_half_even_nearest (a : Z) (b : positive) :
  Z.abs (2 * (round_half_even a b * Zpos b - a)) <= Zpos b.
Proof.
  unfold round_half_even.
  pose proof (Z.div_mod a (Zpos b) ltac:(lia)) as Hdm.
  pose proof (Z.mod_pos_bound a (Zpos b) ltac:(lia)) as Hr.
  destruct (Z.compare_spec (2 * (a mod Zpos b)) (Zpos b)) as [He|Hl|Hg].
  - destruct (Z.even _); nia.
  - nia.
  - nia.
Qed.

Lemma num_ltb_lt (a b : pynum) : num_ltb a b = true <-> (num_val a < num_val b)%Q.
Proof.
  unfold num_ltb. rewrite Qlt_alt.
  destruct (num_val a ?= num_val b)%Q; split; congruence.
Qed.

Lemma num_ltb_ge (a b : pynum) : num_ltb a b = false <-> (num_val b <= num_val a)%Q.
Proof.
  rewrite <- not_true_iff_false, num_ltb_lt. split.
  - apply Qnot_lt_le.
  - apply Qle_not_lt.
Qed.

Lemma num_eqb_refl (x : pynum) : num_eqb x x = true.
Proof. apply Qeq_bool_iff. reflexivity. Qed.

Lemma num_eqb_sym (x y : pynum) : num_eqb x y = num_eqb y x.
Proof.
  unfold num_eqb.
  destruct (Qeq_bool (num_val x) (num_val y)) eqn:E1,
           (Qeq_bool (num_val y) (num_val x)) eqn:E2; try reflexivity.
  - apply Qeq_bool_iff in E1. symmetry in E1. apply Qeq_bool_iff in E1. congruence.
  - apply Qeq_bool_iff in E2. symmetry in E2. apply Qeq_bool_iff in E2. congruence.
Qed.

Lemma num_eqb_trans (x y z : pynum) :
  num_eqb x y = true -> num_eqb y z = true -> num_eqb x z = true.
Proof.
  unfold num_eqb. rewrite !Qeq_bool_iff. intros H1 H2. now rewrite H1.
Qed.

Lemma exact_sum_from (l : list pynum) (acc : Q) :
  (fold_left (fun a n => Qred (a + num_val n)) l acc
   == acc + fold_right Qplus 0 (map num_val l))%Q.
Proof.
  revert acc. induction l as [|x t IH]; intros acc; cbn.
  - ring.
  - rewrite IH. rewrite (Qplus_comp _ _ (Qred_correct (acc + num_val x)) _ _ (Qeq_refl _)).
    ring.
Qed.

Lemma exact_sum_correct (l : list pynum) :
  (exact_sum l == fold_right Qplus 0 (map num_val l))%Q.
Proof. unfold exact_sum. rewrite exact_sum_from. ring. Qed.

Lemma py_mean_is_mean (l : list pynum) (m : pynum) :
  py_mean l = Ok m -> is_mean_of m l.
Proof.
  unfold py_mean. destruct l as [|x t]; [discriminate|].
  destruct (negb _); [discriminate|].
  set (q := Qred (exact_sum (x :: t) / inject_Z (Z.of_nat (List.length (x :: t))))).
  assert (Hq : q = Qred (arithmetic_mean (x :: t))).
  { apply Qred_complete. unfold arithmetic_mean. now rewrite exact_sum_correct. }
  destruct (_ && _) eqn:Hint.
  - intros H. injection H as <-. unfold is_mean_of.
    apply andb_true_iff in Hint as [_ Hden]. apply Pos.eqb_eq in Hden.
    rewrite <- (Qred_correct (arithmetic_mean (x :: t))), <- Hq.
    destruct q as [n d]. cbn in *. subst d. reflexivity.
  - destruct (Float64.is_finite _); [|discriminate].
    intros H. injection H as <-. unfold is_mean_of, nearest_float. now rewrite Hq.
Qed.

Lemma py_max_from_maximum (rest : list pynum) (first : pynum) :
  is_maximum (py_max_from first rest) (first :: rest).
Proof.
  unfold is_maximum, py_max_from. revert first.
  induction rest as [|x t IH]; intros first; cbn [fold_left].
  - split; [now left|]. constructor; [apply Qle_refl|constructor].
  - set (best := if num_ltb first x then x else first).
    destruct (IH best) as [Hin Hall].
    assert (Hf : (num_val first <= num_val best)%Q).
    { unfold best. destruct (num_ltb first x) eqn:E.
      - apply num_ltb_lt in E. now apply Qlt_le_weak.
      - apply Qle_refl. }
    assert (Hx : (num_val x <= num_val best)%Q).
    { unfold best. destruct (num_ltb first x) eqn:E.
      - apply Qle_refl.
      - now apply num_ltb_ge in E. }
    apply Forall_cons_iff in Hall as [Hb Ht].
    split.
    + destruct Hin as [Hin|Hin]; [|now right; right].
      rewrite <- Hin. unfold best. destruct (num_ltb first x); [right; now left|now left].
    + repeat constructor; try assumption; eapply Qle_trans; eassumption.
Qed.

Lemma py_min_from_minimum (rest : list pynum) (first : pynum) :
  is_minimum (py_min_from first rest) (first :: rest).
Proof.
  unfold is_minimum, py_min_from. revert first.
  induction rest as [|x t IH]; intros first; cbn [fold_left].
  - split; [now left|]. constructor; [apply Qle_refl|constructor].
  - set (best := if num_ltb x first then x else first).
    destruct (IH best) as [Hin Hall].
    assert (Hf : (num_val best <= num_val first)%Q).
    { unfold best. destruct (num_ltb x first) eqn:E.
      - apply num_ltb_lt in E. now apply Qlt_le_weak.
      - apply Qle_refl. }
    assert (Hx : (num_val best <= num_val x)%Q).
    { unfold best. destruct (num_ltb x first) eqn:E.
      - apply Qle_refl.
      - now apply num_ltb_ge in E. }
    apply Forall_cons_iff in Hall as [Hb Ht].
    split.
    + destruct Hin as [Hin|Hin]; [|now right; right].
      rewrite <- Hin. unfold best. destruct (num_ltb x first); [right; now left|now left].
    + repeat constructor; try assumption; eapply Qle_trans; eassumption.
Qed.

(** ** [collections.Counter] *)

Lemma count_element_nonempty (A : Type) (eqb : A -> A -> bool) c x :
  count_element eqb c x <> [].
Proof. destruct c as [|[k n] t]; cbn; [|destruct (eqb k x)]; discriminate. Qed.

Lemma Counter_nonempty (A : Type) (eqb : A -> A -> bool) (l : list A) :
  l <> [] -> Counter eqb l <> [].
Proof.
  unfold Counter. intros Hl.
  destruct l as [|x t] using rev_ind; [congruence|].
  rewrite fold_left_app. cbn. apply count_element_nonempty.
Qed.

Section CounterFacts.

Variable A : Type.
Variable eqb : A -> A -> bool.
Hypothesis eqb_refl : forall x, eqb x x = true.
Hypothesis eqb_sym : forall x y, eqb x y = eqb y x.
Hypothesis eqb_trans : forall x y z, eqb x y = true -> eqb y z = true -> eqb x z = true.

Lemma eqb_class x y z : eqb x y = true -> eqb x z = eqb y z.
Proof.
  intros Hxy. destruct (eqb y z) eqn:Hyz.
  - now apply eqb_trans with y.
  - destruct (eqb x z) eqn:Hxz; [|reflexivity].
    rewrite <- Hyz. symmetry. apply eqb_trans with x; [|exact Hxz].
    now rewrite eqb_sym.
Qed.

Lemma occurrences_class x y l :
  eqb x y = true -> occurrences eqb x l = occurrences eqb y l.
Proof.
  intros H. unfold occurrences. f_equal.
  apply filter_ext. intros z. now apply eqb_class.
Qed.

Lemma occurrences_snoc v l x :
  occurrences eqb v (l ++ [x])
  = (occurrences eqb v l + if eqb v x then 1 else 0)%nat.
Proof.
  unfold occurrences. rewrite filter_app, length_app. cbn.
  now destruct (eqb v x).
Qed.

Lemma occurrences_absent v l :
  (forall y, In y l -> eqb v y = false) -> occurrences eqb v l = 0%nat.
Proof.
  unfold occurrences. induction l as [|y t IH]; intros H; [reflexivity|].
  cbn. rewrite (H y (or_introl eq_refl)). apply IH. intros z Hz. apply H. now right.
Qed.

(** The two outcomes of [count_element]. *)
Lemma count_element_cases c x :
  (exists c1 k n c2,
     c = c1 ++ (k, n) :: c2 /\ eqb k x = true /\
     count_element eqb c x = c1 ++ (k, S n) :: c2) \/
  ((forall k', In k' (map fst c) -> eqb k' x = false) /\
   count_element eqb c x = c ++ [(x, 1%nat)]).
Proof.
  induction c as [|[k n] t IH]; cbn [count_element].
  - right. split; [intros k' []|reflexivity].
  - destruct (eqb k x) eqn:Hk.
    + left. exists [], k, n, t. repeat split. exact Hk.
    + destruct IH as [(c1 & k1 & n1 & c2 & -> & Hk1 & ->)|[Hno ->]].
      * left. exists ((k, n) :: c1), k1, n1, c2. repeat split. exact Hk1.
      * right. split; [|reflexivity].
        intros k' [<-|Hin]; [exact Hk|now apply Hno].
Qed.

Lemma snoc_split (X : Type) (a : list X) (x : X) (b1 b2 : list X) (y : X) :
  a ++ [x] = b1 ++ y :: b2 ->
  (b1 = a /\ y = x /\ b2 = []) \/ (exists b2', b2 = b2' ++ [x] /\ a = b1 ++ y :: b2').
Proof.
  destruct b2 as [|z b2] using rev_ind.
  - intros H. apply app_inj_tail in H as [-> ->]. now left.
  - intros H. change (b1 ++ y :: b2 ++ [z]) with (b1 ++ (y :: b2) ++ [z]) in H.
    rewrite app_assoc in H. apply app_inj_tail in H as [-> ->].
    right. now exists b2.
Qed.

Lemma in_keys (c : list (A * nat)) (k : A) :
  In k (map fst c) -> exists n, In (k, n) c.
Proof.
  intros H. apply in_map_iff in H as ([k' n] & <- & H). now exists n.
Qed.

Lemma keys_in (c : list (A * nat)) (k : A) (n : nat) :
  In (k, n) c -> In k (map fst c).
Proof. intros H. now apply (in_map fst) in H. Qed.

Lemma same_class_false k k' x :
  eqb k x = true -> eqb k' k = false -> eqb k' x = false.
Proof.
  intros Hk Hkk. destruct (eqb k' x) eqn:E; [|reflexivity].
  rewrite <- Hkk. symmetry. apply eqb_trans with x; [exact E|].
  now rewrite eqb_sym.
Qed.

Lemma counts_nil : counts eqb [] [].
Proof.
  constructor.
  - intros ks1 k ks2 H. now apply app_cons_not_nil in H.
  - intros k n [].
  - intros x [].
  - intros ks1 k ks2 H. now apply app_cons_not_nil in H.
Qed.

Lemma counts_snoc l c x :
  counts eqb l c -> counts eqb (l ++ [x]) (count_element eqb c x).
Proof.
  intros [Hd He Hc Hf].
  destruct (count_element_cases c x)
    as [(c1 & k & n & c2 & Hsplit & Hk & ->)|[Hno ->]].
  - (* the count of an existing key is incremented *)
    assert (Hkeys : map fst (c1 ++ (k, S n) :: c2) = map fst c).
    { rewrite Hsplit, !map_app. reflexivity. }
    assert (Hother : forall k' n', In (k', n') (c1 ++ c2) -> eqb k' x = false).
    { intros k' n' Hin. apply in_app_or in Hin as [Hin|Hin].
      - apply (same_class_false k); [exact Hk|].
        apply (Hd (map fst c1) k (map fst c2)).
        + rewrite Hsplit, map_app. reflexivity.
        + now apply keys_in in Hin.
      - apply in_split in Hin as (m1 & m2 & ->).
        apply (same_class_false k); [exact Hk|]. rewrite eqb_sym.
        apply (Hd (map fst c1 ++ k :: map fst m1) k' (map fst m2)).
        + rewrite Hsplit, !map_app. cbn. rewrite map_app, <- app_assoc. reflexivity.
        + apply in_or_app. right. now left. }
    constructor.
    + rewrite Hkeys. exact Hd.
    + intros k' n' Hin. rewrite occurrences_snoc.
      apply in_app_or in Hin as [Hin|[Hin|Hin]].
      * rewrite (Hother k' n'); [|apply in_or_app; now left].
        rewrite Nat.add_0_r. apply He. rewrite Hsplit. apply in_or_app. now left.
      * injection Hin as <- <-. rewrite Hk.
        rewrite (He k n); [lia|]. rewrite Hsplit. apply in_or_app. right. now left.
      * rewrite (Hother k' n'); [|apply in_or_app; now right].
        rewrite Nat.add_0_r. apply He. rewrite Hsplit. apply in_or_app. right. now right.
    + rewrite Hkeys. intros y Hin. apply in_app_or in Hin as [Hin|[<-|[]]].
      * now apply Hc.
      * exists k. split; [|exact Hk]. rewrite Hsplit, map_app.
        apply in_or_app. right. now left.
    + rewrite Hkeys. intros ks1 k0 ks2 Heq.
      destruct (Hf ks1 k0 ks2 Heq) as (p & s & -> & Hp).
      exists p, (s ++ [x]). split; [|exact Hp].
      rewrite <- app_assoc. reflexivity.
  - (* a new key is appended *)
    assert (Hkeys : map fst (c ++ [(x, 1%nat)]) = map fst c ++ [x]).
    { rewrite map_app. reflexivity. }
    constructor.
    + rewrite Hkeys. intros ks1 k0 ks2 Heq k' Hin.
      destruct (snoc_split _ _ _ _ _ _ Heq) as [(-> & -> & _)|(ks2' & _ & Heq')].
      * now apply Hno.
      * now apply (Hd ks1 k0 ks2').
    + intros k' n' Hin. rewrite occurrences_snoc.
      apply in_app_or in Hin as [Hin|[Hin|[]]].
      * rewrite (Hno k'); [|now apply keys_in in Hin].
        rewrite Nat.add_0_r. now apply He.
      * injection Hin as <- <-. rewrite eqb_refl.
        rewrite occurrences_absent; [reflexivity|].
        intros y Hy. destruct (Hc y Hy) as (k0 & Hk0 & Hy0).
        destruct (eqb x y) eqn:E; [|reflexivity].
        rewrite <- (Hno k0 Hk0). symmetry.
        apply eqb_trans with y; [exact Hy0|]. now rewrite eqb_sym.
    + rewrite Hkeys. intros y Hin. apply in_app_or in Hin as [Hin|[<-|[]]].
      * destruct (Hc y Hin) as (k0 & Hk0 & Hy0). exists k0.
        split; [apply in_or_app; now left|exact Hy0].
      * exists x. split; [apply in_or_app; right; now left|apply eqb_refl].
    + rewrite Hkeys. intros ks1 k0 ks2 Heq.
      destruct (snoc_split _ _ _ _ _ _ Heq) as [(-> & -> & _)|(ks2' & _ & Heq')].
      * exists l, []. split; [reflexivity|exact Hc].
      * destruct (Hf ks1 k0 ks2' Heq') as (p & s & -> & Hp).
        exists p, (s ++ [x]). split; [|exact Hp].
        rewrite <- app_assoc. reflexivity.
Qed.

Lemma Counter_counts (l : list A) : counts eqb l (Counter eqb l).
Proof.
  unfold Counter. induction l as [|x l IH] using rev_ind.
  - exact counts_nil.
  - rewrite fold_left_app. cbn [fold_left]. now apply counts_snoc.
Qed.

(** [max_by_count] returns the first item with the highest count. *)
Lemma max_by_count_first (t : list (A * nat)) :
  forall (b : A * nat) (pre post : list (A * nat)),
    (forall i, In i pre -> (snd i < snd b)%nat) ->
    (forall i, In i post -> (snd i <= snd b)%nat) ->
    exists c1 c2,
      pre ++ b :: post ++ t = c1 ++ max_by_count b t :: c2 /\
      (forall i, In i c1 -> (snd i < snd (max_by_count b t))%nat) /\
      (forall i, In i c2 -> (snd i <= snd (max_by_count b t))%nat).
Proof.
  unfold max_by_count.
  induction t as [|x t IH]; intros b pre post Hpre Hpost; cbn [fold_left].
  - exists pre, post. rewrite app_nil_r. repeat split; assumption.
  - destruct (Nat.ltb_spec (snd b) (snd x)) as [Hlt|Hge].
    + destruct (IH x (pre ++ b :: post) []) as (c1 & c2 & Heq & H1 & H2).
      * intros i Hin. apply in_app_or in Hin as [Hin|[<-|Hin]].
        -- specialize (Hpre i Hin). lia.
        -- exact Hlt.
        -- specialize (Hpost i Hin). lia.
      * intros i [].
      * exists c1, c2. repeat split; try assumption.
        rewrite <- Heq. cbn. rewrite <- app_assoc. reflexivity.
    + destruct (IH b pre (post ++ [x])) as (c1 & c2 & Heq & H1 & H2).
      * exact Hpre.
      * intros i Hin. apply in_app_or in Hin as [Hin|[<-|[]]]; [now apply Hpost|exact Hge].
      * exists c1, c2. repeat split; try assumption.
        rewrite <- Heq, <- app_assoc. reflexivity.
Qed.

Theorem most_common_first_mode (l : list A) :
  l <> [] ->
  exists c n, most_common_1 (Counter eqb l) = [(c, n)] /\ first_mode eqb c l.
Proof.
  intros Hl. pose proof (Counter_counts l) as [Hd He Hc Hf].
  pose proof (Counter_nonempty _ eqb l Hl) as Hne.
  destruct (Counter eqb l) as [|h t] eqn:HC; [congruence|]. clear Hne.
  destruct (max_by_count_first t h [] []) as (c1 & c2 & Heq & H1 & H2);
    [intros i []|intros i []|].
  cbn [app] in Heq. unfold most_common_1.
  destruct (max_by_count h t) as [c n]. cbn [snd] in H1, H2.
  exists c, n. split; [reflexivity|].
  assert (Hn : n = occurrences eqb c l).
  { apply He. rewrite Heq. apply in_or_app. right. now left. }
  split.
  - intros v Hv. destruct (Hc v Hv) as (k & Hk & Hkv).
    apply in_keys in Hk as [m Hm].
    rewrite <- (occurrences_class k v l Hkv), <- (He k m Hm), <- Hn.
    rewrite Heq in Hm. apply in_app_or in Hm as [Hm|[Hm|Hm]].
    + specialize (H1 _ Hm). cbn in H1. lia.
    + injection Hm as _ <-. lia.
    + specialize (H2 _ Hm). cbn in H2. lia.
  - destruct (Hf (map fst c1) c (map fst c2)) as (p & s & -> & Hp).
    { rewrite Heq, map_app. reflexivity. }
    assert (Hless : forall y, In y p ->
              (occurrences eqb y (p ++ c :: s) < occurrences eqb c (p ++ c :: s))%nat).
    { intros y Hy. destruct (Hp y Hy) as (k' & Hk' & Hky).
      apply in_keys in Hk' as [m Hm].
      rewrite <- (occurrences_class k' y _ Hky), <- Hn.
      rewrite <- (He k' m); [specialize (H1 _ Hm); exact H1|].
      rewrite Heq. apply in_or_app. now left. }
    exists p, s. repeat split; [|exact Hless].
    intros y Hy. destruct (eqb c y) eqn:E; [|reflexivity].
    specialize (Hless y Hy). rewrite (occurrences_class c y _ E) in Hless. lia.
Qed.

End CounterFacts.

Lemma most_frequent_defined (l : list pynum) :
  l <> [] -> exists code, most_frequent l = Ok (JNum code).
Proof.
  intros Hl. unfold most_frequent, most_common_1.
  pose proof (Counter_nonempty _ num_eqb l Hl) as Hc.
  destruct (Counter num_eqb l) as [|h t]; [congruence|].
  destruct (max_by_count h t) as [code n]. now exists code.
Qed.

Example mode_of_3_3_2 :
  most_frequent [PInt 3; PInt 3; PInt 2] = Ok (JNum (PInt 3)) /\
  most_frequent [PInt 2; PInt 3; PInt 3; PInt 2] = Ok (JNum (PInt 2)).
Proof. split; vm_compute; reflexivity. Qed.

(** ** The error monad *)

Lemma bind_Ok_inv (A B : Type) (m : pyres A) (k : A -> pyres B) (b : B) :
  bind m k = Ok b -> exists a, m = Ok a /\ k a = Ok b.
Proof. destruct m as [a|e]; cbn; [eauto|discriminate]. Qed.

Lemma bind_aborts (A B : Type) (m : pyres A) (k : A -> pyres B) :
  aborts m = false -> (forall a, aborts (k a) = false) -> aborts (bind m k) = false.
Proof. destruct m as [a|e]; cbn; auto. Qed.

Lemma respond_json_inv r status body :
  respond r = JsonResponse status body -> r = Ok body /\ status = 200.
Proof.
  destruct r as [b|[]]; cbn; intros H; try discriminate.
  injection H as <- <-. split; reflexivity.
Qed.

(** ** Path segments *)

Lemma py_float_cases (s : string) :
  ascii_segment s ->
  (exists x, FloatParse.py_float s = Ok x) \/
  FloatParse.py_float s = Raise FloatParse.could_not_convert.
Proof.
  unfold ascii_segment, FloatParse.py_float. intros ->. cbn [negb].
  destruct (FloatParse.strip _) as [|c body]; [now right|].
  destruct (if existsb _ _ then _ else _) as [b|]; [|now right].
  destruct (FloatParse.take_sign b) as [sg rest].
  destruct (FloatParse.parse_inf_or_nan sg rest); [left; eauto|].
  destruct (FloatParse.parse_decimal sg rest); [left; eauto|now right].
Qed.

Lemma cast_coordinates_not_numeric (lat lon : string) :
  ascii_segment lat -> ascii_segment lon ->
  not_a_number lat \/ not_a_number lon ->
  cast_coordinates lat lon = Raise (HTTPException 400 not_numeric).
Proof.
  intros Ha Ho H. unfold cast_coordinates.
  destruct (py_float_cases lat Ha) as [[x Hx]|Hx]; rewrite Hx; cbn; [|reflexivity].
  destruct H as [[m Hm]|[m Hm]]; [congruence|].
  rewrite Hm. reflexivity.
Qed.

(** C8.  A latitude or longitude segment that [float] rejects makes both
    endpoints answer 400 with the "must be numeric" description, and the list
    of outbound calls is empty: the answer is the same whatever the clock, the
    date parser and the upstream server are. *)
Theorem non_numeric_segment_400_without_call :
  forall today fromisoformat requests_get lat lon start end_,
    ascii_segment lat -> ascii_segment lon ->
    not_a_number lat \/ not_a_number lon ->
    weather_daily today fromisoformat requests_get lat lon start end_
      = (ErrorResponse 400 not_numeric, []) /\
    weather_weekly today fromisoformat requests_get lat lon start end_
      = (ErrorResponse 400 not_numeric, []).
Proof.
  intros today fi rg lat lon start end_ Ha Ho H.
  unfold weather_daily, weather_weekly.
  rewrite (cast_coordinates_not_numeric lat lon Ha Ho H). split; reflexivity.
Qed.

Lemma non_numeric_segment_witness :
  weather_daily Tests.a_day fromisoformat_ymd
    (Tests.make_response true 200 Tests.daily_raw) "foo" "20" None None
    = (ErrorResponse 400 not_numeric, []) /\
  weather_weekly Tests.a_day fromisoformat_ymd
    (Tests.make_response true 200 Tests.daily_raw) "foo" "20" None None
    = (ErrorResponse 400 not_numeric, []).
Proof.
  apply non_numeric_segment_400_without_call.
  - reflexivity.
  - reflexivity.
  - left. exists "could not convert string to float". reflexivity.
Defined.

(** ** The coordinate test *)

Lemma coordinates_rejected_finite (lat lon : pynum) :
  num_finite lat = true -> num_finite lon = true ->
  exists b, coordinates_rejected lat lon = Ok b /\
            (b = true <-> outside_bounds (truncate lat) (truncate lon)).
Proof.
  intros Ha Ho. unfold coordinates_rejected.
  rewrite (py_int_truncate lat Ha), (py_int_truncate lon Ho). cbn [bind].
  unfold outside_bounds.
  destruct ((-90 <=? truncate lat) && (truncate lat <=? 90))%Z eqn:E; cbn [negb].
  - eexists; split; [reflexivity|].
    destruct ((-180 <=? truncate lon) && (truncate lon <=? 180))%Z eqn:E'; cbn [negb].
    + apply andb_true_iff in E, E'. split; [discriminate|]. lia.
    + apply andb_true_iff in E. apply andb_false_iff in E'. split; [|reflexivity]. lia.
  - eexists; split; [reflexivity|]. apply andb_false_iff in E. split; [|reflexivity]. lia.
Qed.

Lemma add_days_7_defined (d : date) :
  year d < 9999 -> exists d', add_days 7 d = Ok d'.
Proof.
  intros Hy.
  assert (step : forall x, year x < 9999 ->
            exists x', next_day x = Ok x' /\
              (year x' < 9999 \/ (month x' = 1 /\ day x' = 1))).
  { intros x Hx. unfold next_day.
    destruct (day x <? _); [eexists; split; [reflexivity|left; exact Hx]|].
    destruct (month x <? 12); [eexists; split; [reflexivity|left; exact Hx]|].
    destruct (Z.ltb_spec (year x) 9999); [|lia].
    eexists; split; [reflexivity|right; split; reflexivity]. }
  assert (jan : forall x n, (n <= 30)%nat -> month x = 1 -> 1 <= day x ->
            day x + Z.of_nat n <= 31 -> exists x', add_days n x = Ok x').
  { intros x n. revert x. induction n as [|n IH]; intros x Hn Hm Hd Hb.
    - eexists; reflexivity.
    - cbn [add_days]. unfold next_day. rewrite Hm.
      change (days_in_month (year x) 1) with 31.
      destruct (Z.ltb_spec (day x) 31); [|lia]. cbn [bind].
      apply IH; cbn; lia. }
  assert (gen : forall n x, (n <= 7)%nat ->
            year x < 9999 \/ (month x = 1 /\ day x = 1) ->
            exists x', add_days n x = Ok x').
  { induction n as [|n IH]; intros x Hn Hx.
    - eexists; reflexivity.
    - destruct Hx as [Hx|[Hm Hd]].
      + cbn [add_days]. destruct (step x Hx) as [x' [-> Hx']]. cbn [bind].
        apply IH; [lia|exact Hx'].
      + apply jan; lia. }
  apply gen; [lia|left; exact Hy].
Qed.

Lemma except_ValueError_not_out_of_range (A : Type) (m : pyres A) :
  except_ValueError m (fun _ => Raise (ValueError "Dates must be YYYY-MM-DD."))
    <> Raise (ValueError out_of_range).
Proof.
  destruct m as [a|[]]; cbn; discriminate.
Qed.

Lemma build_api_call_after_defaults today fi lat lon daily start end_ :
  (end_ <> None \/ year today < 9999) ->
  exists s e,
    build_api_call today fi lat lon daily start end_ =
      (rejected <- coordinates_rejected lat lon ;;
       if rejected then Raise (ValueError out_of_range)
       else
         dates <- except_ValueError
                    (start_d <- fi s ;; end_d <- fi e ;; Ok (start_d, end_d))
                    (fun _ => Raise (ValueError "Dates must be YYYY-MM-DD.")) ;;
         if date_gtb (fst dates) (snd dates)
         then Raise (ValueError "start_date cannot be after end_date.")
         else
           Ok {| q_latitude := py_round lat 2;
                 q_longitude := py_round lon 2;
                 q_daily := ("sunshine_duration,temperature_2m_max,temperature_2m_min,"
                            ++ "weather_code" ++ (if daily then "" else ",pressure_msl_mean"))%string;
                 q_timezone := "auto";
                 q_start_date := s;
                 q_end_date := e |}) /\
    (forall x, start = Some x -> s = x) /\ (forall x, end_ = Some x -> e = x).
Proof.
  intros Hd. unfold build_api_call.
  destruct start as [s|], end_ as [e|]; cbn [bind].
  - exists s, e. repeat split; intros; congruence.
  - destruct Hd as [Hd|Hd]; [congruence|].
    destruct (add_days_7_defined today Hd) as [d' ->]. cbn [bind].
    eexists _, _. repeat split; intros; congruence.
  - eexists _, e. repeat split; intros; congruence.
  - destruct Hd as [Hd|Hd]; [congruence|].
    destruct (add_days_7_defined today Hd) as [d' ->]. cbn [bind].
    eexists _, _. repeat split; intros; congruence.
Qed.

Lemma routes_on_ValueError today fi rg lat_s lon_s lat lon start end_ msg :
  cast_coordinates lat_s lon_s = Ok (lat, lon) ->
  (forall daily, build_api_call today fi lat lon daily start end_ = Raise (ValueError msg)) ->
  weather_daily today fi rg lat_s lon_s start end_ = (ErrorResponse 400 msg, []) /\
  weather_weekly today fi rg lat_s lon_s start end_ = (ErrorResponse 400 msg, []).
Proof.
  intros Hc Hb. unfold weather_daily, weather_weekly, fetch_weather.
  rewrite Hc, !Hb. split; reflexivity.
Qed.

(** C2 (amended).  For finite coordinates, [build_api_call] raises the
    out-of-range [ValueError] exactly when the latitude truncated toward zero
    lies outside [-90, 90] or the truncated longitude outside [-180, 180];
    both endpoints then answer 400 without an outbound call.  The bounds are
    compared with [int(lat)] and [int(lon)], so 90.9 is accepted.  A NaN
    latitude, and a NaN longitude behind a finite latitude, end in a
    [ValueError] and a 400 too: the error of [int] on a NaN, or the
    out-of-range error when the finite latitude is itself out of range. *)
Theorem coordinate_bounds_on_truncated_values :
  forall today fromisoformat requests_get lat_s lon_s lat lon start end_,
    cast_coordinates lat_s lon_s = Ok (lat, lon) ->
    (end_ <> None \/ year today < 9999) ->
    (num_finite lat = true -> num_finite lon = true ->
     (forall daily,
        build_api_call today fromisoformat lat lon daily start end_
          = Raise (ValueError out_of_range)
        <-> outside_bounds (truncate lat) (truncate lon)) /\
     (outside_bounds (truncate lat) (truncate lon) ->
      weather_daily today fromisoformat requests_get lat_s lon_s start end_
        = (ErrorResponse 400 out_of_range, []) /\
      weather_weekly today fromisoformat requests_get lat_s lon_s start end_
        = (ErrorResponse 400 out_of_range, []))) /\
    (is_nan lat = true \/ (num_finite lat = true /\ is_nan lon = true) ->
     (forall daily,
        build_api_call today fromisoformat lat lon daily start end_
          = Raise (ValueError (nan_error lat))) /\
     weather_daily today fromisoformat requests_get lat_s lon_s start end_
       = (ErrorResponse 400 (nan_error lat), []) /\
     weather_weekly today fromisoformat requests_get lat_s lon_s start end_
       = (ErrorResponse 400 (nan_error lat), [])).
Proof.
  intros today fi rg lat_s lon_s lat lon start end_ Hc Hd. split.
  - intros Ha Ho.
    assert (Hiff : forall daily,
         build_api_call today fi lat lon daily start end_
           = Raise (ValueError out_of_range)
         <-> outside_bounds (truncate lat) (truncate lon)).
    { intros daily.
      destruct (build_api_call_after_defaults today fi lat lon daily start end_ Hd)
        as (s & e & -> & _ & _).
      destruct (coordinates_rejected_finite lat lon Ha Ho) as (b & -> & Hb).
      cbn [bind]. destruct b.
      - split; [intros _; now apply Hb|reflexivity].
      - split; [|intros H; apply Hb in H; discriminate].
        intros H. exfalso. revert H.
        pose proof (except_ValueError_not_out_of_range _
                      (start_d <- fi s ;; end_d <- fi e ;; Ok (start_d, end_d))) as Hne.
        destruct (except_ValueError _ _) as [dates|ex]; cbn [bind].
        + destruct (date_gtb _ _); discriminate.
        + intros H. apply Hne. injection H as ->. reflexivity. }
    split; [exact Hiff|].
    intros Hout.
    apply (routes_on_ValueError today fi rg lat_s lon_s lat lon start end_ _ Hc).
    intros daily. now apply Hiff.
  - intros Hnan.
    assert (Hb : forall daily,
         build_api_call today fi lat lon daily start end_
           = Raise (ValueError (nan_error lat))).
    { intros daily.
      destruct (build_api_call_after_defaults today fi lat lon daily start end_ Hd)
        as (s & e & -> & _ & _).
      unfold coordinates_rejected, nan_error.
      destruct Hnan as [Hl|[Hl Ho]].
      - destruct lat as [z|[sg|sg| |sg m x]]; try discriminate. reflexivity.
      - rewrite (py_int_truncate lat Hl). cbn [bind].
        assert (Hn : is_nan lat = false)
          by (destruct lat as [z|[sg|sg| |sg m x]]; try reflexivity; discriminate).
        rewrite Hn. cbn [orb].
        destruct ((-90 <=? truncate lat) && (truncate lat <=? 90)); cbn [negb bind].
        + destruct lon as [z|[sg|sg| |sg m x]]; try discriminate. reflexivity.
        + reflexivity. }
    split; [exact Hb|].
    exact (routes_on_ValueError today fi rg lat_s lon_s lat lon start end_ _ Hc Hb).
Qed.

Lemma coordinate_bounds_witness :
  ((forall daily,
      build_api_call Tests.a_day fromisoformat_ymd
        (PFloat (Float64.of_decimal false 909 (-1))) (PFloat (Float64.of_decimal false 20 0))
        daily None None = Raise (ValueError out_of_range)
      <-> outside_bounds (truncate (PFloat (Float64.of_decimal false 909 (-1))))
                         (truncate (PFloat (Float64.of_decimal false 20 0)))) /\
   (outside_bounds (truncate (PFloat (Float64.of_decimal false 909 (-1))))
                   (truncate (PFloat (Float64.of_decimal false 20 0))) ->
    weather_daily Tests.a_day fromisoformat_ymd
      (Tests.make_response true 200 Tests.daily_raw) "90.9" "20" None None
      = (ErrorResponse 400 out_of_range, []) /\
    weather_weekly Tests.a_day fromisoformat_ymd
      (Tests.make_response true 200 Tests.daily_raw) "90.9" "20" None None
      = (ErrorResponse 400 out_of_range, []))) /\
  (weather_daily Tests.a_day fromisoformat_ymd
     (Tests.make_response true 200 Tests.daily_raw) "52.5" "nan" None None
     = (ErrorResponse 400 "cannot convert float NaN to integer", []) /\
   weather_weekly Tests.a_day fromisoformat_ymd
     (Tests.make_response true 200 Tests.daily_raw) "52.5" "nan" None None
     = (ErrorResponse 400 "cannot convert float NaN to integer", [])) /\
  (weather_daily Tests.a_day fromisoformat_ymd
     (Tests.make_response true 200 Tests.daily_raw) "91" "nan" None None
     = (ErrorResponse 400 out_of_range, []) /\
   weather_weekly Tests.a_day fromisoformat_ymd
     (Tests.make_response true 200 Tests.daily_raw) "91" "nan" None None
     = (ErrorResponse 400 out_of_range, [])) /\
  (weather_daily Tests.a_day fromisoformat_ymd
     (Tests.make_response true 200 Tests.daily_raw) "nan" "20" None None
     = (ErrorResponse 400 "cannot convert float NaN to integer", []) /\
   weather_weekly Tests.a_day fromisoformat_ymd
     (Tests.make_response true 200 Tests.daily_raw) "nan" "20" None None
     = (ErrorResponse 400 "cannot convert float NaN to integer", [])).
Proof.
  assert (Hy : @None string <> None \/ year Tests.a_day < 9999) by (right; cbn; lia).
  split; [|split; [|split]].
  - apply (coordinate_bounds_on_truncated_values Tests.a_day fromisoformat_ymd
             (Tests.make_response true 200 Tests.daily_raw) "90.9" "20"
             (PFloat (Float64.of_decimal false 909 (-1)))
             (PFloat (Float64.of_decimal false 20 0)) None None eq_refl Hy);
      reflexivity.
  - apply (coordinate_bounds_on_truncated_values Tests.a_day fromisoformat_ymd
             (Tests.make_response true 200 Tests.daily_raw) "52.5" "nan"
             (PFloat (Float64.of_decimal false 525 (-1))) (PFloat S754_nan)
             None None eq_refl Hy).
    right. split; reflexivity.
  - apply (coordinate_bounds_on_truncated_values Tests.a_day fromisoformat_ymd
             (Tests.make_response true 200 Tests.daily_raw) "91" "nan"
             (PFloat (Float64.of_decimal false 91 0)) (PFloat S754_nan)
             None None eq_refl Hy).
    right. split; reflexivity.
  - apply (coordinate_bounds_on_truncated_values Tests.a_day fromisoformat_ymd
             (Tests.make_response true 200 Tests.daily_raw) "nan" "20"
             (PFloat S754_nan) (PFloat (Float64.of_decimal false 20 0))
             None None eq_refl Hy).
    left. reflexivity.
Defined.

Example latitude_90_9_accepted :
  fst (weather_daily Tests.a_day fromisoformat_ymd
         (Tests.make_response true 200 Tests.daily_raw) "90.9" "20" None None)
    = JsonResponse 200 Tests.daily_raw /\
  fst (weather_daily Tests.a_day fromisoformat_ymd
         (Tests.make_response true 200 Tests.daily_raw) "91" "20" None None)
    = ErrorResponse 400 out_of_range /\
  fst (weather_daily Tests.a_day fromisoformat_ymd
         (Tests.make_response true 200 Tests.daily_raw) "-90.9" "-180.9" None None)
    = JsonResponse 200 Tests.daily_raw.
Proof. repeat split; vm_compute; reflexivity. Qed.

(** C2 (counterexample).  A NaN latitude makes the validation fail with a
    [ValueError] although no truncated coordinate lies outside the bounds. *)
Lemma nan_latitude_fails_inside_bounds :
  ~ truncation_rule_for_every_input Tests.a_day fromisoformat_ymd.
Proof.
  intros rule.
  specialize (rule (PFloat S754_nan) (PFloat (S754_zero false)) true
                "2025-06-01" "2025-06-02" _ _ eq_refl eq_refl eq_refl).
  destruct rule as [rule _].
  destruct rule as [(z & Hz & _)|(z & Hz & Hb)].
  - eexists. reflexivity.
  - discriminate Hz.
  - injection Hz as <-. lia.
Qed.

(** ** NaN and infinite coordinates *)

Lemma nan_latitude_is_400 today fi rg lon lon' start end_ :
  FloatParse.py_float lon = Ok lon' ->
  (end_ <> None \/ year today < 9999) ->
  weather_daily today fi rg "nan" lon start end_
    = (ErrorResponse 400 "cannot convert float NaN to integer", []) /\
  weather_weekly today fi rg "nan" lon start end_
    = (ErrorResponse 400 "cannot convert float NaN to integer", []).
Proof.
  intros Hlon Hd.
  apply (routes_on_ValueError today fi rg "nan" lon (PFloat S754_nan) (PFloat lon')).
  - unfold cast_coordinates. rewrite Hlon. reflexivity.
  - intros daily.
    destruct (build_api_call_after_defaults today fi (PFloat S754_nan) (PFloat lon')
                daily start end_ Hd) as (s & e & -> & _). reflexivity.
Qed.

Lemma nan_longitude_is_400 today fi rg lat lat' start end_ :
  FloatParse.py_float lat = Ok lat' ->
  Float64.is_finite lat' = true ->
  (end_ <> None \/ year today < 9999) ->
  exists msg,
    weather_daily today fi rg lat "nan" start end_ = (ErrorResponse 400 msg, []) /\
    weather_weekly today fi rg lat "nan" start end_ = (ErrorResponse 400 msg, []).
Proof.
  intros Hlat Hfin Hd.
  assert (Hb : exists msg, forall daily,
            build_api_call today fi (PFloat lat') (PFloat S754_nan) daily start end_
            = Raise (ValueError msg)).
  { assert (Hr : coordinates_rejected (PFloat lat') (PFloat S754_nan) = Ok true \/
                 coordinates_rejected (PFloat lat') (PFloat S754_nan)
                 = Raise (ValueError "cannot convert float NaN to integer")).
    { unfold coordinates_rejected.
      rewrite (py_int_truncate (PFloat lat') Hfin). cbn [bind].
      destruct (negb _); [now left|now right]. }
    destruct Hr as [Hr|Hr]; eexists; intros daily;
      destruct (build_api_call_after_defaults today fi (PFloat lat') (PFloat S754_nan)
                  daily start end_ Hd) as (s & e & -> & _);
      rewrite Hr; reflexivity. }
  destruct Hb as [msg Hb]. exists msg.
  apply (routes_on_ValueError today fi rg lat "nan" (PFloat lat') (PFloat S754_nan)).
  - unfold cast_coordinates. rewrite Hlat. reflexivity.
  - exact Hb.
Qed.

Lemma infinite_latitude_crashes today fi rg lon lon' start end_ :
  FloatParse.py_float lon = Ok lon' ->
  weather_daily today fi rg "inf" lon (Some start) (Some end_)
    = (Crash (OverflowError "cannot convert float infinity to integer"), []) /\
  weather_weekly today fi rg "inf" lon (Some start) (Some end_)
    = (Crash (OverflowError "cannot convert float infinity to integer"), []).
Proof.
  intros Hlon. unfold weather_daily, weather_weekly, cast_coordinates.
  change (FloatParse.py_float "inf") with (Ok (A:=spec_float) (S754_infinity false)).
  cbn [bind]. rewrite Hlon. split; reflexivity.
Qed.

(** C10.  The claim fails when the latitude is infinite: [int(lat)] is
    evaluated first and raises [OverflowError], which [except ValueError] does
    not catch, so the request [/inf/nan] ends in an unhandled exception
    (status 500) on both endpoints, before any outbound call. *)
Theorem nan_longitude_behind_infinite_latitude_crashes :
  forall today fromisoformat requests_get start end_,
    weather_daily today fromisoformat requests_get "inf" "nan" (Some start) (Some end_)
      = (Crash (OverflowError "cannot convert float infinity to integer"), []) /\
    weather_weekly today fromisoformat requests_get "inf" "nan" (Some start) (Some end_)
      = (Crash (OverflowError "cannot convert float infinity to integer"), []) /\
    status_of (Crash (OverflowError "cannot convert float infinity to integer"))
      = Some 500.
Proof. intros. repeat split; reflexivity. Qed.

(** ** The date tests *)

Lemma fromisoformat_ymd_raises_ValueError : parser_raises_ValueError fromisoformat_ymd.
Proof.
  intros s. unfold is_date, not_date, fromisoformat_ymd.
  destruct (_ && _ && _ && _).
  - destruct (valid_date _); [left|right]; eexists; reflexivity.
  - right; eexists; reflexivity.
Qed.

(** C7 (amended).  With coordinates that pass the range check, a pair of
    date strings of which one is rejected by [date.fromisoformat] (the parser
    of the running interpreter), or whose start is after its end, makes
    [build_api_call] raise a [ValueError] and both endpoints answer 400 with
    its message, without an outbound call; when both dates parse the message
    is "start_date cannot be after end_date.". *)
Theorem invalid_dates_rejected :
  forall today fromisoformat requests_get lat_s lon_s lat lon start end_,
    parser_raises_ValueError fromisoformat ->
    cast_coordinates lat_s lon_s = Ok (lat, lon) ->
    coordinates_rejected lat lon = Ok false ->
    not_date fromisoformat start \/ not_date fromisoformat end_ \/
      start_after_end fromisoformat start end_ ->
    (forall daily,
       build_api_call today fromisoformat lat lon daily (Some start) (Some end_)
       = Raise (ValueError (date_error fromisoformat start end_))) /\
    weather_daily today fromisoformat requests_get lat_s lon_s (Some start) (Some end_)
      = (ErrorResponse 400 (date_error fromisoformat start end_), []) /\
    weather_weekly today fromisoformat requests_get lat_s lon_s (Some start) (Some end_)
      = (ErrorResponse 400 (date_error fromisoformat start end_), []).
Proof.
  intros today fi rg lat_s lon_s lat lon start end_ Hp Hc Hr Hbad.
  assert (Hb : forall daily,
       build_api_call today fi lat lon daily (Some start) (Some end_)
       = Raise (ValueError (date_error fi start end_))).
  { intros daily. unfold build_api_call, date_error. cbn [bind]. rewrite Hr. cbn [bind].
    destruct Hbad as [[m Hs]|[[m He]|(sd & ed & Hs & He & Hgt)]].
    - rewrite Hs. reflexivity.
    - rewrite He. destruct (Hp start) as [[d Hs]|[m' Hs]]; rewrite Hs; reflexivity.
    - rewrite Hs, He. cbn. rewrite Hgt. reflexivity. }
  split; [exact Hb|].
  exact (routes_on_ValueError today fi rg lat_s lon_s lat lon _ _ _ Hc Hb).
Qed.

Lemma invalid_dates_witness :
  (forall daily,
     build_api_call Tests.a_day fromisoformat_ymd
       (PFloat (Float64.of_decimal false 10 0)) (PFloat (Float64.of_decimal false 20 0))
       daily (Some "2025-06-10") (Some "2025-06-05")
     = Raise (ValueError "start_date cannot be after end_date.")) /\
  weather_daily Tests.a_day fromisoformat_ymd
    (Tests.make_response true 200 Tests.daily_raw) "10" "20"
    (Some "2025-06-10") (Some "2025-06-05")
    = (ErrorResponse 400 "start_date cannot be after end_date.", []) /\
  weather_weekly Tests.a_day fromisoformat_ymd
    (Tests.make_response true 200 Tests.daily_raw) "10" "20"
    (Some "2025-06-10") (Some "2025-06-05")
    = (ErrorResponse 400 "start_date cannot be after end_date.", []).
Proof.
  apply (invalid_dates_rejected Tests.a_day fromisoformat_ymd
           (Tests.make_response true 200 Tests.daily_raw) "10" "20" _ _
           "2025-06-10" "2025-06-05").
  - exact fromisoformat_ymd_raises_ValueError.
  - reflexivity.
  - reflexivity.
  - right. right. eexists _, _. repeat split; reflexivity.
Defined.

(** C7 (counterexample).  Which strings are dates is for the parser of the
    interpreter to say, not for the form [YYYY-MM-DD]: Python 3.11 reads
    [20250601], so the request [/10/20/20250601/20250602] passes the date
    checks and is answered 200, though neither string is a valid
    [YYYY-MM-DD] date. *)
Lemma basic_form_dates_are_accepted :
  ~ ymd_dates_required Tests.a_day fromisoformat_311
      (Tests.make_response true 200 Tests.daily_raw).
Proof.
  intros rule.
  destruct (rule "10" "20" _ _ "20250601" "20250602" eq_refl eq_refl)
    as (msg & H & _).
  - left. intros [d Hd]. discriminate Hd.
  - discriminate H.
Qed.

Example basic_form_dates_answer_200 :
  fromisoformat_311 "20250601" = Ok {| year := 2025; month := 6; day := 1 |} /\
  fromisoformat_ymd "20250601" = Raise (ValueError "Invalid isoformat string") /\
  fst (weather_daily Tests.a_day fromisoformat_311
         (Tests.make_response true 200 Tests.daily_raw) "10" "20"
         (Some "20250601") (Some "20250602"))
    = JsonResponse 200 Tests.daily_raw /\
  fst (weather_daily Tests.a_day fromisoformat_ymd
         (Tests.make_response true 200 Tests.daily_raw) "10" "20"
         (Some "20250601") (Some "20250602"))
    = ErrorResponse 400 "Dates must be YYYY-MM-DD.".
Proof. repeat split; vm_compute; reflexivity. Qed.

Example dates_must_be_ymd :
  fst (weather_daily Tests.a_day fromisoformat_ymd
         (Tests.make_response true 200 Tests.daily_raw) "10" "20"
         (Some "2025-02-30") (Some "2025-06-05"))
  = ErrorResponse 400 "Dates must be YYYY-MM-DD.".
Proof. vm_compute. reflexivity. Qed.

(** ** Requests that reach the transformation *)

Lemma weather_daily_answered today fi rg lat lon start end_ url data :
  answered today fi rg true lat lon start end_ url data ->
  weather_daily today fi rg lat lon start end_ = (respond (filter_daily data), [url]).
Proof.
  intros (x & y & r & Hc & Hb & Hr & Hok & Hp).
  unfold weather_daily, fetch_weather. rewrite Hc, Hb, Hr. cbn [bind].
  rewrite Hok, Hp. reflexivity.
Qed.

Lemma weather_weekly_answered today fi rg lat lon start end_ url data :
  answered today fi rg false lat lon start end_ url data ->
  weather_weekly today fi rg lat lon start end_
    = (respond (summarise_weekly data start end_), [url]).
Proof.
  intros (x & y & r & Hc & Hb & Hr & Hok & Hp).
  unfold weather_weekly, fetch_weather. rewrite Hc, Hb, Hr. cbn [bind].
  rewrite Hok, Hp. reflexivity.
Qed.

Lemma answered_fixture (daily : bool) (body : json) :
  exists url,
    answered Tests.a_day fromisoformat_ymd (Tests.make_response true 200 body)
      daily "10" "20" None None url body.
Proof.
  eexists. eexists _, _, _. repeat split; reflexivity.
Qed.

Lemma dict_get_in_keys key members v :
  dict_get key members = Some v ->
  existsb (String.eqb key) (dict_keys members) = true.
Proof.
  induction members as [|[k w] t IH]; cbn; [discriminate|].
  rewrite (String.eqb_sym key k).
  destruct (String.eqb k key); [reflexivity|exact IH].
Qed.

Lemma dict_get_not_in_keys key members :
  dict_get key members = None ->
  existsb (String.eqb key) (dict_keys members) = false.
Proof.
  induction members as [|[k w] t IH]; cbn; [reflexivity|].
  rewrite (String.eqb_sym key k).
  destruct (String.eqb k key); [discriminate|exact IH].
Qed.

Lemma lacks_daily_object members v :
  dict_get "daily" members = Some v -> lacks_daily (JObj members) = Ok false.
Proof.
  intros H. unfold lacks_daily.
  destruct members as [|m t]; [discriminate|]. cbn [py_truthy negb py_contains bind].
  now rewrite (dict_get_in_keys _ _ _ H).
Qed.

Lemma py_get_object members key default :
  py_get (JObj members) key default = Ok (get_or members key default).
Proof. unfold py_get, get_or. now destruct (dict_get key members). Qed.

(** ** The daily view *)

Lemma filter_daily_object members daily units :
  dict_get "daily" members = Some (JObj daily) ->
  get_or members "daily_units" (JObj []) = JObj units ->
  filter_daily (JObj members) = Ok (filtered daily units).
Proof.
  intros Hd Hu. unfold filter_daily.
  rewrite (lacks_daily_object _ _ Hd). cbn [bind].
  unfold py_getitem. rewrite Hd. cbn [bind].
  rewrite !py_get_object, Hu. cbn [bind].
  rewrite !py_get_object. reflexivity.
Qed.

Lemma filter_daily_inv raw body :
  filter_daily raw = Ok body ->
  exists members daily units,
    raw = JObj members /\
    dict_get "daily" members = Some (JObj daily) /\
    get_or members "daily_units" (JObj []) = JObj units /\
    body = filtered daily units.
Proof.
  unfold filter_daily. intros H.
  destruct (lacks_daily raw) as [[|]|] eqn:Hl; cbn [bind] in H; try discriminate.
  destruct (py_getitem raw "daily") as [d|] eqn:Hg; cbn [bind] in H; try discriminate.
  destruct (py_get raw "daily_units" (JObj [])) as [u|] eqn:Hu; cbn [bind] in H;
    try discriminate.
  destruct raw as [| | | | |members]; try discriminate.
  destruct d as [| | | | |daily]; try discriminate.
  rewrite !py_get_object in H. cbn [bind] in H.
  destruct u as [| | | | |units]; try discriminate.
  rewrite !py_get_object in H. cbn [bind] in H.
  rewrite py_get_object in Hu.
  exists members, daily, units. repeat split.
  - unfold py_getitem in Hg. destruct (dict_get "daily" members); congruence.
  - congruence.
  - now injection H.
Qed.

(** C5.  For every upstream body with a [daily] object, the daily endpoint
    answers 200 with exactly the five arrays [time], [sunshine_duration],
    [temperature_2m_max], [temperature_2m_min], [weather_code] (an empty
    array for a missing one) and the unit strings of [daily_units] (an empty
    string for a missing one); no key of the response mentions pressure. *)
Theorem daily_view_fields :
  forall today fromisoformat requests_get lat lon start end_ url members daily units,
    answered today fromisoformat requests_get true lat lon start end_ url (JObj members) ->
    dict_get "daily" members = Some (JObj daily) ->
    get_or members "daily_units" (JObj []) = JObj units ->
    weather_daily today fromisoformat requests_get lat lon start end_
      = (JsonResponse 200 (filtered daily units), [url]) /\
    response_keys (filtered daily units)
      = ["daily"; "daily_units";
         "time"; "sunshine_duration"; "temperature_2m_max"; "temperature_2m_min";
         "weather_code";
         "sunshine_duration"; "temperature_2m_max"; "temperature_2m_min"] /\
    existsb (is_substring "pressure") (response_keys (filtered daily units)) = false.
Proof.
  intros today fi rg lat lon start end_ url members daily units Ha Hd Hu.
  rewrite (weather_daily_answered _ _ _ _ _ _ _ _ _ Ha).
  rewrite (filter_daily_object _ _ _ Hd Hu).
  repeat split; reflexivity.
Qed.

Lemma daily_view_fields_witness :
  exists url daily units,
    weather_daily Tests.a_day fromisoformat_ymd
      (Tests.make_response true 200 Tests.daily_raw)
      "10" "20" (Some "2025-06-01") (Some "2025-06-02")
      = (JsonResponse 200 (filtered daily units), [url]) /\
    response_keys (filtered daily units)
      = ["daily"; "daily_units";
         "time"; "sunshine_duration"; "temperature_2m_max"; "temperature_2m_min";
         "weather_code";
         "sunshine_duration"; "temperature_2m_max"; "temperature_2m_min"] /\
    existsb (is_substring "pressure") (response_keys (filtered daily units)) = false.
Proof.
  eexists _, _, _.
  eapply (daily_view_fields Tests.a_day fromisoformat_ymd
            (Tests.make_response true 200 Tests.daily_raw)
            "10" "20" (Some "2025-06-01") (Some "2025-06-02")).
  - eexists _, _, _. repeat split; reflexivity.
  - reflexivity.
  - reflexivity.
Defined.

(** C9.  Whenever the daily endpoint answers with a JSON body, its
    [daily_units] object has exactly the keys [sunshine_duration],
    [temperature_2m_max], [temperature_2m_min]: no unit is emitted for [time]
    or [weather_code], whatever the upstream [daily_units] holds. *)
Theorem daily_units_three_keys :
  forall today fromisoformat requests_get lat lon start end_ status body,
    fst (weather_daily today fromisoformat requests_get lat lon start end_)
      = JsonResponse status body ->
    exists sections units,
      body = JObj sections /\
      dict_get "daily_units" sections = Some (JObj units) /\
      dict_keys units
        = ["sunshine_duration"; "temperature_2m_max"; "temperature_2m_min"].
Proof.
  intros today fi rg lat lon start end_ status body.
  unfold weather_daily.
  destruct (cast_coordinates lat lon) as [[x y]|e].
  - destruct (fetch_weather today fi rg x y true start end_) as [fetched calls].
    cbn [fst]. intros H.
    apply respond_json_inv in H as [H _].
    apply bind_Ok_inv in H as (raw & _ & H).
    apply filter_daily_inv in H as (members & daily & units & _ & _ & _ & ->).
    eexists _, _. repeat split; reflexivity.
  - cbn [fst]. intros H. apply respond_json_inv in H as [H _]. discriminate.
Qed.

Lemma daily_units_three_keys_witness :
  exists sections units,
    filtered
      [("time", JArr [JStr "2025-06-01"]); ("weather_code", JArr [Tests.num 0])]
      [("time", JStr "iso8601"); ("sunshine_duration", JStr "s");
       ("weather_code", JStr "wmo code")]
    = JObj sections /\
    dict_get "daily_units" sections = Some (JObj units) /\
    dict_keys units
      = ["sunshine_duration"; "temperature_2m_max"; "temperature_2m_min"].
Proof.
  apply (daily_units_three_keys Tests.a_day fromisoformat_ymd
           (Tests.make_response true 200 units_for_every_array)
           "10" "20" None None 200).
  reflexivity.
Defined.

(** ** The weekly summary: the emptiness test *)

Lemma summarise_weekly_object members daily start end_ :
  dict_get "daily" members = Some (JObj daily) ->
  summarise_weekly (JObj members) start end_ =
    if all_empty daily then abort 404 empty_data_set
    else weekly_statistics members daily start end_.
Proof.
  intros Hd. unfold summarise_weekly.
  rewrite (lacks_daily_object _ _ Hd). cbn [bind].
  unfold py_getitem. rewrite Hd. cbn [bind].
  rewrite !py_get_object. cbn [bind].
  unfold all_empty, weekly_fields. cbn [map].
  destruct (negb _); [reflexivity|].
  unfold weekly_statistics.
  repeat (match goal with
          | |- bind ?m _ = bind ?m _ => destruct m; cbn [bind]; [|reflexivity]
          end).
  reflexivity.
Qed.

Lemma summarise_weekly_shape data start end_ :
  (exists members daily,
     data = JObj members /\ dict_get "daily" members = Some (JObj daily)) \/
  (exists e, summarise_weekly data start end_ = Raise e /\
             e <> HTTPException 404 empty_data_set /\
             forall body, summarise_weekly data start end_ <> Ok body).
Proof.
  destruct data as [| | | | |members].
  1-5: right; unfold summarise_weekly, lacks_daily.
  - eexists; cbn; repeat split; try discriminate.
  - destruct b; eexists; cbn; repeat split; discriminate.
  - destruct (py_truthy (JNum n)); eexists; cbn; repeat split; discriminate.
  - destruct (py_truthy (JStr s)); cbn [negb bind py_contains].
    + destruct (is_substring "daily" s); eexists; cbn; repeat split; discriminate.
    + eexists; cbn; repeat split; discriminate.
  - destruct (py_truthy (JArr items)); cbn [negb bind py_contains].
    + destruct (existsb _ items); eexists; cbn; repeat split; discriminate.
    + eexists; cbn; repeat split; discriminate.
  - destruct (dict_get "daily" members) as [v|] eqn:Hd.
    + destruct v as [| | | | |daily];
        try (right; unfold summarise_weekly;
             rewrite (lacks_daily_object _ _ Hd); cbn [bind];
             unfold py_getitem; rewrite Hd; cbn;
             eexists; repeat split; discriminate).
      left. eauto.
    + right. unfold summarise_weekly, lacks_daily.
      destruct (py_truthy (JObj members)); cbn [negb bind py_contains].
      * rewrite (dict_get_not_in_keys _ _ Hd). eexists; cbn; repeat split; discriminate.
      * eexists; cbn; repeat split; discriminate.
Qed.

Lemma numbers_of_aborts v : aborts (numbers_of v) = false.
Proof.
  destruct v as [| | | | items |]; try reflexivity. cbn.
  induction items as [|[| |n| | |] t IH]; try reflexivity. cbn.
  destruct (num_finite n); [|reflexivity].
  destruct (numbers_of_items t); [reflexivity|exact IH].
Qed.

Lemma py_mean_aborts l : aborts (py_mean l) = false.
Proof.
  unfold py_mean. destruct l; [reflexivity|].
  destruct (negb _); [reflexivity|].
  destruct (_ && _); [reflexivity|].
  destruct (Float64.is_finite _); reflexivity.
Qed.

Lemma if_nonempty_aborts v f :
  (forall ns, aborts (f ns) = false) -> aborts (if_nonempty v f) = false.
Proof.
  intros Hf. unfold if_nonempty. destruct (py_truthy v); [|reflexivity].
  apply bind_aborts; [apply numbers_of_aborts|exact Hf].
Qed.

Lemma weekly_statistics_aborts members daily start end_ :
  aborts (weekly_statistics members daily start end_) = false.
Proof.
  unfold weekly_statistics.
  apply bind_aborts; [apply if_nonempty_aborts; intros ns;
    apply bind_aborts; [apply py_mean_aborts|reflexivity]|intros a1].
  apply bind_aborts; [apply if_nonempty_aborts; intros ns; unfold py_max;
    destruct ns; [reflexivity|]; destruct (forallb _ _); reflexivity|intros a2].
  apply bind_aborts; [apply if_nonempty_aborts; intros ns; unfold py_min;
    destruct ns; [reflexivity|]; destruct (forallb _ _); reflexivity|intros a3].
  apply bind_aborts; [apply if_nonempty_aborts; intros ns;
    apply bind_aborts; [apply py_mean_aborts|intros m];
    apply bind_aborts; [|reflexivity];
    unfold py_truediv_int; destruct m; destruct (Float64.is_finite _); reflexivity
    |intros a4].
  apply bind_aborts; [apply if_nonempty_aborts; intros ns; unfold most_frequent;
    destruct (most_common_1 _) as [|[] ?]; reflexivity|intros a5].
  apply bind_aborts;
    [destruct (py_truthy _); [|reflexivity];
     destruct (get_or daily "time" JNull) as [| | | |[|]|]; reflexivity|intros a6].
  apply bind_aborts;
    [destruct (py_truthy _); [|reflexivity];
     destruct (get_or daily "time" JNull) as [| | | |[|]|]; reflexivity|intros a7].
  reflexivity.
Qed.

Lemma all_empty_fields daily :
  all_empty daily = true <-> Forall (field_empty daily) weekly_fields.
Proof.
  unfold all_empty, weekly_fields, field_empty. cbn [map existsb].
  rewrite negb_true_iff, !orb_false_iff.
  split.
  - intros (H1 & H2 & H3 & H4 & H5 & _). repeat constructor; assumption.
  - intros H. rewrite !Forall_cons_iff in H.
    destruct H as (H1 & H2 & H3 & H4 & H5 & _). repeat split; assumption.
Qed.

Lemma field_empty_array daily key items :
  dict_get key daily = Some (JArr items) ->
  (field_empty daily key <-> items = []).
Proof.
  intros H. unfold field_empty, get_or. rewrite H.
  destruct items; cbn; split; congruence.
Qed.

Lemma field_empty_missing daily key :
  dict_get key daily = None -> field_empty daily key.
Proof. intros H. unfold field_empty, get_or. now rewrite H. Qed.

(** C6.  Given the upstream body, the weekly endpoint answers 404 with
    "Weather service returned empty data set." exactly when the body holds a
    [daily] object and all five arrays are empty; a body without [daily]
    gets the 404 "No weather data found ..." instead. *)
Theorem empty_data_set_404 :
  forall today fromisoformat requests_get lat lon start end_ url data,
    answered today fromisoformat requests_get false lat lon start end_ url data ->
    (weather_weekly today fromisoformat requests_get lat lon start end_
       = (ErrorResponse 404 empty_data_set, [url])
     <-> exists members daily,
           data = JObj members /\
           dict_get "daily" members = Some (JObj daily) /\
           Forall (field_empty daily) weekly_fields) /\
    (forall members,
       data = JObj members -> dict_get "daily" members = None ->
       weather_weekly today fromisoformat requests_get lat lon start end_
         = (ErrorResponse 404 no_data, [url])).
Proof.
  intros today fi rg lat lon start end_ url data Ha.
  rewrite (weather_weekly_answered _ _ _ _ _ _ _ _ _ Ha).
  split.
  - split.
    + intros H. injection H as H.
      destruct (summarise_weekly_shape data start end_)
        as [(members & daily & -> & Hd)|(e & He & Hne & _)].
      * exists members, daily. repeat split; [exact Hd|].
        apply all_empty_fields.
        rewrite (summarise_weekly_object _ _ _ _ Hd) in H.
        destruct (all_empty daily); [reflexivity|].
        pose proof (weekly_statistics_aborts members daily start end_) as Hn.
        destruct (weekly_statistics members daily start end_) as [b|[]];
          cbn in H, Hn; discriminate.
      * rewrite He in H. destruct e; cbn in H; try discriminate.
        injection H as -> ->. now elim Hne.
    + intros (members & daily & -> & Hd & He).
      rewrite (summarise_weekly_object _ _ _ _ Hd).
      apply all_empty_fields in He. rewrite He. reflexivity.
  - intros members -> Hd. unfold summarise_weekly, lacks_daily.
    destruct (py_truthy (JObj members)); cbn [negb bind py_contains]; [|reflexivity].
    rewrite (dict_get_not_in_keys _ _ Hd). reflexivity.
Qed.

Lemma empty_data_set_witness :
  exists url,
    (weather_weekly Tests.a_day fromisoformat_ymd
       (Tests.make_response true 200 empty_daily) "10" "20" None None
       = (ErrorResponse 404 empty_data_set, [url])
     <-> exists members daily,
           empty_daily = JObj members /\
           dict_get "daily" members = Some (JObj daily) /\
           Forall (field_empty daily) weekly_fields) /\
    (forall members,
       empty_daily = JObj members -> dict_get "daily" members = None ->
       weather_weekly Tests.a_day fromisoformat_ymd
         (Tests.make_response true 200 empty_daily) "10" "20" None None
         = (ErrorResponse 404 no_data, [url])).
Proof.
  eexists.
  apply (empty_data_set_404 Tests.a_day fromisoformat_ymd
           (Tests.make_response true 200 empty_daily) "10" "20" None None).
  eexists _, _, _. repeat split; reflexivity.
Defined.

(** ** The weekly summary: the dates *)

Lemma weekly_statistics_inv members daily start end_ body :
  weekly_statistics members daily start end_ = Ok body ->
  exists avg_pressure weekly_max weekly_min avg_sunshine frequent start_date end_date,
    if_nonempty (get_or daily "pressure_msl_mean" (JArr []))
      (fun ns => m <- py_mean ns ;; Ok (JNum (py_round m 1))) = Ok avg_pressure /\
    if_nonempty (get_or daily "temperature_2m_max" (JArr []))
      (fun ns => m <- py_max ns ;; Ok (JNum m)) = Ok weekly_max /\
    if_nonempty (get_or daily "temperature_2m_min" (JArr []))
      (fun ns => m <- py_min ns ;; Ok (JNum m)) = Ok weekly_min /\
    if_nonempty (get_or daily "sunshine_duration" (JArr []))
      (fun ns => m <- py_mean ns ;; h <- py_truediv_int m 3600 ;;
                 Ok (JNum (py_round h 2))) = Ok avg_sunshine /\
    if_nonempty (get_or daily "weather_code" (JArr [])) most_frequent = Ok frequent /\
    (if py_truthy (get_or daily "time" JNull)
     then py_first (get_or daily "time" JNull)
     else Ok (opt_str start)) = Ok start_date /\
    (if py_truthy (get_or daily "time" JNull)
     then py_last (get_or daily "time" JNull)
     else Ok (opt_str end_)) = Ok end_date /\
    body = JObj [
      ("avg_pressure_hPa", avg_pressure);
      ("weekly_max_temp", weekly_max);
      ("weekly_min_temp", weekly_min);
      ("avg_sunshine_hours", avg_sunshine);
      ("most_frequent_weather_code", frequent);
      ("latitude", get_or members "latitude" JNull);
      ("longitude", get_or members "longitude" JNull);
      ("start_date", start_date);
      ("end_date", end_date)].
Proof.
  unfold weekly_statistics. intros H.
  apply bind_Ok_inv in H as (a1 & H1 & H).
  apply bind_Ok_inv in H as (a2 & H2 & H).
  apply bind_Ok_inv in H as (a3 & H3 & H).
  apply bind_Ok_inv in H as (a4 & H4 & H).
  apply bind_Ok_inv in H as (a5 & H5 & H).
  apply bind_Ok_inv in H as (a6 & H6 & H).
  apply bind_Ok_inv in H as (a7 & H7 & H).
  injection H as <-.
  exists a1, a2, a3, a4, a5, a6, a7. repeat split; assumption.
Qed.

Lemma echoed_dates_computed daily start end_ start_date end_date :
  (if py_truthy (get_or daily "time" JNull)
   then py_first (get_or daily "time" JNull)
   else Ok (opt_str start)) = Ok start_date ->
  (if py_truthy (get_or daily "time" JNull)
   then py_last (get_or daily "time" JNull)
   else Ok (opt_str end_)) = Ok end_date ->
  echoed_dates daily start end_ = (start_date, end_date).
Proof.
  unfold echoed_dates, get_or.
  destruct (dict_get "time" daily) as [v|]; [|cbn; congruence].
  destruct v as [|b|n|s|[|x t]|ms];
    try (cbn; congruence);
    destruct (py_truthy _); cbn [py_first py_last]; intros; try discriminate;
    congruence.
Qed.

(** C3 (amended).  In a weekly summary, [start_date] and [end_date] are the
    first and the last element of the upstream [time] array when it is a
    non-empty array; otherwise they are the strings the caller supplied, and
    [null] when the caller supplied none: the defaults computed by
    [build_api_call] stay local to it. *)
Theorem weekly_dates_echo_request :
  forall today fromisoformat requests_get lat lon start end_ url members daily
         status body calls,
    answered today fromisoformat requests_get false lat lon start end_ url
      (JObj members) ->
    dict_get "daily" members = Some (JObj daily) ->
    weather_weekly today fromisoformat requests_get lat lon start end_
      = (JsonResponse status body, calls) ->
    exists fields,
      body = JObj fields /\
      dict_get "start_date" fields = Some (fst (echoed_dates daily start end_)) /\
      dict_get "end_date" fields = Some (snd (echoed_dates daily start end_)).
Proof.
  intros today fi rg lat lon start end_ url members daily status body calls Ha Hd.
  rewrite (weather_weekly_answered _ _ _ _ _ _ _ _ _ Ha).
  intros H. injection H as H _.
  apply respond_json_inv in H as [H _].
  rewrite (summarise_weekly_object _ _ _ _ Hd) in H.
  destruct (all_empty daily); [discriminate|].
  apply weekly_statistics_inv in H
    as (a1 & a2 & a3 & a4 & a5 & sd & ed & _ & _ & _ & _ & _ & Hs & He & ->).
  rewrite (echoed_dates_computed _ _ _ _ _ Hs He).
  eexists. repeat split; reflexivity.
Qed.

Lemma weekly_dates_witness :
  exists fields,
    JObj [("avg_pressure_hPa", JNull); ("weekly_max_temp", JNull);
          ("weekly_min_temp", JNull); ("avg_sunshine_hours", JNull);
          ("most_frequent_weather_code", Tests.num 3);
          ("latitude", JNull); ("longitude", JNull);
          ("start_date", JNull); ("end_date", JNull)] = JObj fields /\
    dict_get "start_date" fields
      = Some (fst (echoed_dates [("weather_code", JArr [Tests.num 3])] None None)) /\
    dict_get "end_date" fields
      = Some (snd (echoed_dates [("weather_code", JArr [Tests.num 3])] None None)).
Proof.
  eapply (weekly_dates_echo_request Tests.a_day fromisoformat_ymd
            (Tests.make_response true 200 only_codes) "10" "20" None None).
  - eexists _, _, _. repeat split; reflexivity.
  - reflexivity.
  - reflexivity.
Defined.

(** C3 (counterexample).  With the dates omitted and no [time] array in the
    upstream body, the claim expects today's date and the date seven days
    later; the summary holds [null] for both. *)
Lemma omitted_dates_are_null :
  ~ weekly_dates_are (claimed_dates Tests.a_day) Tests.a_day fromisoformat_ymd
      (Tests.make_response true 200 only_codes).
Proof.
  intros claim.
  destruct (answered_fixture false only_codes) as [url Ha].
  destruct (claim "10" "20" None None url _ _ 200
              (JObj [("avg_pressure_hPa", JNull); ("weekly_max_temp", JNull);
                     ("weekly_min_temp", JNull); ("avg_sunshine_hours", JNull);
                     ("most_frequent_weather_code", Tests.num 3);
                     ("latitude", JNull); ("longitude", JNull);
                     ("start_date", JNull); ("end_date", JNull)])
              [url] Ha eq_refl)
    as (fields & Hb & Hs & _).
  - rewrite (weather_weekly_answered _ _ _ _ _ _ _ _ _ Ha). reflexivity.
  - injection Hb as <-. discriminate Hs.
Qed.

(** ** The weekly summary: the aggregates *)

Lemma numbers_of_items_finite (items : list json) (l : list pynum) :
  numbers_of_items items = Ok l ->
  forallb num_finite l = true /\ (items = [] <-> l = []).
Proof.
  revert l. induction items as [|v t IH]; intros l; cbn.
  - intros H. injection H as <-. split; [reflexivity|tauto].
  - destruct v as [| |n| | |]; try discriminate.
    destruct (num_finite n) eqn:Hn; [|discriminate].
    destruct (numbers_of_items t) as [ns|]; [|discriminate]. cbn [bind].
    intros H. injection H as <-. destruct (IH ns eq_refl) as [Hf _].
    cbn. rewrite Hn, Hf. split; [reflexivity|]. split; discriminate.
Qed.

Lemma if_nonempty_numeric (daily : list (string * json)) (key : string)
    (l : list pynum) (f : list pynum -> pyres json) :
  numeric_field daily key l ->
  forallb num_finite l = true /\
  if_nonempty (get_or daily key (JArr [])) f =
    match l with
    | [] => Ok JNull
    | _ :: _ => f l
    end.
Proof.
  unfold numeric_field, get_or, if_nonempty.
  destruct (dict_get key daily) as [v|].
  - destruct v as [| | | |items|]; try discriminate. cbn [numbers_of].
    intros H. destruct (numbers_of_items_finite _ _ H) as [Hf He].
    split; [exact Hf|]. cbn [py_truthy numbers_of]. rewrite H. cbn [bind].
    destruct items as [|v t].
    + destruct He as [He _]. now rewrite (He eq_refl).
    + destruct l; [|reflexivity]. destruct He as [_ He]. now specialize (He eq_refl).
  - intros ->. split; reflexivity.
Qed.

Lemma numeric_field_truthy daily key l :
  numeric_field daily key l ->
  py_truthy (get_or daily key (JArr [])) = match l with [] => false | _ :: _ => true end.
Proof.
  unfold numeric_field, get_or.
  destruct (dict_get key daily) as [v|]; [|now intros ->].
  destruct v as [| | | |items|]; try discriminate. cbn [numbers_of].
  intros H. destruct (numbers_of_items_finite _ _ H) as [_ [H1 H2]].
  destruct items, l; cbn; try reflexivity.
  - now specialize (H1 eq_refl).
  - now specialize (H2 eq_refl).
Qed.

Lemma mean_field daily key l places :
  numeric_field daily key l -> mean_fits l ->
  exists v,
    if_nonempty (get_or daily key (JArr []))
      (fun ns => m <- py_mean ns ;; Ok (JNum (py_round m places))) = Ok v /\
    mean_rounded places l v.
Proof.
  intros Hn Hm.
  match goal with
  | |- context [if_nonempty _ ?f] =>
      destruct (if_nonempty_numeric daily key l f Hn) as [_ ->]
  end.
  destruct l as [|x t]; [exists JNull; split; reflexivity|].
  destruct Hm as [Hm|[m Hm]]; [discriminate|].
  rewrite Hm. cbn [bind]. eexists; split; [reflexivity|].
  exists m. repeat split; [exact Hm|now apply py_mean_is_mean].
Qed.

Lemma mean_hours_field daily key l places :
  numeric_field daily key l -> mean_hours_fit l ->
  exists v,
    if_nonempty (get_or daily key (JArr []))
      (fun ns => m <- py_mean ns ;; h <- py_truediv_int m 3600 ;;
                 Ok (JNum (py_round h places))) = Ok v /\
    mean_hours_rounded places l v.
Proof.
  intros Hn Hm.
  match goal with
  | |- context [if_nonempty _ ?f] =>
      destruct (if_nonempty_numeric daily key l f Hn) as [_ ->]
  end.
  destruct l as [|x t]; [exists JNull; split; reflexivity|].
  destruct Hm as [Hm|(m & h & Hm & Hh)]; [discriminate|].
  rewrite Hm. cbn [bind]. rewrite Hh. cbn [bind]. eexists; split; [reflexivity|].
  exists m, h. repeat split; [exact Hm|now apply py_mean_is_mean|exact Hh].
Qed.

Lemma max_field daily key l :
  numeric_field daily key l ->
  exists v,
    if_nonempty (get_or daily key (JArr []))
      (fun ns => m <- py_max ns ;; Ok (JNum m)) = Ok v /\
    extremum is_maximum l v.
Proof.
  intros Hn.
  match goal with
  | |- context [if_nonempty _ ?f] =>
      destruct (if_nonempty_numeric daily key l f Hn) as [Hf ->]
  end.
  destruct l as [|x t]; [exists JNull; split; reflexivity|].
  unfold py_max. rewrite Hf. cbn [bind]. eexists; split; [reflexivity|].
  eexists; split; [reflexivity|apply py_max_from_maximum].
Qed.

Lemma min_field daily key l :
  numeric_field daily key l ->
  exists v,
    if_nonempty (get_or daily key (JArr []))
      (fun ns => m <- py_min ns ;; Ok (JNum m)) = Ok v /\
    extremum is_minimum l v.
Proof.
  intros Hn.
  match goal with
  | |- context [if_nonempty _ ?f] =>
      destruct (if_nonempty_numeric daily key l f Hn) as [Hf ->]
  end.
  destruct l as [|x t]; [exists JNull; split; reflexivity|].
  unfold py_min. rewrite Hf. cbn [bind]. eexists; split; [reflexivity|].
  eexists; split; [reflexivity|apply py_min_from_minimum].
Qed.

Lemma codes_field daily l :
  numeric_field daily "weather_code" l ->
  exists v, if_nonempty (get_or daily "weather_code" (JArr [])) most_frequent = Ok v.
Proof.
  intros Hn. destruct (if_nonempty_numeric daily _ l most_frequent Hn) as [_ ->].
  destruct l as [|x t]; [now exists JNull|].
  destruct (most_frequent_defined (x :: t)) as [c ->]; [discriminate|]. eauto.
Qed.

Lemma time_field daily start end_ :
  time_field_usable daily ->
  exists start_date end_date,
    (if py_truthy (get_or daily "time" JNull)
     then py_first (get_or daily "time" JNull)
     else Ok (opt_str start)) = Ok start_date /\
    (if py_truthy (get_or daily "time" JNull)
     then py_last (get_or daily "time" JNull)
     else Ok (opt_str end_)) = Ok end_date.
Proof.
  unfold time_field_usable, get_or.
  destruct (dict_get "time" daily) as [v|]; [|intros _; eexists _, _; split; reflexivity].
  intros [H|(x & t & ->)].
  - rewrite H. eexists _, _; split; reflexivity.
  - eexists _, _; split; reflexivity.
Qed.

(** C1 (amended).  For every upstream body whose [daily] object holds arrays
    of finite numbers, at least one of the five being non-empty, the weekly
    endpoint answers 200 with: [avg_pressure_hPa] the arithmetic mean of
    [pressure_msl_mean] rounded to 1 place, [weekly_max_temp] the maximum of
    [temperature_2m_max], [weekly_min_temp] the minimum of
    [temperature_2m_min], [avg_sunshine_hours] the arithmetic mean of
    [sunshine_duration] divided by 3600 and rounded to 2 places; each is
    [null] when its array is empty.  The means are assumed to fit a float. *)
Theorem weekly_aggregates :
  forall today fromisoformat requests_get lat lon start end_ url members daily
         pressures t_max t_min sunshine codes,
    answered today fromisoformat requests_get false lat lon start end_ url (JObj members) ->
    dict_get "daily" members = Some (JObj daily) ->
    well_formed_weekly daily pressures t_max t_min sunshine codes ->
    pressures ++ t_max ++ t_min ++ sunshine ++ codes <> [] ->
    weekly_aggregates_returned today fromisoformat requests_get lat lon start end_ url
      pressures t_max t_min sunshine.
Proof.
  intros today fi rg lat lon start end_ url members daily ps tmax tmin sun codes
         Ha Hd (Hp & Hmax & Hmin & Hsun & Hcodes & Htime & Hfit & Hfit') Hne.
  unfold weekly_aggregates_returned.
  rewrite (weather_weekly_answered _ _ _ _ _ _ _ _ _ Ha).
  rewrite (summarise_weekly_object _ _ _ _ Hd).
  assert (Hgate : all_empty daily = false).
  { unfold all_empty, weekly_fields. cbn [map existsb].
    rewrite (numeric_field_truthy _ _ _ Hp), (numeric_field_truthy _ _ _ Hmax),
      (numeric_field_truthy _ _ _ Hmin), (numeric_field_truthy _ _ _ Hsun),
      (numeric_field_truthy _ _ _ Hcodes).
    destruct ps, tmax, tmin, sun, codes; try reflexivity. now elim Hne. }
  rewrite Hgate. unfold weekly_statistics.
  destruct (mean_field daily _ ps 1 Hp Hfit) as (v1 & -> & H1).
  destruct (max_field daily _ tmax Hmax) as (v2 & -> & H2).
  destruct (min_field daily _ tmin Hmin) as (v3 & -> & H3).
  destruct (mean_hours_field daily _ sun 2 Hsun Hfit') as (v4 & -> & H4).
  destruct (codes_field daily codes Hcodes) as (v5 & ->).
  destruct (time_field daily start end_ Htime) as (sd & ed & -> & ->).
  cbn [bind respond].
  exists v1, v2, v3, v4. eexists. repeat split; assumption.
Qed.

Lemma weekly_aggregates_witness :
  exists url,
    weekly_aggregates_returned Tests.a_day fromisoformat_ymd
      (Tests.make_response true 200 Tests.weekly_raw)
      "10" "20" (Some "2025-06-01") (Some "2025-06-02") url
      [PInt 1000; PInt 1020] [PInt 5; PInt 10] [PInt 2; PInt 0]
      [PInt 3600; PInt 3600].
Proof.
  eexists.
  eapply (weekly_aggregates Tests.a_day fromisoformat_ymd
            (Tests.make_response true 200 Tests.weekly_raw)
            "10" "20" (Some "2025-06-01") (Some "2025-06-02") _ _ _
            _ _ _ _ [PInt 3; PInt 3; PInt 2]).
  - eexists _, _, _. repeat split; reflexivity.
  - reflexivity.
  - unfold well_formed_weekly. repeat (split; [reflexivity|]). split; [|split].
    + right. eexists _, _. reflexivity.
    + right. exists (PInt 1010). reflexivity.
    + right. exists (PInt 3600), Tests.one. split; reflexivity.
  - discriminate.
Defined.

(** C1 (counterexample).  The body [{"daily": {}}] contains a daily object,
    yet the weekly endpoint returns no aggregates at all: the five arrays are
    empty and the answer is the 404 of the empty data set. *)
Lemma all_empty_is_404 :
  ~ aggregates_for_every_daily_object Tests.a_day fromisoformat_ymd
      (Tests.make_response true 200 (JObj [("daily", JObj [])])).
Proof.
  intros claim.
  destruct (answered_fixture false (JObj [("daily", JObj [])])) as [url Ha].
  destruct (claim "10" "20" None None url _ [] [] [] [] [] [] Ha eq_refl)
    as (a & b & c & d & rest & H & _).
  - repeat split; try reflexivity; now left.
  - rewrite (weather_weekly_answered _ _ _ _ _ _ _ _ _ Ha) in H. discriminate H.
Qed.

(** ** The weekly summary: the most frequent code *)

(** C4.  For every upstream body whose [daily] object holds a non-empty
    array of weather codes (and well-formed arrays beside it), the weekly
    endpoint answers 200 and its [most_frequent_weather_code] is a value of
    the array with the highest number of occurrences, every value met before
    its first occurrence occurring strictly less often: among tied values the
    one met first is chosen. *)
Theorem most_frequent_code_is_first_mode :
  forall today fromisoformat requests_get lat lon start end_ url members daily
         pressures t_max t_min sunshine codes,
    answered today fromisoformat requests_get false lat lon start end_ url (JObj members) ->
    dict_get "daily" members = Some (JObj daily) ->
    well_formed_weekly daily pressures t_max t_min sunshine codes ->
    codes <> [] ->
    exists code fields,
      weather_weekly today fromisoformat requests_get lat lon start end_
        = (JsonResponse 200 (JObj fields), [url]) /\
      dict_get "most_frequent_weather_code" fields = Some (JNum code) /\
      most_frequent codes = Ok (JNum code) /\
      first_mode num_eqb code codes.
Proof.
  intros today fi rg lat lon start end_ url members daily ps tmax tmin sun codes
         Ha Hd (Hp & Hmax & Hmin & Hsun & Hcodes & Htime & Hfit & Hfit') Hne.
  destruct (most_common_first_mode _ num_eqb num_eqb_refl num_eqb_sym num_eqb_trans
              codes Hne) as (code & n & Hmc & Hmode).
  assert (Hmf : most_frequent codes = Ok (JNum code)).
  { unfold most_frequent. now rewrite Hmc. }
  rewrite (weather_weekly_answered _ _ _ _ _ _ _ _ _ Ha).
  rewrite (summarise_weekly_object _ _ _ _ Hd).
  assert (Hgate : all_empty daily = false).
  { unfold all_empty, weekly_fields. cbn [map existsb].
    rewrite (numeric_field_truthy _ _ _ Hcodes).
    destruct codes; [now elim Hne|]. now rewrite !orb_true_r. }
  rewrite Hgate. unfold weekly_statistics.
  destruct (mean_field daily _ ps 1 Hp Hfit) as (v1 & -> & _).
  destruct (max_field daily _ tmax Hmax) as (v2 & -> & _).
  destruct (min_field daily _ tmin Hmin) as (v3 & -> & _).
  destruct (mean_hours_field daily _ sun 2 Hsun Hfit') as (v4 & -> & _).
  destruct (if_nonempty_numeric daily _ codes most_frequent Hcodes) as [_ ->].
  assert (Hv5 : match codes with [] => Ok JNull | _ :: _ => most_frequent codes end
                = Ok (JNum code)).
  { destruct codes; [now elim Hne|exact Hmf]. }
  rewrite Hv5.
  destruct (time_field daily start end_ Htime) as (sd & ed & -> & ->).
  cbn [bind respond].
  exists code. eexists. split; [reflexivity|].
  split; [reflexivity|]. split; [exact Hmf|]. split; apply Hmode.
Qed.

Lemma most_frequent_code_witness :
  exists url fields,
    weather_weekly Tests.a_day fromisoformat_ymd
      (Tests.make_response true 200 Tests.weekly_raw)
      "10" "20" (Some "2025-06-01") (Some "2025-06-02")
      = (JsonResponse 200 (JObj fields), [url]) /\
    dict_get "most_frequent_weather_code" fields = Some (Tests.num 3) /\
    first_mode num_eqb (PInt 3) [PInt 3; PInt 3; PInt 2].
Proof.
  destruct (most_frequent_code_is_first_mode Tests.a_day fromisoformat_ymd
              (Tests.make_response true 200 Tests.weekly_raw)
              "10" "20" (Some "2025-06-01") (Some "2025-06-02")
              {| q_latitude := PFloat (Float64.of_decimal false 10 0);
                 q_longitude := PFloat (Float64.of_decimal false 20 0);
                 q_daily := "sunshine_duration,temperature_2m_max,temperature_2m_min,weather_code,pressure_msl_mean";
                 q_timezone := "auto";
                 q_start_date := "2025-06-01";
                 q_end_date := "2025-06-02" |}
              [("daily", JObj [
                  ("time", JArr [JStr "2025-06-01"; JStr "2025-06-02"]);
                  ("pressure_msl_mean", JArr [Tests.num 1000; Tests.num 1020]);
                  ("temperature_2m_max", JArr [Tests.num 5; Tests.num 10]);
                  ("temperature_2m_min", JArr [Tests.num 2; Tests.num 0]);
                  ("sunshine_duration", JArr [Tests.num 3600; Tests.num 3600]);
                  ("weather_code", JArr [Tests.num 3; Tests.num 3; Tests.num 2])])]
              [("time", JArr [JStr "2025-06-01"; JStr "2025-06-02"]);
               ("pressure_msl_mean", JArr [Tests.num 1000; Tests.num 1020]);
               ("temperature_2m_max", JArr [Tests.num 5; Tests.num 10]);
               ("temperature_2m_min", JArr [Tests.num 2; Tests.num 0]);
               ("sunshine_duration", JArr [Tests.num 3600; Tests.num 3600]);
               ("weather_code", JArr [Tests.num 3; Tests.num 3; Tests.num 2])]
              [PInt 1000; PInt 1020] [PInt 5; PInt 10] [PInt 2; PInt 0]
              [PInt 3600; PInt 3600] [PInt 3; PInt 3; PInt 2])
    as (code & fields & Hw & Hf & Hm & Hmode).
  - exists (PFloat (Float64.of_decimal false 10 0)),
           (PFloat (Float64.of_decimal false 20 0)),
           {| ok := true; status_code := 200; payload := Ok Tests.weekly_raw |}.
    repeat split; reflexivity.
  - reflexivity.
  - unfold well_formed_weekly. repeat (split; [reflexivity|]). split; [|split].
    + right. eexists _, _. reflexivity.
    + right. exists (PInt 1010). reflexivity.
    + right. exists (PInt 3600), Tests.one. split; reflexivity.
  - discriminate.
  - assert (Hc : code = PInt 3) by (vm_compute in Hm; now injection Hm as <-).
    subst code. eexists _, fields. repeat split; [exact Hw|exact Hf|apply Hmode|apply Hmode].
Defined.

(** ** The query that is built *)

Lemma py_int_raises n e :
  py_int n = Raise e ->
  e = ValueError "cannot convert float NaN to integer" \/
  e = OverflowError "cannot convert float infinity to integer".
Proof.
  destruct n as [z|[s|s| |s m x]]; cbn; intros H; try discriminate;
    injection H as <-; [right|left]; reflexivity.
Qed.

Lemma coordinates_rejected_raises lat lon e :
  coordinates_rejected lat lon = Raise e ->
  e = ValueError "cannot convert float NaN to integer" \/
  e = OverflowError "cannot convert float infinity to integer".
Proof.
  unfold coordinates_rejected.
  destruct (py_int lat) as [a|ea] eqn:Ha; cbn [bind].
  - destruct (negb _); [discriminate|].
    destruct (py_int lon) as [b|eb] eqn:Hb; cbn [bind]; [discriminate|].
    intros H. injection H as <-. exact (py_int_raises _ _ Hb).
  - intros H. injection H as <-. exact (py_int_raises _ _ Ha).
Qed.

Lemma coordinates_rejected_Ok lat lon b :
  coordinates_rejected lat lon = Ok b ->
  num_finite lat = true /\ (b = false -> num_finite lon = true).
Proof.
  unfold coordinates_rejected.
  destruct (py_int lat) as [a|ea] eqn:Ha; cbn [bind]; [|discriminate].
  intros H. split.
  - destruct lat as [z|[s|s| |s m x]]; try reflexivity; discriminate.
  - intros ->. destruct (negb _); [discriminate|].
    destruct (py_int lon) as [c|ec] eqn:Hc; cbn [bind] in H; [|discriminate].
    destruct lon as [z|[s|s| |s m x]]; try reflexivity; discriminate.
Qed.

Lemma build_api_call_out_of_range today fi lat lon daily start end_ :
  (end_ <> None \/ year today < 9999) ->
  (build_api_call today fi lat lon daily start end_ = Raise (ValueError out_of_range)
   <-> coordinates_rejected lat lon = Ok true).
Proof.
  intros Hd.
  destruct (build_api_call_after_defaults today fi lat lon daily start end_ Hd)
    as (s & e & -> & _ & _).
  destruct (coordinates_rejected lat lon) as [[|]|ex] eqn:Hr; cbn [bind].
  - split; reflexivity.
  - split; [|discriminate]. intros H. exfalso. revert H.
    pose proof (except_ValueError_not_out_of_range _
                  (start_d <- fi s ;; end_d <- fi e ;; Ok (start_d, end_d))) as Hne.
    destruct (except_ValueError _ _) as [dates|ex]; cbn [bind].
    + destruct (date_gtb _ _); discriminate.
    + intros H. apply Hne. injection H as ->. reflexivity.
  - split; [|discriminate]. intros H. exfalso.
    injection H as ->. destruct (coordinates_rejected_raises _ _ _ Hr); discriminate.
Qed.

(** The truncated value lies in [-b, b] exactly when the number lies
    strictly between [-(b+1)] and [b+1]. *)
Lemma truncate_within (n : pynum) (b : Z) :
  0 <= b ->
  (-b <= truncate n <= b
   <-> (inject_Z (- (b + 1)) < num_val n /\ num_val n < inject_Z (b + 1))%Q).
Proof.
  intros Hb. unfold truncate, Qlt.
  destruct (num_val n) as [a d]. cbn [Qnum Qden inject_Z].
  pose proof (Z.quot_rem' a (Zpos d)) as Hq.
  destruct (Z_le_gt_dec 0 a) as [Ha|Ha].
  - pose proof (Z.rem_bound_pos a (Zpos d) Ha ltac:(lia)). nia.
  - pose proof (Z.rem_bound_abs a (Zpos d) ltac:(lia)).
    pose proof (Z.rem_nonpos a (Zpos d) ltac:(lia) ltac:(lia)). nia.
Qed.

(** X1.  The coordinates [build_api_call] accepts form an open rectangle: it
    raises the out-of-range error exactly when the latitude is at most -91 or
    at least 91, or the longitude at most -181 or at least 181. The test
    truncates toward zero, so a whole degree beyond the stated limits of 90
    and 180 passes on either side. *)
Theorem accepted_coordinates_region :
  forall today fromisoformat lat lon daily start end_,
    num_finite lat = true -> num_finite lon = true ->
    (end_ <> None \/ year today < 9999) ->
    (build_api_call today fromisoformat lat lon daily start end_
       = Raise (ValueError out_of_range)
     <-> (num_val lat <= -91 \/ 91 <= num_val lat \/
          num_val lon <= -181 \/ 181 <= num_val lon)%Q).
Proof.
  intros today fi lat lon daily start end_ Ha Ho Hd.
  rewrite (build_api_call_out_of_range today fi lat lon daily start end_ Hd).
  destruct (coordinates_rejected_finite lat lon Ha Ho) as (b & -> & Hb).
  pose proof (truncate_within lat 90 ltac:(lia)) as Hlat.
  pose proof (truncate_within lon 180 ltac:(lia)) as Hlon.
  change (inject_Z (- (90 + 1))) with (-91)%Q in Hlat.
  change (inject_Z (90 + 1)) with 91%Q in Hlat.
  change (inject_Z (- (180 + 1))) with (-181)%Q in Hlon.
  change (inject_Z (180 + 1)) with 181%Q in Hlon.
  unfold outside_bounds in Hb.
  assert (Hnot : forall x y : Q, (x <= y)%Q <-> ~ (y < x)%Q).
  { intros x y. split; [apply Qle_not_lt|apply Qnot_lt_le]. }
  rewrite !Hnot.
  split.
  - intros H. injection H as ->. destruct Hb as [Hb _]. specialize (Hb eq_refl).
    destruct (Qlt_le_dec (-91) (num_val lat)) as [H1|H1]; [|left; now apply Qle_not_lt].
    destruct (Qlt_le_dec (num_val lat) 91) as [H2|H2];
      [|right; left; now apply Qle_not_lt].
    destruct (Qlt_le_dec (-181) (num_val lon)) as [H3|H3];
      [|right; right; left; now apply Qle_not_lt].
    destruct (Qlt_le_dec (num_val lon) 181) as [H4|H4];
      [|right; right; right; now apply Qle_not_lt].
    exfalso. apply proj2 in Hlat, Hlon.
    specialize (Hlat (conj H1 H2)). specialize (Hlon (conj H3 H4)). lia.
  - intros H. f_equal. apply Hb.
    destruct (Z_le_gt_dec (-90) (truncate lat)) as [L1|L1]; [|lia].
    destruct (Z_le_gt_dec (truncate lat) 90) as [L2|L2]; [|lia].
    destruct (Z_le_gt_dec (-180) (truncate lon)) as [L3|L3]; [|lia].
    destruct (Z_le_gt_dec (truncate lon) 180) as [L4|L4]; [|lia].
    exfalso. apply proj1 in Hlat, Hlon.
    specialize (Hlat (conj L1 L2)). specialize (Hlon (conj L3 L4)).
    tauto.
Qed.

Lemma accepted_coordinates_witness :
  build_api_call Tests.a_day fromisoformat_ymd
    (PFloat (Float64.of_decimal true 909 (-1))) (PFloat (Float64.of_decimal false 181 0))
    true None None
    = Raise (ValueError out_of_range)
  <-> (num_val (PFloat (Float64.of_decimal true 909 (-1))) <= -91 \/
       91 <= num_val (PFloat (Float64.of_decimal true 909 (-1))) \/
       num_val (PFloat (Float64.of_decimal false 181 0)) <= -181 \/
       181 <= num_val (PFloat (Float64.of_decimal false 181 0)))%Q.
Proof.
  apply accepted_coordinates_region.
  - reflexivity.
  - reflexivity.
  - right. cbn. lia.
Defined.

Lemma date_gtb_false_iff a b :
  date_gtb a b = false <->
  year a < year b \/
  (year a = year b /\ (month a < month b \/ (month a = month b /\ day a <= day b))).
Proof.
  unfold date_gtb.
  destruct (Z.ltb_spec (year b) (year a)), (Z.eqb_spec (year b) (year a)),
           (Z.ltb_spec (month b) (month a)), (Z.eqb_spec (month b) (month a)),
           (Z.ltb_spec (day b) (day a)); cbn; split; intros; try discriminate;
    try reflexivity; lia.
Qed.

Lemma date_gtb_refl d : date_gtb d d = false.
Proof. apply date_gtb_false_iff. lia. Qed.

(** X2.  [build_api_call] with both dates given succeeds exactly when the
    truncated coordinates are within bounds, both dates parse and the start is
    not after the end; the query then holds the coordinates rounded to two
    places and the two date strings as the caller wrote them. *)
Theorem build_api_call_succeeds_iff :
  forall today fromisoformat lat lon daily start end_ url,
    num_finite lat = true -> num_finite lon = true ->
    (build_api_call today fromisoformat lat lon daily (Some start) (Some end_) = Ok url
     <-> ~ outside_bounds (truncate lat) (truncate lon) /\
         (exists start_d end_d,
            fromisoformat start = Ok start_d /\
            fromisoformat end_ = Ok end_d /\
            date_gtb start_d end_d = false) /\
         url = query lat lon daily start end_).
Proof.
  intros today fi lat lon daily start end_ url Ha Ho.
  unfold build_api_call. cbn [bind].
  destruct (coordinates_rejected_finite lat lon Ha Ho) as (b & -> & Hb). cbn [bind].
  destruct b.
  - split; [discriminate|]. intros [H _]. elim H. now apply Hb.
  - assert (Hin : ~ outside_bounds (truncate lat) (truncate lon)).
    { intros H. apply Hb in H. discriminate. }
    destruct (fi start) as [sd|es] eqn:Hs; cbn [bind].
    + destruct (fi end_) as [ed|ee] eqn:He; cbn [bind].
      * cbn [except_ValueError bind fst snd].
        destruct (date_gtb sd ed) eqn:Hgt.
        -- split; [discriminate|].
           intros (_ & (sd' & ed' & H1 & H2 & H3) & _).
           injection H1 as <-. injection H2 as <-. congruence.
        -- split.
           ++ intros H. injection H as <-. repeat split; [exact Hin| |].
              ** exists sd, ed. repeat split. exact Hgt.
              ** unfold query. destruct daily; reflexivity.
           ++ intros (_ & _ & ->). unfold query. destruct daily; reflexivity.
      * split.
        -- destruct ee; cbn; discriminate.
        -- intros (_ & (sd' & ed' & _ & H2 & _) & _). discriminate.
    + split.
      * destruct es; cbn; discriminate.
      * intros (_ & (sd' & ed' & H1 & _) & _). discriminate.
Qed.

Lemma build_api_call_succeeds_witness :
  build_api_call Tests.a_day fromisoformat_ymd
    (PFloat (Float64.of_decimal false 52524 (-3)))
    (PFloat (Float64.of_decimal false 13411 (-3)))
    false (Some "2025-06-01") (Some "2025-06-01")
  = Ok (query (PFloat (Float64.of_decimal false 52524 (-3)))
              (PFloat (Float64.of_decimal false 13411 (-3)))
              false "2025-06-01" "2025-06-01")
  <-> ~ outside_bounds (truncate (PFloat (Float64.of_decimal false 52524 (-3))))
                       (truncate (PFloat (Float64.of_decimal false 13411 (-3)))) /\
      (exists start_d end_d,
         fromisoformat_ymd "2025-06-01" = Ok start_d /\
         fromisoformat_ymd "2025-06-01" = Ok end_d /\
         date_gtb start_d end_d = false) /\
      query (PFloat (Float64.of_decimal false 52524 (-3)))
            (PFloat (Float64.of_decimal false 13411 (-3)))
            false "2025-06-01" "2025-06-01"
      = query (PFloat (Float64.of_decimal false 52524 (-3)))
              (PFloat (Float64.of_decimal false 13411 (-3)))
              false "2025-06-01" "2025-06-01".
Proof.
  apply build_api_call_succeeds_iff.
  - reflexivity.
  - reflexivity.
Defined.

(** ** Infinite coordinates *)

(** X3.  An infinite coordinate that the range test evaluates ends the request
    in the [OverflowError] of [int]: an infinite latitude always, an infinite
    longitude when the latitude is in range. No handler catches it, so the
    answer is a 500, before any call; literals such as [1e999] are read as
    infinities by [float]. *)
Theorem infinite_coordinate_is_unhandled :
  forall today fromisoformat requests_get daily lat lon x y start end_,
    cast_coordinates lat lon = Ok (PFloat x, PFloat y) ->
    (end_ <> None \/ year today < 9999) ->
    (exists s, x = S754_infinity s) \/
    ((exists s, y = S754_infinity s) /\ exists z, py_int (PFloat x) = Ok z /\ -90 <= z <= 90) ->
    endpoint today fromisoformat requests_get daily lat lon start end_
      = (Crash (OverflowError "cannot convert float infinity to integer"), []).
Proof.
  intros today fi rg daily lat lon x y start end_ Hc Hd Hinf.
  assert (Hr : coordinates_rejected (PFloat x) (PFloat y)
               = Raise (OverflowError "cannot convert float infinity to integer")).
  { unfold coordinates_rejected.
    destruct Hinf as [[s ->]|([s ->] & z & -> & Hz)]; [reflexivity|].
    cbn [bind].
    destruct (Z.leb_spec (-90) z); [|lia]. destruct (Z.leb_spec z 90); [|lia].
    reflexivity. }
  unfold endpoint, weather_daily, weather_weekly, fetch_weather. rewrite Hc.
  destruct daily;
    (match goal with
     | |- context [build_api_call today fi (PFloat x) (PFloat y) ?d start end_] =>
         destruct (build_api_call_after_defaults today fi (PFloat x) (PFloat y)
                     d start end_ Hd) as (s & e & -> & _ & _)
     end;
     rewrite Hr; reflexivity).
Qed.

Lemma infinite_coordinate_witness :
  endpoint Tests.a_day fromisoformat_ymd (Tests.make_response true 200 Tests.daily_raw)
    true "52.5" "-1e999" None None
  = (Crash (OverflowError "cannot convert float infinity to integer"), []).
Proof.
  apply (infinite_coordinate_is_unhandled Tests.a_day fromisoformat_ymd
           (Tests.make_response true 200 Tests.daily_raw) true "52.5" "-1e999"
           (Float64.of_decimal false 525 (-1)) (S754_infinity true) None None).
  - reflexivity.
  - right. cbn. lia.
  - right. split; [exists true; reflexivity|].
    exists 52. split; [reflexivity|lia].
Defined.

(** ** Omitted dates *)

Lemma next_day_later d d' : next_day d = Ok d' -> date_gtb d d' = false.
Proof.
  unfold next_day. intros H. apply date_gtb_false_iff.
  destruct (Z.ltb_spec (day d) (days_in_month (year d) (month d))).
  - injection H as <-. cbn. lia.
  - destruct (Z.ltb_spec (month d) 12).
    + injection H as <-. cbn. lia.
    + destruct (Z.ltb_spec (year d) 9999); [|discriminate].
      injection H as <-. cbn. lia.
Qed.

Lemma add_days_later n d d' : add_days n d = Ok d' -> date_gtb d d' = false.
Proof.
  revert d. induction n as [|n IH]; intros d; cbn [add_days].
  - intros H. injection H as <-. apply date_gtb_refl.
  - destruct (next_day d) as [x|e] eqn:Hx; cbn [bind]; [|discriminate].
    intros H. apply IH in H. apply next_day_later in Hx.
    apply date_gtb_false_iff in H, Hx. apply date_gtb_false_iff. lia.
Qed.

(** X4.  When the caller gives no dates, [build_api_call] asks for the eight
    days from today to today + 7: provided the interpreter's parser reads back
    the two dates [strftime] printed, the date checks pass (the start is never
    after the end) and the query carries the two printed dates. *)
Theorem omitted_dates_ask_for_a_week :
  forall today fromisoformat lat lon daily last,
    coordinates_rejected lat lon = Ok false ->
    add_days 7 today = Ok last ->
    fromisoformat (strftime_ymd today) = Ok today ->
    fromisoformat (strftime_ymd last) = Ok last ->
    build_api_call today fromisoformat lat lon daily None None
      = Ok (query lat lon daily (strftime_ymd today) (strftime_ymd last)).
Proof.
  intros today fi lat lon daily last Hr Hl Hs He.
  unfold build_api_call. cbn [bind]. rewrite Hl. cbn [bind].
  rewrite Hr. cbn [bind]. rewrite Hs, He. cbn [bind except_ValueError fst snd].
  rewrite (add_days_later _ _ _ Hl). unfold query. destruct daily; reflexivity.
Qed.

Lemma omitted_dates_witness :
  build_api_call Tests.a_day fromisoformat_ymd
    (PFloat (Float64.of_decimal false 10 0)) (PFloat (Float64.of_decimal false 20 0))
    true None None
  = Ok (query (PFloat (Float64.of_decimal false 10 0))
              (PFloat (Float64.of_decimal false 20 0)) true "2025-06-01" "2025-06-08").
Proof.
  apply (omitted_dates_ask_for_a_week Tests.a_day fromisoformat_ymd
           (PFloat (Float64.of_decimal false 10 0))
           (PFloat (Float64.of_decimal false 20 0)) true
           {| year := 2025; month := 6; day := 8 |}).
  - reflexivity.
  - reflexivity.
  - reflexivity.
  - reflexivity.
Defined.

(** *** Printing a date and reading it back *)

Lemma digit_char_value d :
  FloatParse.is_digit (digit_char d) = true /\
  Z.of_nat (nat_of_ascii (digit_char d)) - 48 = d mod 10.
Proof.
  unfold digit_char.
  pose proof (Z.mod_pos_bound d 10 ltac:(lia)) as Hm.
  assert (Hc : d mod 10 = 0 \/ d mod 10 = 1 \/ d mod 10 = 2 \/ d mod 10 = 3 \/
               d mod 10 = 4 \/ d mod 10 = 5 \/ d mod 10 = 6 \/ d mod 10 = 7 \/
               d mod 10 = 8 \/ d mod 10 = 9) by lia.
  repeat (destruct Hc as [->|Hc]; [split; reflexivity|]).
  rewrite Hc. split; reflexivity.
Qed.

Lemma decimal_digits_4 y :
  1000 <= y <= 9999 ->
  decimal_digits 4 y "" =
    String (digit_char (y / 10 / 10 / 10))
      (String (digit_char (y / 10 / 10))
         (String (digit_char (y / 10)) (String (digit_char y) ""))).
Proof.
  intros Hy. cbn [decimal_digits].
  destruct (Z.ltb_spec y 10); [lia|].
  destruct (Z.ltb_spec (y / 10) 10); [Z.div_mod_to_equations; lia|].
  destruct (Z.ltb_spec (y / 10 / 10) 10); [Z.div_mod_to_equations; lia|].
  destruct (Z.ltb_spec (y / 10 / 10 / 10) 10); [reflexivity|].
  Z.div_mod_to_equations; lia.
Qed.

Lemma fromisoformat_ymd_digits y1 y2 y3 y4 m1 m2 d1 d2 :
  forallb FloatParse.is_digit [y1; y2; y3; y4; m1; m2; d1; d2] = true ->
  fromisoformat_ymd
    (String y1 (String y2 (String y3 (String y4 (String "-"
       (String m1 (String m2 (String "-" (String d1 (String d2 ""))))))))))
  = let parsed := {| year := FloatParse.digits_value [y1; y2; y3; y4];
                     month := FloatParse.digits_value [m1; m2];
                     day := FloatParse.digits_value [d1; d2] |} in
    if valid_date parsed then Ok parsed
    else Raise (ValueError "date field out of range").
Proof.
  intros H. unfold fromisoformat_ymd.
  cbn [list_ascii_of_string List.length Nat.eqb nth firstn skipn app andb].
  change (Ascii.eqb "-" "-") with true. cbn [andb].
  rewrite H. reflexivity.
Qed.

(** X5.  A date printed by [strftime('%Y-%m-%d')] is read back by the
    [YYYY-MM-DD] parser as the same date, for every valid date from the year
    1000 on (an earlier year is printed with fewer than four digits). *)
Theorem printed_date_reads_back :
  forall d,
    valid_date d = true -> 1000 <= year d ->
    fromisoformat_ymd (strftime_ymd d) = Ok d.
Proof.
  intros [y m dd] Hv Hy. pose proof Hv as Hv'.
  unfold valid_date in Hv'. cbn [year month day] in *.
  rewrite !andb_true_iff, !Z.leb_le in Hv'.
  destruct Hv' as (((((Hy1 & Hy2) & Hm1) & Hm2) & Hd1) & Hd2).
  assert (Hd3 : dd <= 31).
  { unfold days_in_month in Hd2.
    destruct (m =? 2); [destruct (is_leap y); lia|].
    destruct (_ || _); lia. }
  unfold strftime_ymd, pad2. cbn [year month day].
  rewrite (decimal_digits_4 y ltac:(lia)).
  cbn [String.append].
  rewrite fromisoformat_ymd_digits.
  2:{ cbn [forallb].
      rewrite !(proj1 (digit_char_value _)). reflexivity. }
  cbv zeta.
  assert (Hyear : FloatParse.digits_value
            [digit_char (y / 10 / 10 / 10); digit_char (y / 10 / 10);
             digit_char (y / 10); digit_char y] = y).
  { unfold FloatParse.digits_value. cbn [fold_left].
    rewrite !(proj2 (digit_char_value _)). Z.div_mod_to_equations. lia. }
  assert (Hmonth : FloatParse.digits_value [digit_char (m / 10); digit_char m] = m).
  { unfold FloatParse.digits_value. cbn [fold_left].
    rewrite !(proj2 (digit_char_value _)). Z.div_mod_to_equations. lia. }
  assert (Hday : FloatParse.digits_value [digit_char (dd / 10); digit_char dd] = dd).
  { unfold FloatParse.digits_value. cbn [fold_left].
    rewrite !(proj2 (digit_char_value _)). Z.div_mod_to_equations. lia. }
  rewrite Hyear, Hmonth, Hday, Hv. reflexivity.
Qed.

Lemma printed_date_reads_back_witness :
  fromisoformat_ymd (strftime_ymd {| year := 2024; month := 2; day := 29 |})
    = Ok {| year := 2024; month := 2; day := 29 |}.
Proof.
  apply printed_date_reads_back.
  - reflexivity.
  - cbn. lia.
Defined.

(** ** The coordinates that are sent *)

Lemma round_half_even_bound (a : Z) (b : positive) (n : Z) :
  0 <= a -> a < n * Zpos b -> 0 <= round_half_even a b <= n.
Proof.
  intros Ha Hn. unfold round_half_even.
  pose proof (Z.div_mod a (Zpos b) ltac:(lia)) as Hdm.
  pose proof (Z.mod_pos_bound a (Zpos b) ltac:(lia)) as Hr.
  assert (0 <= a / Zpos b) by (apply Z.div_pos; lia).
  assert (a / Zpos b < n) by nia.
  destruct (2 * (a mod Zpos b) ?= Zpos b); [destruct (Z.even _)| |]; lia.
Qed.

(** [round(x, 2)] of a float whose truncation is at most [b] in magnitude
    is [k] hundredths for a [k] of magnitude at most [100 * (b + 1)]. *)
Lemma py_round_hundredths (x : spec_float) (z b : Z) :
  py_int (PFloat x) = Ok z -> - b <= z <= b ->
  exists k, - (100 * (b + 1)) <= k <= 100 * (b + 1) /\
            hundredths k (py_round (PFloat x) 2).
Proof.
  destruct x as [s|s| |s m e]; cbn [py_int]; intros Hz Hb; try discriminate.
  - exists 0. split; [lia|]. destruct s; [right; split|left]; reflexivity.
  - injection Hz as <-. unfold py_round.
    change (Z.to_pos (10 ^ Z.of_nat 2)) with 100%positive.
    set (k := match e with
              | Zneg j => round_half_even (Zpos (m * 100)) (Pos.pow 2 j)
              | _ => Zpos m * 2 ^ e * 100
              end).
    assert (Hk : 0 <= k <= 100 * (b + 1)).
    { assert (Hm : Z.shiftl (Zpos m) e <= b) by (destruct s; cbn [cond_Zopp] in Hb; lia).
      unfold k. destruct e as [|p|j].
      - cbn in Hm. change (2 ^ 0) with 1. lia.
      - rewrite Z.shiftl_mul_pow2 in Hm by lia.
        assert (0 < 2 ^ Zpos p) by (apply Z.pow_pos_nonneg; lia). nia.
      - change (Zneg j) with (- Zpos j) in Hm.
        rewrite Z.shiftl_opp_r, Z.shiftr_div_pow2 in Hm by lia.
        rewrite <- Pos2Z.inj_pow in Hm.
        assert (Hlt : Zpos m < (b + 1) * Zpos (2 ^ j)).
        { pose proof (Z.div_mod (Zpos m) (Zpos (2 ^ j)) ltac:(lia)).
          pose proof (Z.mod_pos_bound (Zpos m) (Zpos (2 ^ j)) ltac:(lia)). nia. }
        pose proof (round_half_even_bound (Zpos (m * 100)) (2 ^ j) (100 * (b + 1))
                      ltac:(lia) ltac:(rewrite Pos2Z.inj_mul; nia)).
        lia. }
    destruct k as [|p|p] eqn:Ek; [| |lia].
    + exists 0. split; [lia|]. destruct s; [right; split|left]; reflexivity.
    + exists (cond_Zopp s (Zpos p)). split; [destruct s; cbn [cond_Zopp]; lia|].
      left. destruct s; reflexivity.
Qed.

(** X6.  The coordinates in the query are whole hundredths of a degree: the
    latitude is the float nearest to [k/100] for an integer [k] between -9100
    and 9100, the longitude for one between -18100 and 18100. They are rounded
    after the range test, which a latitude up to 91 (not included) passes, so
    the provider can be asked for latitude 91.0. *)
Theorem sent_coordinates_are_hundredths :
  forall today fromisoformat daily lat lon start end_ url,
    sent today fromisoformat daily lat lon start end_ url ->
    exists k_lat k_lon,
      -9100 <= k_lat <= 9100 /\ -18100 <= k_lon <= 18100 /\
      hundredths k_lat (q_latitude url) /\
      hundredths k_lon (q_longitude url).
Proof.
  intros today fi daily lat lon start end_ url (x & y & Hc & Hb).
  assert (Hf : exists fx fy, x = PFloat fx /\ y = PFloat fy).
  { unfold cast_coordinates in Hc.
    destruct (FloatParse.py_float lat) as [fx|[]]; cbn in Hc; try discriminate.
    destruct (FloatParse.py_float lon) as [fy|[]]; cbn in Hc; try discriminate.
    injection Hc as <- <-. eauto. }
  destruct Hf as (fx & fy & -> & ->).
  assert (Hq : q_latitude url = py_round (PFloat fx) 2 /\
               q_longitude url = py_round (PFloat fy) 2 /\
               coordinates_rejected (PFloat fx) (PFloat fy) = Ok false).
  { revert Hb. unfold build_api_call.
    destruct (match start with Some s => Ok s | None => Ok (strftime_ymd today) end)
      as [s|e]; cbn [bind]; [|discriminate].
    destruct (match end_ with
              | Some s => Ok s
              | None => d <- add_days 7 today ;; Ok (strftime_ymd d)
              end) as [e'|e]; cbn [bind]; [|discriminate].
    destruct (coordinates_rejected _ _) as [[|]|e]; cbn [bind]; try discriminate.
    destruct (except_ValueError _ _) as [dates|e]; cbn [bind]; [|discriminate].
    destruct (date_gtb _ _); [discriminate|].
    intros H. injection H as <-. repeat split. }
  destruct Hq as (-> & -> & Hr).
  unfold coordinates_rejected in Hr.
  destruct (py_int (PFloat fx)) as [a|] eqn:Ha; cbn [bind] in Hr; [|discriminate].
  destruct ((-90 <=? a) && (a <=? 90)) eqn:Eb; cbn [negb] in Hr; [|discriminate].
  destruct (py_int (PFloat fy)) as [o|] eqn:Ho; cbn [bind] in Hr; [|discriminate].
  destruct ((-180 <=? o) && (o <=? 180)) eqn:Eo; cbn [negb] in Hr; [|discriminate].
  apply andb_true_iff in Eb, Eo. rewrite !Z.leb_le in Eb, Eo.
  destruct (py_round_hundredths fx a 90 Ha ltac:(lia)) as (k1 & Hk1 & H1).
  destruct (py_round_hundredths fy o 180 Ho ltac:(lia)) as (k2 & Hk2 & H2).
  exists k1, k2. repeat split; try lia; assumption.
Qed.

Lemma sent_coordinates_witness :
  exists k_lat k_lon,
    -9100 <= k_lat <= 9100 /\ -18100 <= k_lon <= 18100 /\
    hundredths k_lat (py_round (PFloat (Float64.of_decimal false 90999 (-3))) 2) /\
    hundredths k_lon (py_round (PFloat (Float64.of_decimal true 5 (-3))) 2).
Proof.
  apply (sent_coordinates_are_hundredths Tests.a_day fromisoformat_ymd true
           "90.999" "-0.005" None None
           (query (PFloat (Float64.of_decimal false 90999 (-3)))
                  (PFloat (Float64.of_decimal true 5 (-3))) true
                  "2025-06-01" "2025-06-08")).
  eexists _, _. split; reflexivity.
Defined.

Example latitude_91_is_sent :
  exists url,
    sent Tests.a_day fromisoformat_ymd true "90.999" "-0.001" None None url /\
    q_latitude url = PFloat (Float64.of_ratio 9100 100) /\
    q_longitude url = PFloat (S754_zero true) /\
    (Float64.to_Q (Float64.of_ratio 9100 100) == 91)%Q.
Proof.
  eexists. split; [eexists _, _; split; reflexivity|].
  repeat split; vm_compute; reflexivity.
Qed.

(** ** The two views of one request *)

(** X7.  [build_api_call] validates alike for both views: for the same
    coordinates and dates it raises the same exception, or builds two queries
    that differ only in the list of daily variables, where the weekly view
    appends [pressure_msl_mean] to the four of the daily view. *)
Theorem views_share_validation :
  forall today fromisoformat lat lon start end_,
    match build_api_call today fromisoformat lat lon true start end_,
          build_api_call today fromisoformat lat lon false start end_ with
    | Ok d, Ok w =>
        q_daily d = daily_variables /\
        w = {| q_latitude := q_latitude d;
               q_longitude := q_longitude d;
               q_daily := q_daily d ++ ",pressure_msl_mean";
               q_timezone := q_timezone d;
               q_start_date := q_start_date d;
               q_end_date := q_end_date d |}
    | Raise e, Raise e' => e = e'
    | _, _ => False
    end.
Proof.
  intros today fi lat lon start end_. unfold build_api_call.
  destruct (match start with Some s => Ok s | None => Ok (strftime_ymd today) end)
    as [s|e]; cbn [bind]; [|reflexivity].
  destruct (match end_ with
            | Some s => Ok s
            | None => d <- add_days 7 today ;; Ok (strftime_ymd d)
            end) as [e'|e]; cbn [bind]; [|reflexivity].
  destruct (coordinates_rejected lat lon) as [[|]|e]; cbn [bind]; try reflexivity.
  destruct (except_ValueError _ _) as [dates|e]; cbn [bind]; [|reflexivity].
  destruct (date_gtb _ _); [reflexivity|].
  split; reflexivity.
Qed.

(** ** Requests rejected before the call *)

Lemma add_days_raises n d e :
  add_days n d = Raise e -> e = OverflowError "date value out of range".
Proof.
  revert d. induction n as [|n IH]; intros d; cbn [add_days]; [discriminate|].
  destruct (next_day d) as [x|e'] eqn:Hx; cbn [bind].
  - apply IH.
  - intros H. injection H as <-. revert Hx. unfold next_day.
    destruct (_ <? _); [discriminate|].
    destruct (_ <? _); [discriminate|].
    destruct (_ <? _); [discriminate|].
    intros H. now injection H as <-.
Qed.

Lemma build_api_call_raises today fi lat lon daily start end_ e :
  parser_raises_ValueError fi ->
  build_api_call today fi lat lon daily start end_ = Raise e ->
  (exists msg, e = ValueError msg /\ In msg validation_messages) \/
  (exists msg, e = OverflowError msg).
Proof.
  intros Hp. unfold build_api_call.
  destruct (match start with Some s => Ok s | None => Ok (strftime_ymd today) end)
    as [s|e0] eqn:Hs; cbn [bind]; [|destruct start; discriminate].
  destruct (match end_ with
            | Some s => Ok s
            | None => d <- add_days 7 today ;; Ok (strftime_ymd d)
            end) as [e'|e0] eqn:He; cbn [bind].
  - destruct (coordinates_rejected lat lon) as [[|]|e0] eqn:Hr; cbn [bind].
    + intros H. injection H as <-. left. eexists. split; [reflexivity|].
      right. left. reflexivity.
    + destruct (Hp s) as [[sd Hsd]|[m Hsd]]; rewrite Hsd; cbn [bind except_ValueError].
      * destruct (Hp e') as [[ed Hed]|[m Hed]]; rewrite Hed; cbn [bind except_ValueError].
        -- cbn [fst snd]. destruct (date_gtb sd ed); [|discriminate].
           intros H. injection H as <-. left. eexists. split; [reflexivity|].
           do 4 right. left. reflexivity.
        -- intros H. injection H as <-. left. eexists. split; [reflexivity|].
           do 3 right. left. reflexivity.
      * intros H. injection H as <-. left. eexists. split; [reflexivity|].
        do 3 right. left. reflexivity.
    + intros H. injection H as <-.
      destruct (coordinates_rejected_raises _ _ _ Hr) as [->| ->].
      * left. eexists. split; [reflexivity|]. do 2 right. left. reflexivity.
      * right. eexists. reflexivity.
  - intros H. injection H as <-. right.
    destruct end_ as [x|]; [discriminate|].
    destruct (add_days 7 today) as [d|e1] eqn:Ha; cbn [bind] in He; [discriminate|].
    injection He as <-. rewrite (add_days_raises _ _ _ Ha). eexists. reflexivity.
Qed.

(** X8.  Every answer an endpoint gives without having called the provider is
    a 400 whose description is one of five fixed messages, or the unhandled
    [OverflowError] of an infinite coordinate (or of a date beyond the year
    9999): validation has no other outcome, for ASCII path segments and a date
    parser that raises nothing but [ValueError]. *)
Theorem rejections_are_400_or_overflow :
  forall today fromisoformat requests_get daily lat lon start end_ response,
    ascii_segment lat -> ascii_segment lon ->
    parser_raises_ValueError fromisoformat ->
    endpoint today fromisoformat requests_get daily lat lon start end_
      = (response, []) ->
    (exists msg, In msg validation_messages /\ response = ErrorResponse 400 msg) \/
    (exists msg, response = Crash (OverflowError msg)).
Proof.
  intros today fi rg daily lat lon start end_ response Ha Ho Hp.
  assert (Hcast : cast_coordinates lat lon = Raise (HTTPException 400 not_numeric) \/
                  exists x y, cast_coordinates lat lon = Ok (x, y)).
  { unfold cast_coordinates.
    destruct (py_float_cases lat Ha) as [[x Hx]|Hx]; rewrite Hx; cbn; [|now left].
    destruct (py_float_cases lon Ho) as [[y Hy]|Hy]; rewrite Hy; cbn; [|now left].
    right. eauto. }
  unfold endpoint, weather_daily, weather_weekly, fetch_weather.
  destruct Hcast as [Hc|(x & y & Hc)]; rewrite Hc.
  - intros H. left. exists not_numeric. split; [now left|].
    destruct daily; injection H as <-; reflexivity.
  - assert (Hraise : forall e,
              (exists msg, e = ValueError msg /\ In msg validation_messages) \/
              (exists msg, e = OverflowError msg) ->
              forall k : json -> pyres json,
              (exists msg, In msg validation_messages /\
                 respond (raw <- except_ValueError (Raise e) (fun msg => abort 400 msg) ;;
                          k raw) = ErrorResponse 400 msg) \/
              (exists msg,
                 respond (raw <- except_ValueError (Raise e) (fun msg => abort 400 msg) ;;
                          k raw) = Crash (OverflowError msg))).
    { intros e [(msg & -> & Hin)|(msg & ->)] k; [left|right]; exists msg; cbn; auto. }
    destruct daily.
    + destruct (build_api_call today fi x y true start end_) as [url|e] eqn:Hb;
        [discriminate|].
      intros H. injection H as <-.
      apply Hraise. exact (build_api_call_raises _ _ _ _ _ _ _ _ Hp Hb).
    + destruct (build_api_call today fi x y false start end_) as [url|e] eqn:Hb;
        [discriminate|].
      intros H. injection H as <-.
      apply Hraise. exact (build_api_call_raises _ _ _ _ _ _ _ _ Hp Hb).
Qed.

Lemma rejections_witness :
  (exists msg, In msg validation_messages /\
               ErrorResponse 400 "Dates must be YYYY-MM-DD." = ErrorResponse 400 msg) \/
  (exists msg, ErrorResponse 400 "Dates must be YYYY-MM-DD." = Crash (OverflowError msg)).
Proof.
  apply (rejections_are_400_or_overflow Tests.a_day fromisoformat_ymd
           (Tests.make_response true 200 Tests.daily_raw) true
           "10" "20" (Some "01.06.2025") (Some "2025-06-02")).
  - reflexivity.
  - reflexivity.
  - exact fromisoformat_ymd_raises_ValueError.
  - reflexivity.
Defined.

(** ** Outbound calls *)

(** X9.  No endpoint calls the provider for a request that fails validation,
    and none calls it twice: the list of outbound calls is empty exactly when
    no query could be built, and otherwise holds that query alone. An answer
    with a JSON body has status 200 and was preceded by the call. *)
Theorem one_call_after_validation :
  forall today fromisoformat requests_get daily lat lon start end_,
    let result := endpoint today fromisoformat requests_get daily lat lon start end_ in
    ((snd result = [] /\
      (forall url, ~ sent today fromisoformat daily lat lon start end_ url) /\
      (forall status body, fst result <> JsonResponse status body)) \/
     (exists url, snd result = [url] /\
                  sent today fromisoformat daily lat lon start end_ url)) /\
    (forall status body, fst result = JsonResponse status body -> status = 200).
Proof.
  intros today fi rg daily lat lon start end_. cbv zeta.
  assert (H200 : forall r status body,
            respond r = JsonResponse status body -> status = 200).
  { intros r status body H. now apply respond_json_inv in H. }
  unfold endpoint, sent, weather_daily, weather_weekly, fetch_weather.
  destruct (cast_coordinates lat lon) as [[x y]|e] eqn:Hc.
  - destruct daily;
      (destruct (build_api_call today fi x y _ start end_) as [url|e] eqn:Hb;
       cbn [fst snd]; split; try (intros status body; apply H200);
       [right; exists url; split; [reflexivity|]; exists x, y; split; [reflexivity|exact Hb]
       |left; repeat split;
        [intros url (x' & y' & Hx & Hy); injection Hx as <- <-; congruence
        |intros status body H; apply respond_json_inv in H as [H _];
         destruct e; discriminate]]).
  - destruct daily; cbn [fst snd]; (split; [|intros status body; apply H200]);
      left; repeat split;
      try (intros url (x' & y' & Hx & _); discriminate);
      intros status body H; apply respond_json_inv in H as [H _]; discriminate.
Qed.

(** X10.  An endpoint reads the network through one call only, the query it
    built with the timeout of 8 seconds: two providers that answer this call
    alike get the same response. *)
Theorem answer_depends_on_one_call :
  forall today fromisoformat requests_get requests_get' daily lat lon start end_,
    (forall url,
       sent today fromisoformat daily lat lon start end_ url ->
       requests_get url 8 = requests_get' url 8) ->
    endpoint today fromisoformat requests_get daily lat lon start end_
      = endpoint today fromisoformat requests_get' daily lat lon start end_.
Proof.
  intros today fi rg rg' daily lat lon start end_ H.
  unfold endpoint, weather_daily, weather_weekly, fetch_weather.
  destruct (cast_coordinates lat lon) as [[x y]|e] eqn:Hc; [|reflexivity].
  destruct daily;
    (destruct (build_api_call today fi x y _ start end_) as [url|e] eqn:Hb;
     [|reflexivity];
     change REQUEST_TIMEOUT with 8;
     rewrite (H url) by (exists x, y; split; [exact Hc|exact Hb]);
     reflexivity).
Qed.

Lemma answer_depends_on_one_call_witness :
  endpoint Tests.a_day fromisoformat_ymd
    (fun url timeout =>
       if timeout =? 8 then Ok {| ok := true; status_code := 200; payload := Ok Tests.daily_raw |}
       else Raise (RequestException "timed out"))
    true "10" "20" None None
  = endpoint Tests.a_day fromisoformat_ymd
      (Tests.make_response true 200 Tests.daily_raw) true "10" "20" None None.
Proof.
  apply (answer_depends_on_one_call Tests.a_day fromisoformat_ymd
           (fun url timeout =>
              if timeout =? 8
              then Ok {| ok := true; status_code := 200; payload := Ok Tests.daily_raw |}
              else Raise (RequestException "timed out"))
           (Tests.make_response true 200 Tests.daily_raw)).
  intros url _. reflexivity.
Defined.

(** ** The exchange with the forecast provider *)

Lemma endpoint_sent today fi rg daily lat lon start end_ url :
  sent today fi daily lat lon start end_ url ->
  endpoint today fi rg daily lat lon start end_ =
    (respond
       (raw <- except_ValueError
                 (r <- rg url REQUEST_TIMEOUT ;;
                  if ok r then payload r
                  else abort (status_code r) "Open-Meteo error")
                 (fun msg => abort 400 msg) ;;
        if daily then filter_daily raw else summarise_weekly raw start end_),
     [url]).
Proof.
  intros (x & y & Hc & Hb).
  unfold endpoint, weather_daily, weather_weekly, fetch_weather.
  destruct daily; rewrite Hc, Hb; reflexivity.
Qed.

Lemma sent_fixture (daily : bool) :
  exists url, sent Tests.a_day fromisoformat_ymd daily "10" "20" None None url.
Proof. eexists. eexists _, _. split; reflexivity. Qed.

(** X11.  When the provider answers with an error status, both endpoints
    answer with the same status and the description "Open-Meteo error",
    whatever the body of the provider's answer is. *)
Theorem upstream_error_status_relayed :
  forall today fromisoformat requests_get daily lat lon start end_ url r,
    sent today fromisoformat daily lat lon start end_ url ->
    requests_get url REQUEST_TIMEOUT = Ok r ->
    ok r = false ->
    In (status_code r) abort_statuses ->
    endpoint today fromisoformat requests_get daily lat lon start end_
      = (ErrorResponse (status_code r) "Open-Meteo error", [url]).
Proof.
  intros today fi rg daily lat lon start end_ url r Hs Hr Hok _.
  rewrite (endpoint_sent _ _ rg _ _ _ _ _ _ Hs), Hr. cbn [bind]. rewrite Hok.
  reflexivity.
Qed.

Lemma upstream_error_status_witness :
  exists url,
    endpoint Tests.a_day fromisoformat_ymd (Tests.make_response false 503 JNull)
      false "10" "20" None None
    = (ErrorResponse 503 "Open-Meteo error", [url]).
Proof.
  destruct (sent_fixture false) as [url Hs]. exists url.
  apply (upstream_error_status_relayed Tests.a_day fromisoformat_ymd
           (Tests.make_response false 503 JNull) false "10" "20" None None url
           {| ok := false; status_code := 503; payload := Ok JNull |} Hs).
  - reflexivity.
  - reflexivity.
  - vm_compute. tauto.
Defined.

(** X12.  A provider answer with a success status whose body is not JSON is
    answered 400 with the decoder's message: [r.json()] raises a [ValueError]
    (requests' [JSONDecodeError] is one), and the [except ValueError] meant
    for the validation errors of [build_api_call] wraps the whole of
    [fetch_weather]. *)
Theorem undecodable_body_answered_400 :
  forall today fromisoformat requests_get daily lat lon start end_ url r msg,
    sent today fromisoformat daily lat lon start end_ url ->
    requests_get url REQUEST_TIMEOUT = Ok r ->
    ok r = true ->
    payload r = Raise (ValueError msg) ->
    endpoint today fromisoformat requests_get daily lat lon start end_
      = (ErrorResponse 400 msg, [url]).
Proof.
  intros today fi rg daily lat lon start end_ url r msg Hs Hr Hok Hp.
  rewrite (endpoint_sent _ _ rg _ _ _ _ _ _ Hs), Hr. cbn [bind].
  rewrite Hok, Hp. reflexivity.
Qed.

Lemma undecodable_body_witness :
  exists url,
    endpoint Tests.a_day fromisoformat_ymd (not_json "Expecting value")
      true "10" "20" None None
    = (ErrorResponse 400 "Expecting value", [url]).
Proof.
  destruct (sent_fixture true) as [url Hs]. exists url.
  apply (undecodable_body_answered_400 Tests.a_day fromisoformat_ymd
           (not_json "Expecting value") true "10" "20" None None url
           {| ok := true; status_code := 200;
              payload := Raise (ValueError "Expecting value") |} "Expecting value" Hs).
  - reflexivity.
  - reflexivity.
  - reflexivity.
Defined.

(** X13.  A failure of the call itself (a timeout, a refused connection: a
    [RequestException] that is no [ValueError]) is caught nowhere: both
    endpoints end in that exception, status 500, and the one call was made. *)
Theorem network_failure_is_unhandled :
  forall today fromisoformat requests_get daily lat lon start end_ url msg,
    sent today fromisoformat daily lat lon start end_ url ->
    requests_get url REQUEST_TIMEOUT = Raise (RequestException msg) ->
    endpoint today fromisoformat requests_get daily lat lon start end_
      = (Crash (RequestException msg), [url]) /\
    status_of (fst (endpoint today fromisoformat requests_get daily lat lon start end_))
      = Some 500.
Proof.
  intros today fi rg daily lat lon start end_ url msg Hs Hr.
  rewrite (endpoint_sent _ _ rg _ _ _ _ _ _ Hs), Hr. split; reflexivity.
Qed.

Lemma network_failure_witness :
  exists url,
    endpoint Tests.a_day fromisoformat_ymd (unreachable (RequestException "timed out"))
      false "10" "20" None None
      = (Crash (RequestException "timed out"), [url]) /\
    status_of (fst (endpoint Tests.a_day fromisoformat_ymd
                      (unreachable (RequestException "timed out"))
                      false "10" "20" None None))
      = Some 500.
Proof.
  destruct (sent_fixture false) as [url Hs]. exists url.
  apply (network_failure_is_unhandled Tests.a_day fromisoformat_ymd
           (unreachable (RequestException "timed out")) false "10" "20" None None
           url "timed out" Hs).
  reflexivity.
Defined.

(** ** Bodies the endpoints cannot use *)

Lemma endpoint_answered today fi rg daily lat lon start end_ url data :
  answered today fi rg daily lat lon start end_ url data ->
  endpoint today fi rg daily lat lon start end_ =
    (respond (if daily then filter_daily data else summarise_weekly data start end_),
     [url]).
Proof.
  intros Ha. unfold endpoint. destruct daily.
  - apply weather_daily_answered, Ha.
  - apply weather_weekly_answered, Ha.
Qed.

Lemma contains_item key items :
  existsb (is_str key) items = false <-> ~ In (JStr key) items.
Proof.
  induction items as [|x t IH]; cbn.
  - tauto.
  - rewrite orb_false_iff, IH. split.
    + intros [Hx Ht] [->|H]; [|tauto]. cbn in Hx. now rewrite String.eqb_refl in Hx.
    + intros H. split; [|tauto].
      destruct x as [| | |s| |]; try reflexivity. cbn.
      destruct (String.eqb_spec s key) as [->|]; [|reflexivity]. tauto.
Qed.

Lemma lacks_daily_without raw : lacks_daily raw = Ok true <-> without_daily raw.
Proof.
  unfold lacks_daily, without_daily.
  destruct (py_truthy raw) eqn:Ht; cbn [negb]; [|split; [now left|reflexivity]].
  destruct raw as [|b|n|s|items|members]; cbn [py_contains bind].
  - discriminate.
  - split; [discriminate|]. intros [|[]]; discriminate.
  - split; [discriminate|]. intros [|[]]; discriminate.
  - destruct (is_substring "daily" s); cbn; split; try discriminate; try tauto.
    intros [|]; discriminate.
  - rewrite <- contains_item.
    destruct (existsb (is_str "daily") items); cbn; split; try discriminate; try tauto.
    intros [|]; discriminate.
  - destruct (dict_get "daily" members) as [v|] eqn:Hd.
    + rewrite (dict_get_in_keys _ _ _ Hd). cbn. split; [discriminate|].
      intros [|]; discriminate.
    + rewrite (dict_get_not_in_keys _ _ Hd). cbn. split; [now right|reflexivity].
Qed.

Lemma lacks_daily_false raw :
  lacks_daily raw = Ok false ->
  (exists members v, raw = JObj members /\ dict_get "daily" members = Some v) \/
  (exists e, py_getitem raw "daily" = Raise (TypeError e)).
Proof.
  unfold lacks_daily.
  destruct (py_truthy raw); cbn [negb]; [|discriminate].
  destruct raw as [|b|n|s|items|members]; cbn [py_contains bind]; try discriminate.
  - intros _. right. eexists. reflexivity.
  - intros _. right. eexists. reflexivity.
  - intros H. left. destruct (dict_get "daily" members) as [v|] eqn:Hd; [eauto|].
    rewrite (dict_get_not_in_keys _ _ Hd) in H. discriminate.
Qed.

Lemma lacks_daily_raises raw e : lacks_daily raw = Raise e -> exists m, e = TypeError m.
Proof.
  unfold lacks_daily.
  destruct (py_truthy raw); cbn [negb]; [|discriminate].
  destruct raw as [|b|n|s|items|members]; cbn [py_contains bind]; try discriminate;
    intros H; injection H as <-; eexists; reflexivity.
Qed.

(** What [filter_daily] and [summarise_weekly] do with a body whose [daily]
    member is no object. *)
Lemma daily_member_not_object members v daily start end_ :
  dict_get "daily" members = Some v ->
  (forall fields, v <> JObj fields) ->
  (if daily : bool then filter_daily (JObj members)
   else summarise_weekly (JObj members) start end_)
  = Raise (AttributeError "object has no attribute 'get'").
Proof.
  intros Hd Hv. unfold filter_daily, summarise_weekly.
  rewrite (lacks_daily_object _ _ Hd). cbn [bind].
  unfold py_getitem. rewrite Hd. cbn [bind].
  destruct daily.
  - rewrite py_get_object. cbn [bind].
    destruct v as [| | | | |fields]; try reflexivity. now elim (Hv fields).
  - destruct v as [| | | | |fields]; try reflexivity. now elim (Hv fields).
Qed.

Lemma view_no_data data daily start end_ :
  (if daily : bool then filter_daily data else summarise_weekly data start end_)
    = Raise (HTTPException 404 no_data)
  <-> lacks_daily data = Ok true.
Proof.
  split.
  - intros H.
    destruct (lacks_daily data) as [[|]|e] eqn:Hl; [reflexivity| |].
    + exfalso.
      destruct (lacks_daily_false _ Hl) as [(members & v & -> & Hd)|[e He]].
      * destruct v as [| | | | |fields];
          try (rewrite (daily_member_not_object members _ daily start end_ Hd) in H;
               [discriminate|intros; discriminate]).
        destruct daily.
        -- unfold filter_daily in H. rewrite Hl in H. cbn [bind] in H.
           unfold py_getitem in H. rewrite Hd in H. cbn [bind] in H.
           rewrite !py_get_object in H. cbn [bind] in H.
           destruct (get_or members "daily_units" (JObj [])) as [| | | | |units];
             try discriminate.
           rewrite !py_get_object in H. discriminate.
        -- rewrite (summarise_weekly_object _ _ _ _ Hd) in H.
           destruct (all_empty fields); [discriminate|].
           pose proof (weekly_statistics_aborts members fields start end_) as Hn.
           rewrite H in Hn. discriminate.
      * destruct daily; [unfold filter_daily in H|unfold summarise_weekly in H];
          rewrite Hl in H; cbn [bind] in H; rewrite He in H; discriminate.
    + exfalso. destruct (lacks_daily_raises _ _ Hl) as [m ->].
      destruct daily; [unfold filter_daily in H|unfold summarise_weekly in H];
        rewrite Hl in H; discriminate.
  - intros Hl. destruct daily; [unfold filter_daily|unfold summarise_weekly];
      rewrite Hl; reflexivity.
Qed.

(** X14.  Both endpoints answer 404 "No weather data found ..." exactly when
    the body the provider returned is false ([{}], [[]], [null], [0], [""],
    [false]) or does not contain ["daily"]: no such key in a dict, no such
    item in a list, no such substring in a string. *)
Theorem no_data_404_iff :
  forall today fromisoformat requests_get daily lat lon start end_ url data,
    answered today fromisoformat requests_get daily lat lon start end_ url data ->
    (endpoint today fromisoformat requests_get daily lat lon start end_
       = (ErrorResponse 404 no_data, [url])
     <-> without_daily data).
Proof.
  intros today fi rg daily lat lon start end_ url data Ha.
  rewrite (endpoint_answered _ _ _ _ _ _ _ _ _ _ Ha).
  rewrite <- lacks_daily_without, <- (view_no_data data daily start end_).
  split.
  - intros H. injection H as H.
    destruct (if daily then _ else _) as [b|[]]; cbn in H; try discriminate.
    now injection H as -> ->.
  - intros ->. reflexivity.
Qed.

Lemma no_data_404_witness :
  exists url,
    (endpoint Tests.a_day fromisoformat_ymd
       (Tests.make_response true 200 (JArr [JStr "hourly"])) true "10" "20" None None
       = (ErrorResponse 404 no_data, [url])
     <-> without_daily (JArr [JStr "hourly"])).
Proof.
  destruct (answered_fixture true (JArr [JStr "hourly"])) as [url Ha]. exists url.
  exact (no_data_404_iff Tests.a_day fromisoformat_ymd
           (Tests.make_response true 200 (JArr [JStr "hourly"]))
           true "10" "20" None None url (JArr [JStr "hourly"]) Ha).
Defined.

(** X15.  A body whose [daily] member is not an object ([null], a list, a
    string, a number) passes the ["daily" in raw] test and then breaks
    [daily.get]: both endpoints end in an [AttributeError], status 500, not in
    a 404. *)
Theorem daily_member_must_be_object :
  forall today fromisoformat requests_get daily lat lon start end_ url members v,
    answered today fromisoformat requests_get daily lat lon start end_ url
      (JObj members) ->
    dict_get "daily" members = Some v ->
    (forall fields, v <> JObj fields) ->
    endpoint today fromisoformat requests_get daily lat lon start end_
      = (Crash (AttributeError "object has no attribute 'get'"), [url]) /\
    status_of (fst (endpoint today fromisoformat requests_get daily lat lon start end_))
      = Some 500.
Proof.
  intros today fi rg daily lat lon start end_ url members v Ha Hd Hv.
  rewrite (endpoint_answered _ _ _ _ _ _ _ _ _ _ Ha).
  rewrite (daily_member_not_object members v daily start end_ Hd Hv).
  split; reflexivity.
Qed.

Lemma daily_member_must_be_object_witness :
  exists url,
    endpoint Tests.a_day fromisoformat_ymd
      (Tests.make_response true 200 (JObj [("daily", JNull)])) false "10" "20" None None
      = (Crash (AttributeError "object has no attribute 'get'"), [url]) /\
    status_of (fst (endpoint Tests.a_day fromisoformat_ymd
                      (Tests.make_response true 200 (JObj [("daily", JNull)]))
                      false "10" "20" None None))
      = Some 500.
Proof.
  destruct (answered_fixture false (JObj [("daily", JNull)])) as [url Ha]. exists url.
  apply (daily_member_must_be_object Tests.a_day fromisoformat_ymd
           (Tests.make_response true 200 (JObj [("daily", JNull)]))
           false "10" "20" None None url [("daily", JNull)] JNull Ha).
  - reflexivity.
  - intros fields. discriminate.
Defined.

(** X16.  The daily view answers 200 exactly when the body is an object whose
    [daily] member is an object and whose [daily_units] member is absent or an
    object; a [daily_units] of [null] is no such body. After a call the
    provider answered, the only HTTP error of the view is the 404 "No weather
    data found ...". *)
Theorem daily_view_200_iff :
  forall today fromisoformat requests_get lat lon start end_ url data,
    answered today fromisoformat requests_get true lat lon start end_ url data ->
    ((exists body,
        weather_daily today fromisoformat requests_get lat lon start end_
          = (JsonResponse 200 body, [url]))
     <-> exists members daily units,
           data = JObj members /\
           dict_get "daily" members = Some (JObj daily) /\
           get_or members "daily_units" (JObj []) = JObj units) /\
    (forall status description,
       fst (weather_daily today fromisoformat requests_get lat lon start end_)
         = ErrorResponse status description ->
       status = 404 /\ description = no_data).
Proof.
  intros today fi rg lat lon start end_ url data Ha.
  rewrite (weather_daily_answered _ _ _ _ _ _ _ _ _ Ha). split.
  - split.
    + intros [body H]. injection H as H.
      apply respond_json_inv in H as [H _].
      apply filter_daily_inv in H as (members & daily & units & H1 & H2 & H3 & _).
      exists members, daily, units. repeat split; assumption.
    + intros (members & daily & units & -> & Hd & Hu).
      rewrite (filter_daily_object _ _ _ Hd Hu). eexists. reflexivity.
  - cbn [fst]. intros status description H.
    destruct (filter_daily data) as [b|e] eqn:Hf; [discriminate|].
    destruct e; try discriminate. cbn in H. injection H as -> ->.
    revert Hf. unfold filter_daily.
    destruct (lacks_daily data) as [[|]|e] eqn:Hl; cbn [bind].
    + intros H. injection H as <- <-. split; reflexivity.
    + destruct (lacks_daily_false _ Hl) as [(members & v & -> & Hd)|[e He]].
      * unfold py_getitem. rewrite Hd. cbn [bind]. rewrite py_get_object. cbn [bind].
        destruct v as [| | | | |daily]; try (intros H; discriminate H).
        rewrite !py_get_object. cbn [bind].
        destruct (get_or members "daily_units" (JObj [])) as [| | | | |units];
          try (intros H; discriminate H).
        rewrite !py_get_object. intros H; discriminate H.
      * rewrite He. intros H; discriminate H.
    + destruct (lacks_daily_raises _ _ Hl) as [m ->]. intros H; discriminate H.
Qed.

Lemma daily_view_200_witness :
  exists url,
    ((exists body,
        weather_daily Tests.a_day fromisoformat_ymd
          (Tests.make_response true 200 (JObj [("daily", JObj []); ("daily_units", JNull)]))
          "10" "20" None None
          = (JsonResponse 200 body, [url]))
     <-> exists members daily units,
           JObj [("daily", JObj []); ("daily_units", JNull)] = JObj members /\
           dict_get "daily" members = Some (JObj daily) /\
           get_or members "daily_units" (JObj []) = JObj units) /\
    (forall status description,
       fst (weather_daily Tests.a_day fromisoformat_ymd
              (Tests.make_response true 200
                 (JObj [("daily", JObj []); ("daily_units", JNull)]))
              "10" "20" None None)
         = ErrorResponse status description ->
       status = 404 /\ description = no_data).
Proof.
  destruct (answered_fixture true (JObj [("daily", JObj []); ("daily_units", JNull)]))
    as [url Ha].
  exists url.
  exact (daily_view_200_iff Tests.a_day fromisoformat_ymd
           (Tests.make_response true 200 (JObj [("daily", JObj []); ("daily_units", JNull)]))
           "10" "20" None None url _ Ha).
Defined.

(** ** The daily view as a filter *)

(** X17.  [filter_daily] is idempotent: a body it produced is a body it
    returns unchanged. The first test of the suite rests on this, its fixture
    holding the ten fields of the view and nothing else. *)
Theorem filter_daily_idempotent :
  forall raw body, filter_daily raw = Ok body -> filter_daily body = Ok body.
Proof.
  intros raw body H.
  apply filter_daily_inv in H as (members & daily & units & _ & _ & _ & ->).
  unfold filtered at 1.
  erewrite filter_daily_object; [|reflexivity|reflexivity].
  reflexivity.
Qed.

Lemma filter_daily_idempotent_witness :
  filter_daily (filtered [("time", JArr [JStr "2025-06-01"]); ("wind", JArr [])] [])
  = Ok (filtered [("time", JArr [JStr "2025-06-01"]); ("wind", JArr [])] []).
Proof.
  apply (filter_daily_idempotent
           (JObj [("daily", JObj [("time", JArr [JStr "2025-06-01"]); ("wind", JArr [])])])).
  reflexivity.
Defined.

(** ** The weekly summary: its fields *)

(** X18.  Every JSON answer of the weekly endpoint is built from a dict with
    the same nine keys, and its [latitude] and [longitude] are those of the
    provider's body ([null] when the body has none), not the coordinates of
    the request. *)
Theorem weekly_summary_fields :
  forall today fromisoformat requests_get lat lon start end_ url data status body calls,
    answered today fromisoformat requests_get false lat lon start end_ url data ->
    weather_weekly today fromisoformat requests_get lat lon start end_
      = (JsonResponse status body, calls) ->
    exists members fields,
      data = JObj members /\ body = JObj fields /\
      dict_keys fields = summary_keys /\
      dict_get "latitude" fields = Some (get_or members "latitude" JNull) /\
      dict_get "longitude" fields = Some (get_or members "longitude" JNull).
Proof.
  intros today fi rg lat lon start end_ url data status body calls Ha.
  rewrite (weather_weekly_answered _ _ _ _ _ _ _ _ _ Ha).
  intros H. injection H as H _.
  apply respond_json_inv in H as [H _].
  destruct (summarise_weekly_shape data start end_)
    as [(members & daily & -> & Hd)|(e & _ & _ & Hne)]; [|now elim (Hne body)].
  rewrite (summarise_weekly_object _ _ _ _ Hd) in H.
  destruct (all_empty daily); [discriminate|].
  apply weekly_statistics_inv in H
    as (a1 & a2 & a3 & a4 & a5 & a6 & a7 & _ & _ & _ & _ & _ & _ & _ & ->).
  eexists _, _. repeat split; reflexivity.
Qed.

Lemma weekly_summary_fields_witness :
  exists members fields,
    located = JObj members /\
    JObj [("avg_pressure_hPa", JNull); ("weekly_max_temp", JNull);
          ("weekly_min_temp", JNull); ("avg_sunshine_hours", JNull);
          ("most_frequent_weather_code", Tests.num 3);
          ("latitude", JNum (PFloat (Float64.of_decimal false 5252 (-2))));
          ("longitude", JNum (PFloat (Float64.of_decimal false 13419998 (-6))));
          ("start_date", JNull); ("end_date", JNull)] = JObj fields /\
    dict_keys fields = summary_keys /\
    dict_get "latitude" fields = Some (get_or members "latitude" JNull) /\
    dict_get "longitude" fields = Some (get_or members "longitude" JNull).
Proof.
  apply (weekly_summary_fields Tests.a_day fromisoformat_ymd
           (Tests.make_response true 200 located) "10" "20" None None
           (query (PFloat (Float64.of_decimal false 10 0))
                  (PFloat (Float64.of_decimal false 20 0)) false
                  "2025-06-01" "2025-06-08")
           located 200
           (JObj [("avg_pressure_hPa", JNull); ("weekly_max_temp", JNull);
                  ("weekly_min_temp", JNull); ("avg_sunshine_hours", JNull);
                  ("most_frequent_weather_code", Tests.num 3);
                  ("latitude", JNum (PFloat (Float64.of_decimal false 5252 (-2))));
                  ("longitude", JNum (PFloat (Float64.of_decimal false 13419998 (-6))));
                  ("start_date", JNull); ("end_date", JNull)])
           [query (PFloat (Float64.of_decimal false 10 0))
                  (PFloat (Float64.of_decimal false 20 0)) false
                  "2025-06-01" "2025-06-08"]).
  - exists (PFloat (Float64.of_decimal false 10 0)),
           (PFloat (Float64.of_decimal false 20 0)),
           {| ok := true; status_code := 200; payload := Ok located |}.
    repeat split; reflexivity.
  - reflexivity.
Defined.

(** ** The weekly summary: its errors *)

(** X19.  Once the provider has answered, the weekly endpoint knows two HTTP
    errors only, the 404 of a body without [daily] and the 404 of the empty
    data set: an aggregate that cannot be computed is never turned into an
    HTTP error of the service. *)
Theorem weekly_errors_are_404 :
  forall today fromisoformat requests_get lat lon start end_ url data status description,
    answered today fromisoformat requests_get false lat lon start end_ url data ->
    fst (weather_weekly today fromisoformat requests_get lat lon start end_)
      = ErrorResponse status description ->
    status = 404 /\ (description = no_data \/ description = empty_data_set).
Proof.
  intros today fi rg lat lon start end_ url data status description Ha.
  rewrite (weather_weekly_answered _ _ _ _ _ _ _ _ _ Ha). cbn [fst].
  intros H.
  assert (Hs : summarise_weekly data start end_ = Raise (HTTPException status description)).
  { destruct (summarise_weekly data start end_) as [b|[]]; cbn in H; try discriminate.
    now injection H as -> ->. }
  clear H. revert Hs.
  destruct (lacks_daily data) as [[|]|e] eqn:Hl.
  - unfold summarise_weekly. rewrite Hl. cbn [bind].
    intros H. injection H as <- <-. split; [reflexivity|now left].
  - destruct (lacks_daily_false _ Hl) as [(members & v & -> & Hd)|[e He]].
    + destruct v as [| | | | |fields];
        try (rewrite (daily_member_not_object members _ false start end_ Hd)
               by (intros; discriminate);
             intros H; discriminate H).
      rewrite (summarise_weekly_object _ _ _ _ Hd).
      destruct (all_empty fields).
      * intros H. injection H as <- <-. split; [reflexivity|now right].
      * intros H.
        pose proof (weekly_statistics_aborts members fields start end_) as Hn.
        rewrite H in Hn. discriminate.
    + unfold summarise_weekly. rewrite Hl. cbn [bind]. rewrite He.
      intros H; discriminate H.
  - unfold summarise_weekly. rewrite Hl. cbn [bind].
    destruct (lacks_daily_raises _ _ Hl) as [m ->]. intros H; discriminate H.
Qed.

Lemma weekly_errors_witness :
  404 = 404 /\ (empty_data_set = no_data \/ empty_data_set = empty_data_set).
Proof.
  apply (weekly_errors_are_404 Tests.a_day fromisoformat_ymd
           (Tests.make_response true 200 empty_daily) "10" "20" None None
           (query (PFloat (Float64.of_decimal false 10 0))
                  (PFloat (Float64.of_decimal false 20 0)) false
                  "2025-06-01" "2025-06-08")
           empty_daily 404 empty_data_set).
  - exists (PFloat (Float64.of_decimal false 10 0)),
           (PFloat (Float64.of_decimal false 20 0)),
           {| ok := true; status_code := 200; payload := Ok empty_daily |}.
    repeat split; reflexivity.
  - reflexivity.
Defined.
